(** * SVA Terminal: the biometric template matching core

  A shallow embedding of the matching engine of the SVA terminal
  (src/fingerprint_utils.py, src/face_recognition_utils.py,
  src/biometric_utils.py and the decision code of src/biometric.py and
  src/biometric_enhanced.py).

  Python floats are IEEE 754 binary64 numbers and are modelled by Rocq's
  primitive floats, so every definition below can be run on concrete
  inputs.  Python lists are lists, dictionaries with a fixed key set are
  records (a key that the code reads with [.get] is an optional field),
  [None] is [None], and a caught exception is an explicit failure value. *)

From Stdlib Require Import Floats ZArith Ascii String List Bool Lia PeanoNat.
From Stdlib Require Import DecimalString.
From Stdlib Require DecimalNat DecimalFacts.
From Stdlib Require Uint63.
Import ListNotations.

Set Warnings "-inexact-float".

(** ** Python and NumPy primitives used by the code *)

Module Py.

Local Open Scope float_scope.

(** An [int] used where a float is expected ([matches / max_possible_matches],
    [360 - angle_diff]).  Exact below 2^53, far above any list length. *)
Definition float_of_nat (n : nat) : float :=
  PrimFloat.of_uint63 (Uint63.of_Z (Z.of_nat n)).

(** Builtin [min(a, b)]: the first argument unless the second is smaller. *)
Definition min (a b : float) : float := if b <? a then b else a.

(** [str(n)] for a non-negative integer, as it appears in f-strings. *)
Definition str_of_nat (n : nat) : string :=
  NilZero.string_of_uint (Nat.to_uint n).

(** [int(f)]: truncation towards zero; raises on NaN and on infinities.
    The left injection carries the exception text. *)
Definition int_of_float (f : float) : string + Z :=
  match Prim2SF f with
  | S754_zero _ => inr 0%Z
  | S754_nan => inl "cannot convert float NaN to integer"%string
  | S754_infinity _ => inl "cannot convert float infinity to integer"%string
  | S754_finite s m e =>
      let magnitude :=
        if (0 <=? e)%Z then Z.shiftl (Z.pos m) e else Z.shiftr (Z.pos m) (- e) in
      inr (if s then (- magnitude)%Z else magnitude)
  end.

(** [dict.get(key, default)] on an optional field. *)
Definition get {A} (field : option A) (default : A) : A :=
  match field with Some v => v | None => default end.

(** Sum of a sequence of floats, accumulated from the left. *)
Definition fsum (l : list float) : float := fold_left PrimFloat.add l 0.

(** NumPy's summation of a contiguous array of doubles (the inner loop of
    [np.add.reduce]).  Fewer than 8 values are added from the left.  Up to
    128 values go through eight running sums, one for each position modulo
    8; these are added as a tree, and the values after the last full group
    of eight are added from the left.  A longer array is cut in two at a
    multiple of 8 and the sums of the halves are added. *)
Fixpoint add_lanes (r block : list float) : list float :=
  match r, block with
  | x :: r', y :: block' => (x + y) :: add_lanes r' block'
  | _, _ => []
  end.

Fixpoint unrolled (groups : nat) (r a : list float) : list float * list float :=
  match groups with
  | O => (r, a)
  | S groups' => unrolled groups' (add_lanes r (firstn 8 a)) (skipn 8 a)
  end.

Definition sum_unrolled (a : list float) : float :=
  let (r, rest) := unrolled (length a / 8 - 1) (firstn 8 a) (skipn 8 a) in
  match r with
  | [r0; r1; r2; r3; r4; r5; r6; r7] =>
      fold_left PrimFloat.add rest (((r0 + r1) + (r2 + r3)) + ((r4 + r5) + (r6 + r7)))
  | _ => 0
  end.

(** [fuel] bounds the depth of the halving; the length of the array is
    always enough. *)
Fixpoint pairwise_sum (fuel : nat) (a : list float) : float :=
  let n := length a in
  if (n <? 8)%nat then fsum a
  else if (n <=? 128)%nat then sum_unrolled a
  else
    match fuel with
    | O => 0
    | S fuel' =>
        let n2 := (n / 2 - (n / 2) mod 8)%nat in
        pairwise_sum fuel' (firstn n2 a) + pairwise_sum fuel' (skipn n2 a)
    end.

(** [np.sum] of a one-dimensional sequence: the reduction starts from 0. *)
Definition np_sum (l : list float) : float := 0 + pairwise_sum (length l) l.

(** [np.mean] of a one-dimensional sequence. *)
Definition mean (l : list float) : float := np_sum l / float_of_nat (length l).

End Py.

(** ** Fingerprint service (src/fingerprint_utils.py) *)

Module Fingerprint.

Local Open Scope float_scope.

(** A minutia point: the dictionary with keys x, y, angle, type, quality. *)
Record minutia := Minutia {
  m_x : float;
  m_y : float;
  m_angle : float;
  m_type : string;
  m_quality : float
}.

(** A fingerprint template dictionary.  Every key is optional: the code
    reads them with [.get], the mock template of the verification route has
    only two of them, and [{}] is the record with no key at all. *)
Record template := Template {
  minutiae_points : option (list minutia);
  quality_score : option float;
  extraction_timestamp : option string;
  template_version : option string;
  combined_from : option nat
}.

Definition empty_dict : template := Template None None None None None.

(** *** _calculate_minutiae_similarity *)

Definition tolerance : float := 10.0.
Definition angle_tolerance : float := 30.0.

(** The test in the body of the inner loop. *)
Definition points_match (p1 p2 : minutia) : bool :=
  let dx := m_x p1 - m_x p2 in
  let dy := m_y p1 - m_y p2 in
  let distance := PrimFloat.sqrt (dx * dx + dy * dy) in
  let angle_diff := abs (m_angle p1 - m_angle p2) in
  let angle_diff := Py.min angle_diff (360 - angle_diff) in
  (distance <=? tolerance) && (angle_diff <=? angle_tolerance)
    && String.eqb (m_type p1) (m_type p2).

(** The inner loop [for p2 in points2: ... break]: does the scan of
    [points2] reach a point that matches [p1]? *)
Fixpoint inner_loop (p1 : minutia) (points2 : list minutia) : bool :=
  match points2 with
  | [] => false
  | p2 :: rest => if points_match p1 p2 then true else inner_loop p1 rest
  end.

(** The outer loop, threading the counter [matches]. *)
Definition count_matches (points1 points2 : list minutia) : nat :=
  fold_left (fun matches p1 => if inner_loop p1 points2 then S matches else matches)
            points1 0%nat.

Definition _calculate_minutiae_similarity (points1 points2 : list minutia) : float :=
  match points1, points2 with
  | [], _ | _, [] => 0.0
  | _, _ =>
      let matches := count_matches points1 points2 in
      let max_possible_matches := Nat.min (length points1) (length points2) in
      if (max_possible_matches =? 0)%nat then 0.0
      else Py.float_of_nat matches / Py.float_of_nat max_possible_matches
  end.

(** *** compare_fingerprint_templates *)

Record comparison := Comparison {
  success : bool;
  error : option string;
  similarity : float;
  is_match : bool;
  threshold : option float;
  confidence : option float;
  matched_points : option Z
}.

Definition failed (msg : string) : comparison :=
  Comparison false (Some msg) 0.0 false None None None.

(** [not template]: the argument is [None] or the empty dictionary. *)
Definition falsy (t : option template) : bool :=
  match t with
  | None => true
  | Some (Template None None None None None) => true
  | Some _ => false
  end.

Definition default_threshold : float := 0.7.

Definition compare_fingerprint_templates
    (template1 template2 : option template) (threshold : float) : comparison :=
  match template1, template2 with
  | Some t1, Some t2 =>
      if falsy template1 || falsy template2 then failed "Invalid templates provided"
      else
        let points1 := Py.get (minutiae_points t1) [] in
        let points2 := Py.get (minutiae_points t2) [] in
        match points1, points2 with
        | [], _ | _, [] => failed "No minutiae points in templates"
        | _, _ =>
            let similarity := _calculate_minutiae_similarity points1 points2 in
            let match_ := threshold <? similarity in
            match Py.int_of_float
                    (similarity * Py.float_of_nat (Nat.min (length points1) (length points2))) with
            | inl exception => failed exception
            | inr n =>
                Comparison true None similarity match_ (Some threshold)
                           (Some similarity) (Some n)
            end
        end
  | _, _ => failed "Invalid templates provided"
  end.

(** *** _remove_duplicate_minutiae *)

Definition dedup_tolerance : float := 5.0.

(** The distance test of the deduplication loop. *)
Definition is_close (point unique_point : minutia) : bool :=
  let dx := m_x point - m_x unique_point in
  let dy := m_y point - m_y unique_point in
  let distance := PrimFloat.sqrt (dx * dx + dy * dy) in
  distance <=? dedup_tolerance.

(** The inner loop over [unique_points].  [None]: no entry is within the
    tolerance ([is_duplicate] stays false).  [Some l]: the scan stopped at
    the first close entry and [l] is the list it leaves behind: unchanged,
    or with that entry removed and [point] appended when [point] has the
    higher quality.  ([list.remove] deletes the first element equal to the
    entry; equal dictionaries have equal coordinates, so an earlier equal
    element would have stopped the scan itself: the element removed is the
    one the scan stands on.) *)
Fixpoint scan_unique (point : minutia) (unique_points : list minutia)
  : option (list minutia) :=
  match unique_points with
  | [] => None
  | unique_point :: rest =>
      if is_close point unique_point then
        Some (if m_quality unique_point <? m_quality point
              then rest ++ [point]
              else unique_point :: rest)
      else option_map (cons unique_point) (scan_unique point rest)
  end.

(** One iteration of the outer loop. *)
Definition dedup_step (unique_points : list minutia) (point : minutia) : list minutia :=
  match scan_unique point unique_points with
  | Some updated => updated
  | None => unique_points ++ [point]
  end.

Definition _remove_duplicate_minutiae (points : list minutia) : list minutia :=
  fold_left dedup_step points [].

(** *** _combine_templates

    [now] is the text of [datetime.now().isoformat()]. *)
Definition _combine_templates (now : string) (templates : list template) : template :=
  match templates with
  | [] => empty_dict
  | [t] => t
  | _ =>
      let all_points := flat_map (fun t => Py.get (minutiae_points t) []) templates in
      let unique_points := _remove_duplicate_minutiae all_points in
      let quality_scores := map (fun t => Py.get (quality_score t) 0.0) templates in
      let combined_quality := Py.mean quality_scores in
      {| minutiae_points := Some unique_points;
         quality_score := Some combined_quality;
         extraction_timestamp := Some now;
         template_version := Some "1.0"%string;
         combined_from := Some (length templates) |}
  end.

End Fingerprint.

(** ** Face recognition service (src/face_recognition_utils.py) *)

Module Face.

Local Open Scope float_scope.

(** A face-mesh landmark, read through its attributes x, y and z. *)
Record landmark := Landmark {
  lm_x : float;
  lm_y : float;
  lm_z : float
}.

(** *** extract_face_encoding *)

Definition key_landmarks : list nat :=
  ((* Face outline *)
  [10; 338; 297; 332; 284; 251; 389; 356; 454; 323; 361; 288] ++
  (* Eyes *)
  [33; 7; 163; 144; 145; 153; 154; 155; 133; 173; 157; 158; 159; 160; 161; 246] ++
  (* Nose *)
  [1; 2; 5; 4; 6; 19; 94; 168; 8; 9; 10; 151] ++
  (* Mouth *)
  [12; 15; 16; 17; 18; 200; 199; 175; 0; 13; 14; 269; 270; 267; 271; 272])%nat.

Definition target_length : nat := 128%nat.

(** The loop over [key_landmarks]: three coordinates for every index that
    the landmark list has. *)
Definition landmark_coordinates (landmarks : list landmark) : list float :=
  flat_map (fun idx =>
              match nth_error landmarks idx with
              | Some l => [lm_x l; lm_y l; lm_z l]
              | None => []
              end)
           key_landmarks.

(** "Ensure consistent encoding length": slice or pad with zeros. *)
Definition fit_length (encoding : list float) : list float :=
  if (target_length <? length encoding)%nat then firstn target_length encoding
  else if (length encoding <? target_length)%nat
       then encoding ++ repeat 0.0 (target_length - length encoding)
       else encoding.

(** The image decoding and the face-mesh model are outside the repository;
    [processed] is what they hand to the rest of the function: [None] when
    any of them raised (the function catches it and returns [None]), else
    the list [results.multi_face_landmarks] (empty when no face was found). *)
Definition extract_face_encoding (processed : option (list (list landmark)))
  : option (list float) :=
  match processed with
  | None => None
  | Some [] => None
  | Some (landmarks :: _) => Some (fit_length (landmark_coordinates landmarks))
  end.

(** *** compare_face_encodings *)

Record comparison := Comparison {
  success : bool;
  error : option string;
  similarity : float;
  is_match : bool;
  threshold : option float;
  confidence : option float
}.

Definition failed (msg : string) : comparison :=
  Comparison false (Some msg) 0.0 false None None.

(** [np.dot] of two one-dimensional arrays; [None] when the lengths differ
    (NumPy raises [ValueError]).  Products are added from the left; the
    BLAS routine behind [np.dot] may add them in another order, which can
    change the last digit of a sum and nothing else: whether a sum of
    squares is zero, and every relation between the fields of a result, do
    not depend on that order. *)
Definition dot (a b : list float) : option float :=
  if (length a =? length b)%nat
  then Some (fold_left (fun acc xy => acc + fst xy * snd xy) (combine a b) 0)
  else None.

(** [np.linalg.norm] of a one-dimensional array: the square root of the
    dot product of the array with itself. *)
Definition norm (a : list float) : float :=
  PrimFloat.sqrt (fold_left (fun acc x => acc + x * x) a 0).

(** The text of the [ValueError] that [np.dot] raises for arrays of [n] and
    [m] entries: the two shapes, in the order of the arguments. *)
Definition shapes_not_aligned (n m : nat) : string :=
  ("shapes (" ++ Py.str_of_nat n ++ ",) and (" ++ Py.str_of_nat m
     ++ ",) not aligned: " ++ Py.str_of_nat n ++ " (dim 0) != "
     ++ Py.str_of_nat m ++ " (dim 0)")%string.

Definition default_threshold : float := 0.6.

Definition compare_face_encodings (encoding1 encoding2 : list float) (threshold : float)
  : comparison :=
  match encoding1, encoding2 with
  | [], _ | _, [] => failed "Invalid encodings provided"
  | _, _ =>
      match dot encoding1 encoding2 with
      | None => failed (shapes_not_aligned (length encoding1) (length encoding2))
      | Some dot_product =>
          let norm1 := norm encoding1 in
          let norm2 := norm encoding2 in
          let similarity :=
            if (norm1 =? 0) || (norm2 =? 0) then 0.0
            else dot_product / (norm1 * norm2) in
          let similarity := (similarity + 1) / 2 in
          let match_ := threshold <? similarity in
          Comparison true None similarity match_ (Some threshold) (Some similarity)
      end
  end.

(** The type of the value under ['match'].  After the zero-norm guard the
    similarity is a Python float and [similarity > threshold] is Python's
    [bool]; otherwise the similarity is the NumPy scalar of the division and
    the comparison with the threshold gives a [numpy.bool_].  The two failure
    dictionaries hold Python's [False]. *)
Definition match_is_numpy_bool (encoding1 encoding2 : list float) : bool :=
  match encoding1, encoding2 with
  | [], _ | _, [] => false
  | _, _ =>
      match dot encoding1 encoding2 with
      | None => false
      | Some _ => negb ((norm encoding1 =? 0) || (norm encoding2 =? 0))
      end
  end.

End Face.

(** ** Enrollment loops (enroll_fingerprint, enroll_face) *)

Module Enrollment.

Local Open Scope string_scope.

(** What a capture call returns: a dictionary with [success] true and the
    key [image_data], or with [success] false and, possibly, [error]. *)
Inductive capture_result :=
| Captured (image_data : string)
| CaptureFailed (error : option string).

(** *** enroll_fingerprint *)

Record fingerprint_enrollment := FingerprintEnrollment {
  fp_success : bool;
  fp_error : option string;
  fp_student_id : string;
  fingerprint_template : option Fingerprint.template;
  fp_num_samples : option Z;
  fp_enrollment_timestamp : option string
}.

Definition fp_failure (msg student_id : string) : fingerprint_enrollment :=
  FingerprintEnrollment false (Some msg) student_id None None None.

Section Scanner.

(** The scanner and the extractor are effectful (hardware, random mock data):
    [capture_fingerprint_image i] is what the capture call of iteration [i]
    returns and [extract_fingerprint_template i image] what the extraction
    of that iteration returns ([None]: no template). *)
Variable capture_fingerprint_image : nat -> capture_result.
Variable extract_fingerprint_template : nat -> string -> option Fingerprint.template.

(** The body of [for i in range(num_samples)], over the indices still to
    run; [inl] is an early [return] from the function. *)
Fixpoint fingerprint_samples (student_id : string) (indices : list nat)
         (templates : list Fingerprint.template)
  : fingerprint_enrollment + list Fingerprint.template :=
  match indices with
  | [] => inr templates
  | i :: rest =>
      match capture_fingerprint_image i with
      | CaptureFailed error =>
          inl (fp_failure ("Failed to capture sample " ++ Py.str_of_nat (i + 1) ++ ": "
                             ++ Py.get error "Unknown error") student_id)
      | Captured image_data =>
          match extract_fingerprint_template i image_data with
          | None =>
              inl (fp_failure ("Failed to extract template from sample "
                                 ++ Py.str_of_nat (i + 1)) student_id)
          | Some template => fingerprint_samples student_id rest (templates ++ [template])
          end
      end
  end.

(** [now_combine] and [now] are the two clock readings. *)
Definition enroll_fingerprint (now_combine now : string) (student_id : string)
           (num_samples : Z) : fingerprint_enrollment :=
  match fingerprint_samples student_id (seq 0 (Z.to_nat num_samples)) [] with
  | inl early => early
  | inr templates =>
      let combined_template := Fingerprint._combine_templates now_combine templates in
      {| fp_success := true;
         fp_error := None;
         fp_student_id := student_id;
         fingerprint_template := Some combined_template;
         fp_num_samples := Some num_samples;
         fp_enrollment_timestamp := Some now |}
  end.

(** Does iteration [i] hit one of the two failing steps? *)
Definition fingerprint_sample_fails (i : nat) : bool :=
  match capture_fingerprint_image i with
  | CaptureFailed _ => true
  | Captured image_data =>
      match extract_fingerprint_template i image_data with
      | None => true
      | Some _ => false
      end
  end.

End Scanner.

(** *** enroll_face *)

(** The value of [np.mean(encodings, axis=0).tolist()]: a list, or a bare
    float when there is no encoding at all. *)
Inductive mean_value :=
| Scalar (v : float)
| Vector (v : list float).

(** The text of the [ValueError] that NumPy raises when [rows] lists of
    different lengths are to become one array. *)
Definition inhomogeneous_shape (rows : nat) : string :=
  "setting an array element with a sequence. The requested array has an "
  ++ "inhomogeneous shape after 1 dimensions. The detected shape was ("
  ++ Py.str_of_nat rows ++ ",) + inhomogeneous part.".

Fixpoint add_rows (a b : list float) : list float :=
  match a, b with
  | x :: a', y :: b' => (x + y)%float :: add_rows a' b'
  | _, _ => []
  end.

(** [np.mean(encodings, axis=0)]: the rows are added one after the other and
    the sum is divided by their number; rows of different lengths make NumPy
    raise ([inl]). *)
Definition mean_axis0 (encodings : list (list float)) : string + mean_value :=
  match encodings with
  | [] => inr (Scalar nan)
  | first :: others =>
      if forallb (fun e => (length e =? length first)%nat) others
      then inr (Vector (map (fun s => (s / Py.float_of_nat (length encodings))%float)
                            (fold_left add_rows others first)))
      else inl (inhomogeneous_shape (length encodings))
  end.

Record face_enrollment := FaceEnrollment {
  fc_success : bool;
  fc_error : option string;
  fc_student_id : string;
  face_encoding : option mean_value;
  fc_num_samples : option Z;
  fc_enrollment_timestamp : option string
}.

Definition fc_failure (msg student_id : string) : face_enrollment :=
  FaceEnrollment false (Some msg) student_id None None None.

Section Camera.

Variable capture_face_from_camera : nat -> capture_result.
Variable extract_face_encoding : nat -> string -> option (list float).

Fixpoint face_samples (student_id : string) (indices : list nat)
         (encodings : list (list float))
  : face_enrollment + list (list float) :=
  match indices with
  | [] => inr encodings
  | i :: rest =>
      match capture_face_from_camera i with
      | CaptureFailed error =>
          inl (fc_failure ("Failed to capture sample " ++ Py.str_of_nat (i + 1) ++ ": "
                             ++ Py.get error "Unknown error") student_id)
      | Captured image_data =>
          match extract_face_encoding i image_data with
          | None =>
              inl (fc_failure ("Failed to extract face encoding from sample "
                                 ++ Py.str_of_nat (i + 1)) student_id)
          | Some encoding => face_samples student_id rest (encodings ++ [encoding])
          end
      end
  end.

Definition enroll_face (now : string) (student_id : string) (num_samples : Z)
  : face_enrollment :=
  match face_samples student_id (seq 0 (Z.to_nat num_samples)) [] with
  | inl early => early
  | inr encodings =>
      match mean_axis0 encodings with
      | inl exception =>
          fc_failure ("Error during face enrollment: " ++ exception) student_id
      | inr avg_encoding =>
          {| fc_success := true;
             fc_error := None;
             fc_student_id := student_id;
             face_encoding := Some avg_encoding;
             fc_num_samples := Some num_samples;
             fc_enrollment_timestamp := Some now |}
      end
  end.

Definition face_sample_fails (i : nat) : bool :=
  match capture_face_from_camera i with
  | CaptureFailed _ => true
  | Captured image_data =>
      match extract_face_encoding i image_data with
      | None => true
      | Some _ => false
      end
  end.

End Camera.

End Enrollment.

(** ** Overall verification status (src/biometric.py, src/biometric_enhanced.py) *)

Module Decision.

Local Open Scope string_scope.

(** The status strings. *)
Inductive status := approved | partial | rejected | pending.

Definition status_text (s : status) : string :=
  match s with
  | approved => "approved"
  | partial => "partial"
  | rejected => "rejected"
  | pending => "pending"
  end.

(** "Determine verification status" of the route [verify_student]
    (biometric_enhanced.py): the status and the error message. *)
Definition verify_student (face_verified fingerprint_verified : bool)
  : status * option string :=
  if face_verified && fingerprint_verified then (approved, None)
  else if face_verified && negb fingerprint_verified
       then (partial, Some "Fingerprint verification failed")
  else if negb face_verified && fingerprint_verified
       then (partial, Some "Face verification failed")
  else (rejected, Some "Both face and fingerprint verification failed").

(** A per-modality result dictionary, read with [.get(key, False)]. *)
Record verification := Verification {
  v_success : option bool;
  v_match : option bool
}.

(** [result and result.get('success', False) and result.get('match', False)],
    as a truth value. *)
Definition verified (result : option verification) : bool :=
  match result with
  | None => false
  | Some r => Py.get (v_success r) false && Py.get (v_match r) false
  end.

(** "Determine overall status" of [verify_student_biometrics] (biometric.py). *)
Definition overall_status (face_verified fingerprint_verified : bool) : status :=
  if face_verified && fingerprint_verified then approved
  else if face_verified || fingerprint_verified then partial
  else rejected.

Definition verify_student_biometrics
           (face_verification fingerprint_verification : option verification) : status :=
  overall_status (verified face_verification) (verified fingerprint_verification).

End Decision.

(** ** Template serialization (src/biometric_utils.py) *)

Module Serialization.

Local Open Scope string_scope.

(** A [bytes] object. *)
Definition bytes := list Byte.byte.

(** The result of a call that no [try] protects. *)
Inductive outcome (A : Type) :=
| Returned (value : A)
| Raised.

Arguments Returned {A} value.
Arguments Raised {A}.

(** Sequencing of calls inside a [try] block: [None] is a raised exception. *)
Definition and_then {A B} (step : option A) (next : A -> option B) : option B :=
  match step with
  | Some value => next value
  | None => None
  end.

Notation "'call' x '<-' step ';' next" :=
  (and_then step (fun x => next))
    (at level 100, x name, step at level 99, next at level 200).

Section Libraries.

(** NumPy, [json], [base64] and the UTF-8 codec are libraries: the functions
    take them as they come.  A call that can raise returns an option. *)
Variable ndarray : Type.
Variable py_value : Type.
Variable tolist : ndarray -> py_value.
Variable np_array : py_value -> option ndarray.
Variable json_dumps : py_value -> option string.
Variable json_loads : string -> option py_value.
Variable str_encode : string -> option bytes.
Variable bytes_decode : bytes -> option string.
Variable b64encode : bytes -> bytes.
Variable b64decode : bytes -> option bytes.

Definition encode_face_data (face_encoding : option ndarray) : outcome (option string) :=
  match face_encoding with
  | None => Returned None
  | Some array =>
      let face_list := tolist array in
      match json_dumps face_list with
      | None => Raised
      | Some face_json =>
          match str_encode face_json with
          | None => Raised
          | Some raw =>
              let encoded_bytes := b64encode raw in
              match bytes_decode encoded_bytes with
              | None => Raised
              | Some text => Returned (Some text)
              end
          end
      end
  end.

Definition decode_face_data (encoded_face : option string) : option ndarray :=
  match encoded_face with
  | None | Some "" => None
  | Some encoded =>
      (* try: ... except Exception: return None *)
      call raw <- str_encode encoded;
      call decoded_bytes <- b64decode raw;
      call face_json <- bytes_decode decoded_bytes;
      call face_list <- json_loads face_json;
      np_array face_list
  end.

End Libraries.

Arguments encode_face_data {ndarray py_value}.
Arguments decode_face_data {ndarray py_value}.

End Serialization.

(** ** A small instance of the library interface

    Base64 with the standard alphabet and padding, ASCII text, and JSON
    restricted to arrays of non-negative integers: enough to run the
    serialization functions on concrete values. *)

Module ReferenceCodec.

Local Open Scope string_scope.

Definition alphabet : list Ascii.ascii :=
  list_ascii_of_string
    "ABCDEFGHIJKLMNOPQRSTUVWXYZabcdefghijklmnopqrstuvwxyz0123456789+/".

Definition pad : Ascii.ascii := "="%char.

Definition sextet_char (n : nat) : Byte.byte :=
  Ascii.byte_of_ascii (nth n alphabet pad).

Fixpoint index_of (c : Ascii.ascii) (l : list Ascii.ascii) : option nat :=
  match l with
  | [] => None
  | d :: rest => if Ascii.eqb c d then Some 0%nat else option_map S (index_of c rest)
  end.

Definition char_sextet (b : Byte.byte) : option nat :=
  index_of (Ascii.ascii_of_byte b) alphabet.

Definition pad_byte : Byte.byte := Ascii.byte_of_ascii pad.

Fixpoint b64encode (data : list Byte.byte) : list Byte.byte :=
  match data with
  | [] => []
  | [b1] =>
      let n1 := Byte.to_nat b1 in
      [sextet_char (n1 / 4); sextet_char (n1 mod 4 * 16); pad_byte; pad_byte]
  | [b1; b2] =>
      let n1 := Byte.to_nat b1 in
      let n2 := Byte.to_nat b2 in
      [sextet_char (n1 / 4); sextet_char (n1 mod 4 * 16 + n2 / 16);
       sextet_char (n2 mod 16 * 4); pad_byte]
  | b1 :: b2 :: b3 :: rest =>
      let n1 := Byte.to_nat b1 in
      let n2 := Byte.to_nat b2 in
      let n3 := Byte.to_nat b3 in
      sextet_char (n1 / 4) :: sextet_char (n1 mod 4 * 16 + n2 / 16)
        :: sextet_char (n2 mod 16 * 4 + n3 / 64) :: sextet_char (n3 mod 64)
        :: b64encode rest
  end.

Definition byte_of (n : nat) : option Byte.byte := Byte.of_nat n.

(** Strict decoding: groups of four characters, padding in the last group
    only; anything else is an error. *)
Fixpoint b64decode (text : list Byte.byte) : option (list Byte.byte) :=
  match text with
  | [] => Some []
  | c1 :: c2 :: c3 :: c4 :: rest =>
      match char_sextet c1, char_sextet c2 with
      | Some s1, Some s2 =>
          match byte_of (s1 * 4 + s2 / 16) with
          | None => None
          | Some b1 =>
              if Byte.eqb c3 pad_byte then
                match rest with
                | [] => if Byte.eqb c4 pad_byte then Some [b1] else None
                | _ => None
                end
              else
                match char_sextet c3 with
                | None => None
                | Some s3 =>
                    match byte_of (s2 mod 16 * 16 + s3 / 4) with
                    | None => None
                    | Some b2 =>
                        if Byte.eqb c4 pad_byte then
                          match rest with [] => Some [b1; b2] | _ => None end
                        else
                          match char_sextet c4 with
                          | None => None
                          | Some s4 =>
                              match byte_of (s3 mod 4 * 64 + s4), b64decode rest with
                              | Some b3, Some tail => Some (b1 :: b2 :: b3 :: tail)
                              | _, _ => None
                              end
                          end
                    end
                end
          end
      | _, _ => None
      end
  | _ => None
  end.

(** ASCII text as UTF-8: every byte below 128 stands for itself. *)
Definition is_ascii (b : Byte.byte) : bool := (Byte.to_nat b <? 128)%nat.

Definition str_encode (text : string) : option (list Byte.byte) :=
  let raw := list_byte_of_string text in
  if forallb is_ascii raw then Some raw else None.

Definition bytes_decode (raw : list Byte.byte) : option string :=
  if forallb is_ascii raw then Some (string_of_list_byte raw) else None.

(** JSON arrays of non-negative integers, printed as [json.dumps] prints
    them: a comma and a space between the items. *)
Definition json_dumps (items : list nat) : option string :=
  Some ("[" ++ String.concat ", " (map Py.str_of_nat items) ++ "]").

(** The items between the brackets, cut at the commas, blanks dropped. *)
Fixpoint split_items (text current : string) : option (list string) :=
  match text with
  | EmptyString => None
  | String "]" EmptyString => Some [current]
  | String "," rest => option_map (cons current) (split_items rest "")
  | String " " rest => split_items rest current
  | String c rest => split_items rest (current ++ String c "")
  end.

Definition parse_nat (item : string) : option nat :=
  option_map Nat.of_uint (NilEmpty.uint_of_string item).

Fixpoint parse_all (items : list string) : option (list nat) :=
  match items with
  | [] => Some []
  | item :: rest =>
      match parse_nat item, parse_all rest with
      | Some n, Some tail => Some (n :: tail)
      | _, _ => None
      end
  end.

Definition json_loads (text : string) : option (list nat) :=
  match text with
  | "[]" => Some []
  | String "[" body =>
      match split_items body "" with
      | Some items => parse_all items
      | None => None
      end
  | _ => None
  end.

(** Arrays of integers: [tolist] and [np.array] change nothing. *)
Definition tolist (array : list nat) : list nat := array.
Definition np_array (value : list nat) : option (list nat) := Some value.

End ReferenceCodec.

(** ** Python's base64 decoder

    [base64.b64decode(s)] is called without [validate=True] everywhere in
    the repository, so it is [binascii.a2b_base64(s)] in its lenient mode:
    one pass over the characters (CPython 3.11 and later) with the position
    in the current group of four ([quad_pos]), the bits left over from the
    previous character ([leftchar]) and the number of padding characters
    just seen ([pads]).  A character outside the alphabet is skipped. *)

Module Base64.

Definition pad_byte : Byte.byte := ReferenceCodec.pad_byte.

(** Storing an [int] into an [unsigned char]. *)
Definition unsigned_char (n : nat) : Byte.byte :=
  match Byte.of_nat (n mod 256) with
  | Some b => b
  | None => Byte.x00
  end.

Fixpoint a2b_base64 (ascii_data : list Byte.byte) (quad_pos leftchar pads : nat)
         (bin_data : list Byte.byte) : option (list Byte.byte) :=
  match ascii_data with
  | [] =>
      (* after the loop: "Incorrect padding", or one data character too many *)
      if (quad_pos =? 0)%nat then Some bin_data else None
  | this_ch :: rest =>
      if Byte.eqb this_ch pad_byte then
        (* if (quad_pos >= 2 && quad_pos + ++pads >= 4) goto done; continue; *)
        if (2 <=? quad_pos)%nat then
          if (4 <=? quad_pos + (pads + 1))%nat then Some bin_data
          else a2b_base64 rest quad_pos leftchar (pads + 1) bin_data
        else a2b_base64 rest quad_pos leftchar pads bin_data
      else
        match ReferenceCodec.char_sextet this_ch with
        | None => a2b_base64 rest quad_pos leftchar pads bin_data
        | Some value =>
            match quad_pos with
            | 0 => a2b_base64 rest 1 value 0 bin_data
            | 1 =>
                a2b_base64 rest 2 (Nat.land value 15) 0
                           (bin_data
                              ++ [unsigned_char (Nat.lor (Nat.shiftl leftchar 2)
                                                         (Nat.shiftr value 4))])
            | 2 =>
                a2b_base64 rest 3 (Nat.land value 3) 0
                           (bin_data
                              ++ [unsigned_char (Nat.lor (Nat.shiftl leftchar 4)
                                                         (Nat.shiftr value 2))])
            | _ =>
                a2b_base64 rest 0 0 0
                           (bin_data
                              ++ [unsigned_char (Nat.lor (Nat.shiftl leftchar 6) value)])
            end
        end
  end.

Definition b64decode (s : list Byte.byte) : option (list Byte.byte) :=
  a2b_base64 s 0 0 0 [].

(** Encoding has one form only: groups of four characters with padding. *)
Definition b64encode (s : list Byte.byte) : list Byte.byte := ReferenceCodec.b64encode s.

(** The characters that the decoder looks at: those of the alphabet (the
    data characters) and the padding character. *)
Definition is_data (c : Byte.byte) : bool :=
  match ReferenceCodec.char_sextet c with
  | Some _ => true
  | None => false
  end.

Definition is_pad (c : Byte.byte) : bool := Byte.eqb c pad_byte.

Definition data_characters (text : string) : nat :=
  length (filter is_data (list_byte_of_string text)).

Definition has_padding (text : string) : bool :=
  existsb is_pad (list_byte_of_string text).

(** A text without the characters that the decoder skips. *)
Definition without_noise (text : string) : string :=
  string_of_list_byte (filter (fun c => is_pad c || is_data c) (list_byte_of_string text)).

(** A text of ASCII characters: its UTF-8 bytes are its characters. *)
Definition ascii_text (text : string) : bool :=
  forallb ReferenceCodec.is_ascii (list_byte_of_string text).

End Base64.

(** ** The serialization functions on Python's decoder

    ASCII text and the JSON arrays of [ReferenceCodec], with the base64
    decoder of [Base64]. *)

Module PythonCodec.

Definition encode_face_data :=
  Serialization.encode_face_data
    ReferenceCodec.tolist ReferenceCodec.json_dumps ReferenceCodec.str_encode
    ReferenceCodec.bytes_decode Base64.b64encode.

Definition decode_face_data :=
  Serialization.decode_face_data
    ReferenceCodec.np_array ReferenceCodec.json_loads ReferenceCodec.str_encode
    ReferenceCodec.bytes_decode Base64.b64decode.

End PythonCodec.

(** ** Stored face data as the specification words it *)

Module FaceDataSpec.

(** "Valid base64-wrapped JSON": the text is base64 in the strict sense
    (groups of four characters of the alphabet, [=] only as padding at the
    very end), and the bytes it stands for are the UTF-8 text of a JSON
    document.  The result is the value of the document. *)
Definition wrapped_json (encoded : string) : option (list nat) :=
  match ReferenceCodec.str_encode encoded with
  | None => None
  | Some raw =>
      match ReferenceCodec.b64decode raw with
      | None => None
      | Some decoded_bytes =>
          match ReferenceCodec.bytes_decode decoded_bytes with
          | None => None
          | Some face_json => ReferenceCodec.json_loads face_json
          end
      end
  end.

Definition valid (encoded : string) : bool :=
  match wrapped_json encoded with
  | Some _ => true
  | None => false
  end.

End FaceDataSpec.

(** ** The matching procedure as the specification words it *)

Module FingerprintSpec.

Import Fingerprint.
Local Open Scope float_scope.

(** "For each point in P1, find any unmatched point in P2 ...": the first
    point of [unmatched] that matches [p1] is consumed; the result is the
    list of points still unmatched, or [None] when [p1] finds no partner. *)
Fixpoint take_first_match (p1 : minutia) (unmatched : list minutia)
  : option (list minutia) :=
  match unmatched with
  | [] => None
  | p2 :: rest =>
      if points_match p1 p2 then Some rest
      else option_map (cons p2) (take_first_match p1 rest)
  end.

(** The greedy count in which every point of P2 serves at most one match. *)
Fixpoint greedy_matches (points1 unmatched : list minutia) : nat :=
  match points1 with
  | [] => 0%nat
  | p1 :: rest =>
      match take_first_match p1 unmatched with
      | Some remaining => S (greedy_matches rest remaining)
      | None => greedy_matches rest unmatched
      end
  end.

(** "Similarity = matches / min(|P1|, |P2|)", zero when a set is empty. *)
Definition spec_similarity (points1 points2 : list minutia) : float :=
  match points1, points2 with
  | [], _ | _, [] => 0.0
  | _, _ =>
      Py.float_of_nat (greedy_matches points1 points2)
      / Py.float_of_nat (Nat.min (length points1) (length points2))
  end.

(** No entry of [unique_points] is within the deduplication tolerance of
    [point]. *)
Definition apart_from (unique_points : list minutia) (point : minutia) : bool :=
  forallb (fun unique_point => negb (is_close point unique_point)) unique_points.

(** Every point of [points] is apart from the points of [earlier] and from
    the points that precede it in [points]. *)
Fixpoint apart_after (earlier points : list minutia) : bool :=
  match points with
  | [] => true
  | point :: rest => apart_from earlier point && apart_after (earlier ++ [point]) rest
  end.

(** A list already free of duplicates, as the deduplication loop sees them. *)
Definition pairwise_apart (points : list minutia) : bool := apart_after [] points.

End FingerprintSpec.

(** ** Concrete inputs *)

Module Samples.

Import Fingerprint.
Local Open Scope float_scope.

Definition ridge (x y quality : float) : minutia :=
  Minutia x y 45.0 "ridge_ending" quality.

(** Two minutiae of an enrolled finger, 12 units apart (far enough to
    survive the deduplication of a fused template), and a captured print
    with a single minutia half-way between them, 6 units from each. *)
Definition p_left : minutia := ridge 100.0 100.0 0.9.
Definition p_right : minutia := ridge 112.0 100.0 0.9.
Definition p_mid : minutia := ridge 106.0 100.0 0.9.
Definition enrolled_points : list minutia := [p_left; p_right].
Definition captured_points : list minutia := [p_mid].
Definition enrolled_template : template :=
  Template (Some enrolled_points) (Some 0.9) None (Some "1.0"%string) (Some 3%nat).
Definition captured_template : template :=
  Template (Some captured_points) (Some 0.9) None (Some "1.0"%string) None.

(** Three minutiae on a line: [a] and [b] are 8 units apart, [c] lies
    between them, 4 units from each, and has the best quality. *)
Definition a : minutia := ridge 0.0 0.0 0.5.
Definition b : minutia := ridge 8.0 0.0 0.5.
Definition c : minutia := ridge 4.0 0.0 0.9.

(** A degenerate face encoding (all zeros) and an ordinary one, both of the
    fixed length. *)
Definition zero_encoding : list float := repeat 0.0 128.
Definition plain_encoding : list float := repeat 0.1 128.

(** A face mesh with three landmarks only: nine coordinates at most. *)
Definition three_landmarks : list Face.landmark :=
  [Face.Landmark 0.5 0.5 0.0; Face.Landmark 0.4 0.6 0.1; Face.Landmark 0.6 0.6 0.1].

(** A template that holds the minutia [a] twice. *)
Definition repeated_point_template : template :=
  Template (Some [a; a]) (Some 0.5) (Some "2024-01-01T09:00:00"%string)
           (Some "1.0"%string) None.

(** A template holding the single minutia [p_mid]. *)
Definition one_point_template : template := captured_template.

(** A scanner whose second capture is rejected for its quality, with an
    extractor that always finds a template; and a camera that always
    captures, with an extractor that finds no face in the second image. *)
Definition flaky_scanner (i : nat) : Enrollment.capture_result :=
  if (i =? 1)%nat then Enrollment.CaptureFailed (Some "Poor fingerprint quality"%string)
  else Enrollment.Captured "aW1hZ2U="%string.

Definition steady_extractor (i : nat) (image_data : string) : option template :=
  Some one_point_template.

Definition steady_camera (i : nat) : Enrollment.capture_result :=
  Enrollment.Captured "aW1hZ2U="%string.

Definition flaky_face_extractor (i : nat) (image_data : string) : option (list float) :=
  if (i =? 1)%nat then None else Some plain_encoding.

End Samples.

(** ** Parts of a face mesh *)

Module FaceMesh.

Import Face.

(** The coordinates of the landmarks that a mesh has, three per index. *)
Definition coordinates_at (landmarks : list landmark) (indices : list nat) : list float :=
  flat_map (fun idx =>
              match nth_error landmarks idx with
              | Some l => [lm_x l; lm_y l; lm_z l]
              | None => []
              end)
           indices.

(** The key landmarks that reach the encoding, and those that never do. *)
Definition leading_landmarks : list nat := firstn 43 key_landmarks.
Definition trailing_landmarks : list nat := skipn 43 key_landmarks.

End FaceMesh.

(** ** More concrete inputs *)

Module MoreSamples.

Local Open Scope float_scope.

(** A complete face mesh (478 landmarks), and the same mesh with another
    landmark at index 272, the last key landmark of the mouth. *)
(** A scanner and a face extractor that never fail. *)
Definition steady_scanner (i : nat) : Enrollment.capture_result :=
  Enrollment.Captured "aW1hZ2U="%string.

Definition steady_face_extractor (i : nat) (image_data : string) : option (list float) :=
  Some Samples.plain_encoding.

Definition full_mesh : list Face.landmark := repeat (Face.Landmark 0.5 0.5 0.0) 478.
Definition other_mouth : list Face.landmark :=
  firstn 272 full_mesh ++ [Face.Landmark 0.9 0.1 0.2] ++ skipn 273 full_mesh.

End MoreSamples.

(** ** Capture devices and single verifications

    (the remaining methods of FingerprintService and FaceRecognitionService) *)

Module Devices.

Local Open Scope string_scope.
Local Open Scope float_scope.

(** *** The fingerprint scanner *)

(** The two attributes of a FingerprintService. *)
Record scanner := Scanner {
  scanner_initialized : bool;
  scanner_device : option string
}.

(** [__init__]. *)
Definition new_scanner : scanner := Scanner false None.

Definition default_device_path : string := "/dev/ttyUSB0".

(** [initialize_scanner]: the simulated initialisation cannot fail. *)
Definition initialize_scanner (s : scanner) (device_path : string) : scanner * bool :=
  (Scanner true (Some device_path), true).

Definition release_scanner (s : scanner) : scanner :=
  if scanner_initialized s then Scanner false None else s.

(** The dictionary that [capture_fingerprint_image] returns. *)
Record fingerprint_capture := FingerprintCapture {
  cap_success : bool;
  cap_error : option string;
  cap_image_data : option string;
  cap_quality_score : option float;
  cap_recommendations : option (list string);
  cap_device : option (option string)
}.

Definition quality_recommendations : list string :=
  ["Clean your finger"; "Press firmly on the scanner"; "Ensure finger is dry";
   "Position finger correctly"].

(** [capture_fingerprint_image].  The image and its quality come from
    outside: [image_base64] is the base64 text of the captured image and
    [quality_score] what the quality assessment gives for it. *)
Definition capture_fingerprint_image (s : scanner) (image_base64 : string)
           (quality_score : float) : scanner * fingerprint_capture :=
  let (s, ready) :=
    if scanner_initialized s then (s, true) else initialize_scanner s default_device_path in
  if negb ready then
    (s, FingerprintCapture false (Some "Fingerprint scanner not available")
                           None None None None)
  else if quality_score <? 0.6 then
    (s, FingerprintCapture false (Some "Poor fingerprint quality") None
                           (Some quality_score) (Some quality_recommendations) None)
  else
    (s, FingerprintCapture true None (Some image_base64) (Some quality_score) None
                           (Some (scanner_device s))).

(** What the enrollment and verification code reads in such a dictionary. *)
Definition read_capture (c : fingerprint_capture) : Enrollment.capture_result :=
  match cap_success c, cap_image_data c with
  | true, Some image_data => Enrollment.Captured image_data
  | _, _ => Enrollment.CaptureFailed (cap_error c)
  end.

(** *** The camera *)

(** [self.camera]: no handle, or a handle that is open or not. *)
Record camera_handle := CameraHandle { is_opened : bool }.

Definition camera := option camera_handle.

(** What [read] does on an open handle. *)
Inductive read_outcome :=
| Frame (image : string)
| NoFrame
| ReadRaises (message : string).

(** What the outside world does at one call: whether creating the handle
    raises, whether the device opens, whether setting its properties raises,
    what [read] does, and whether a face is detected in the frame. *)
Record world := World {
  creation_raises : bool;
  device_opens : bool;
  setup_raises : bool;
  read_result : read_outcome;
  face_detected : bool
}.

(** [initialize_camera]: the handle is stored before it is tested. *)
Definition initialize_camera (c : camera) (w : world) : camera * bool :=
  if creation_raises w then (c, false)
  else
    let handle := CameraHandle (device_opens w) in
    if negb (is_opened handle) then (Some handle, false)
    else if setup_raises w then (Some handle, false)
    else (Some handle, true).

Definition release_camera (c : camera) : camera := None.

Record face_capture := FaceCapture {
  fcap_success : bool;
  fcap_error : option string;
  fcap_image_data : option string;
  fcap_recommendations : option (list string)
}.

Definition face_recommendations : list string :=
  ["Position your face in the camera frame"; "Ensure good lighting";
   "Look directly at the camera"].

(** [capture_face_from_camera]; a frame stands for its JPEG base64 text, and
    a handle that is not open reads no frame. *)
Definition capture_face_from_camera (c : camera) (w : world) : camera * face_capture :=
  let (c, ready) :=
    match c with
    | None => initialize_camera c w
    | Some _ => (c, true)
    end in
  if negb ready then
    (c, FaceCapture false (Some "Camera not available") None None)
  else
    match c with
    | None =>
        (c, FaceCapture false (Some "Error capturing face: no camera") None None)
    | Some handle =>
        match (if is_opened handle then read_result w else NoFrame) with
        | ReadRaises message =>
            (c, FaceCapture false (Some ("Error capturing face: " ++ message)) None None)
        | NoFrame =>
            (c, FaceCapture false (Some "Failed to capture frame from camera") None None)
        | Frame image =>
            if negb (face_detected w) then
              (c, FaceCapture false (Some "No face detected in captured frame") None
                              (Some face_recommendations))
            else (c, FaceCapture true None (Some image) None)
        end
    end.

(** *** verify_fingerprint and verify_face *)

(** The value under the key [verification_result]: the two-key dictionary of
    the early returns, or the result of the comparison. *)
Inductive verdict (comparison : Type) :=
| NotCompared
| Compared (result : comparison).

Arguments NotCompared {comparison}.
Arguments Compared {comparison} result.

Record verification (comparison : Type) := Verification {
  ver_success : bool;
  ver_error : option string;
  verification_result : verdict comparison;
  capture_info : option Enrollment.capture_result;
  ver_timestamp : option string
}.

Arguments Verification {comparison}.
Arguments ver_success {comparison}.
Arguments ver_error {comparison}.
Arguments verification_result {comparison}.
Arguments capture_info {comparison}.
Arguments ver_timestamp {comparison}.

Definition not_verified {comparison} (msg : string) : verification comparison :=
  Verification false (Some msg) NotCompared None None.

(** [verification_result['match']] and [verification_result['success']]. *)
Definition fingerprint_matched (v : verification Fingerprint.comparison) : bool :=
  match verification_result v with
  | NotCompared => false
  | Compared r => Fingerprint.is_match r
  end.

Definition fingerprint_compared (v : verification Fingerprint.comparison) : bool :=
  match verification_result v with
  | NotCompared => false
  | Compared r => Fingerprint.success r
  end.

Definition face_matched (v : verification Face.comparison) : bool :=
  match verification_result v with
  | NotCompared => false
  | Compared r => Face.is_match r
  end.

Definition face_compared (v : verification Face.comparison) : bool :=
  match verification_result v with
  | NotCompared => false
  | Compared r => Face.success r
  end.

Section Verification.

(** [json.loads(base64.b64decode(stored).decode('utf-8'))]: the stored text
    read as a template dictionary, or as a list of numbers; [None] when the
    decoding raises.  (Stored texts that decode to a JSON document of another
    shape are not modelled.) *)
Variable decode_template : string -> option Fingerprint.template.
Variable decode_encoding : string -> option (list float).

(** [capture_result] is what the capture returned and [extract] the
    extraction function at this call. *)
Definition verify_fingerprint
           (capture_result : Enrollment.capture_result)
           (extract : string -> option Fingerprint.template)
           (now : string) (stored_template : string) (threshold : float)
  : verification Fingerprint.comparison :=
  match capture_result with
  | Enrollment.CaptureFailed error =>
      not_verified ("Failed to capture fingerprint: " ++ Py.get error "Unknown error")
  | Enrollment.Captured image_data =>
      match extract image_data with
      | None => not_verified "Failed to extract template from captured fingerprint"
      | Some current_template =>
          match decode_template stored_template with
          | None => not_verified "Invalid stored fingerprint template format"
          | Some stored_template_data =>
              let comparison_result :=
                Fingerprint.compare_fingerprint_templates
                  (Some stored_template_data) (Some current_template) threshold in
              Verification true None (Compared comparison_result)
                           (Some capture_result) (Some now)
          end
      end
  end.

Definition verify_face
           (capture_result : Enrollment.capture_result)
           (extract : string -> option (list float))
           (now : string) (stored_encoding : string) (threshold : float)
  : verification Face.comparison :=
  match capture_result with
  | Enrollment.CaptureFailed error =>
      not_verified ("Failed to capture face: " ++ Py.get error "Unknown error")
  | Enrollment.Captured image_data =>
      match extract image_data with
      | None => not_verified "Failed to extract face encoding from captured image"
      | Some current_encoding =>
          match decode_encoding stored_encoding with
          | None => not_verified "Invalid stored face encoding format"
          | Some stored_encoding_data =>
              let comparison_result :=
                Face.compare_face_encodings stored_encoding_data current_encoding
                                            threshold in
              Verification true None (Compared comparison_result)
                           (Some capture_result) (Some now)
          end
      end
  end.

(** Whether the dictionary that [verify_face] returns holds a
    [numpy.bool_]: only the ['match'] of a comparison can. *)
Definition verify_face_returns_numpy_bool
           (capture_result : Enrollment.capture_result)
           (extract : string -> option (list float))
           (stored_encoding : string) : bool :=
  match capture_result with
  | Enrollment.CaptureFailed _ => false
  | Enrollment.Captured image_data =>
      match extract image_data with
      | None => false
      | Some current_encoding =>
          match decode_encoding stored_encoding with
          | None => false
          | Some stored_encoding_data =>
              Face.match_is_numpy_bool stored_encoding_data current_encoding
          end
      end
  end.

End Verification.

End Devices.

(** ** The mock service and the byte templates (src/biometric_utils.py) *)

Module MockService.

Import Serialization.
Local Open Scope string_scope.
Local Open Scope float_scope.

(** [known_template == unknown_template] on [bytes]. *)
Fixpoint bytes_eqb (a b : bytes) : bool :=
  match a, b with
  | [], [] => true
  | x :: a', y :: b' => Byte.eqb x y && bytes_eqb a' b'
  | _, _ => false
  end.

(** The dictionaries that the mock verifications return. *)
Record mock_result := MockResult {
  m_success : bool;
  m_error : option string;
  m_match : option bool;
  m_confidence : option float
}.

Definition mock_failure (msg : string) : mock_result :=
  MockResult false (Some msg) None None.

(** What "Determine overall status" reads in such a dictionary. *)
Definition as_verification (r : mock_result) : Decision.verification :=
  Decision.Verification (Some (m_success r)) (m_match r).

(** A truth value with its type: Python's own [bool], or the [numpy.bool_]
    that a comparison with a NumPy scalar returns. *)
Inductive truth :=
| PyBool (b : bool)
| NumpyBool (b : bool).

Definition truth_value (t : truth) : bool :=
  match t with
  | PyBool b | NumpyBool b => b
  end.

(** The dictionaries that the mock face verification returns. *)
Record face_result := FaceResult {
  f_success : bool;
  f_error : option string;
  f_match : option truth;
  f_confidence : option float
}.

Definition face_failure (msg : string) : face_result :=
  FaceResult false (Some msg) None None.

Definition as_face_verification (r : face_result) : Decision.verification :=
  Decision.Verification (Some (f_success r)) (option_map truth_value (f_match r)).

Section Libraries.

Variable ndarray : Type.
Variable py_value : Type.
Variable np_array : py_value -> option ndarray.
Variable json_loads : string -> option py_value.
Variable str_encode : string -> option bytes.
Variable bytes_decode : bytes -> option string.
Variable b64encode : bytes -> bytes.
Variable b64decode : bytes -> option bytes.

(** [np.linalg.norm(known - unknown)]; [None] when NumPy raises (shapes
    that do not broadcast). *)
Variable distance : ndarray -> ndarray -> option float.

Definition encode_fingerprint_template (template_data : option bytes)
  : outcome (option string) :=
  match template_data with
  | None => Returned None
  | Some data =>
      let encoded_bytes := b64encode data in
      match bytes_decode encoded_bytes with
      | None => Raised
      | Some text => Returned (Some text)
      end
  end.

Definition decode_fingerprint_template (encoded_template : option string)
  : option bytes :=
  match encoded_template with
  | None | Some "" => None
  | Some encoded =>
      (* try: ... except Exception: return None *)
      call raw <- str_encode encoded;
      b64decode raw
  end.

Definition default_tolerance : float := 0.6.

(** [BiometricUtils.compare_face_encodings]: Euclidean distance against a
    tolerance.  [distance <= tolerance] compares a NumPy scalar, so its value
    is a [numpy.bool_]; the two [return False] are Python's. *)
Definition compare_face_encodings (known_encoding unknown_encoding : option ndarray)
           (tolerance : float) : truth :=
  match known_encoding, unknown_encoding with
  | Some known, Some unknown =>
      match distance known unknown with
      | Some d => NumpyBool (d <=? tolerance)
      | None => PyBool false
      end
  | _, _ => PyBool false
  end.

(** [BiometricUtils.compare_fingerprint_templates]: equality of the bytes. *)
Definition compare_fingerprint_templates (known_template unknown_template : option bytes)
  : bool :=
  match known_template, unknown_template with
  | Some known, Some unknown => bytes_eqb known unknown
  | _, _ => false
  end.

(** [MockBiometricService.verify_face]. *)
Definition verify_face (student_face_encoding : option string)
           (captured_encoding : ndarray) : face_result :=
  match student_face_encoding with
  | None | Some "" => face_failure "No face encoding stored for student"
  | Some _ =>
      match decode_face_data np_array json_loads str_encode bytes_decode b64decode
                             student_face_encoding with
      | None => face_failure "Invalid stored face encoding"
      | Some stored_encoding =>
          let is_match :=
            compare_face_encodings (Some stored_encoding) (Some captured_encoding)
                                   default_tolerance in
          FaceResult true None (Some is_match)
                     (Some (if truth_value is_match then 0.95 else 0.2))
      end
  end.

(** [MockBiometricService.verify_fingerprint]. *)
Definition verify_fingerprint (student_fingerprint_template : option string)
           (captured_template : bytes) : mock_result :=
  match student_fingerprint_template with
  | None | Some "" => mock_failure "No fingerprint template stored for student"
  | Some _ =>
      match decode_fingerprint_template student_fingerprint_template with
      | None => mock_failure "Invalid stored fingerprint template"
      | Some stored_template =>
          let is_match :=
            compare_fingerprint_templates (Some stored_template) (Some captured_template) in
          MockResult true None (Some is_match) (Some (if is_match then 0.98 else 0.1))
      end
  end.

(** The dictionary [verification_results] of [verify_student_biometrics]
    (biometric.py), without the name fields. *)
Record verification_results := VerificationResults {
  face_verification : option face_result;
  fingerprint_verification : option mock_result;
  overall_status : Decision.status
}.

(** [jsonify(...)] on that dictionary: the JSON encoder writes Python's
    [bool] and raises [TypeError] on a [numpy.bool_]. *)
Definition jsonify_raises (results : verification_results) : bool :=
  match face_verification results with
  | Some r =>
      match f_match r with
      | Some (NumpyBool _) => true
      | _ => false
      end
  | None => false
  end.

(** What the route answers once the student is found: status 200 with the
    dictionary under ['data'], or the status 500 of its [except] branch. *)
Inductive route_answer :=
| Answered (data : verification_results)
| ServerError.

(** The body of [verify_student_biometrics] once the student is found:
    [face_encoding] and [fingerprint_template] are the two stored columns,
    [captured_face] and [captured_fingerprint] what the two mock captures
    return. *)
Definition verify_student_biometrics
           (face_encoding fingerprint_template : option string)
           (captured_face : option ndarray) (captured_fingerprint : option bytes)
  : route_answer :=
  let face_verification :=
    match face_encoding with
    | None | Some "" => Some (face_failure "No face encoding stored for student")
    | Some _ =>
        match captured_face with
        | Some captured => Some (verify_face face_encoding captured)
        | None => None
        end
    end in
  let fingerprint_verification :=
    match fingerprint_template with
    | None | Some "" => Some (mock_failure "No fingerprint template stored for student")
    | Some _ =>
        match captured_fingerprint with
        | Some captured => Some (verify_fingerprint fingerprint_template captured)
        | None => None
        end
    end in
  let face_verified :=
    Decision.verified (option_map as_face_verification face_verification) in
  let fingerprint_verified :=
    Decision.verified (option_map as_verification fingerprint_verification) in
  let verification_results :=
    VerificationResults face_verification fingerprint_verification
                        (Decision.overall_status face_verified fingerprint_verified) in
  (* return jsonify({'success': True, 'data': verification_results}) *)
  if jsonify_raises verification_results then ServerError
  else Answered verification_results.

(** The face distance is computed: a non-empty stored text that decodes, and
    a capture whose shape goes with the stored array. *)
Definition face_distance_computed (face_encoding : option string)
           (captured_face : option ndarray) : Prop :=
  exists stored captured decoded d,
    face_encoding = Some stored /\ stored <> "" /\ captured_face = Some captured
    /\ decode_face_data np_array json_loads str_encode bytes_decode b64decode (Some stored)
       = Some decoded
    /\ distance decoded captured = Some d.

(** The fingerprint modality as [verify_student_biometrics] sees it: a
    non-empty stored text, a capture, and a text that decodes to the
    captured bytes. *)
Definition fingerprint_passes (fingerprint_template : option string)
           (captured_fingerprint : option bytes) : Prop :=
  exists stored captured,
    fingerprint_template = Some stored /\ stored <> ""
    /\ captured_fingerprint = Some captured
    /\ decode_fingerprint_template (Some stored) = Some captured.

End Libraries.

Arguments face_distance_computed {ndarray py_value}.
Arguments verify_face {ndarray py_value}.
Arguments verify_student_biometrics {ndarray py_value}.
Arguments compare_face_encodings {ndarray}.

End MockService.

(** ** The stored records (src/student.py) and the routes that write them *)

Module Store.

Local Open Scope string_scope.

(** The columns of [Student] that the biometric routes read or write. *)
Record student := Student {
  id : nat;
  student_id : string;
  name : string;
  face_encoding : option string;
  fingerprint_template : option string
}.

Record exam_session := ExamSession {
  session_id : nat;
  is_active : bool
}.

Record verification_log := VerificationLog {
  log_student : nat;
  log_exam_session : nat;
  log_face_verified : bool;
  log_fingerprint_verified : bool;
  log_verification_status : string;
  log_error_message : option string
}.

(** The tables, in the order of their rows. *)
Record database := Database {
  students : list student;
  exam_sessions : list exam_session;
  verification_logs : list verification_log
}.

(** [Student.query.filter_by(student_id=...).first()]. *)
Definition find_student (sid : string) (db : database) : option student :=
  find (fun s => String.eqb (student_id s) sid) (students db).

(** [ExamSession.query.filter_by(is_active=True).first()]. *)
Definition active_session (db : database) : option exam_session :=
  find is_active (exam_sessions db).

(** Committing the changed attributes of the row found by [find_student]. *)
Fixpoint update_first (sid : string) (change : student -> student) (rows : list student)
  : list student :=
  match rows with
  | [] => []
  | s :: rest =>
      if String.eqb (student_id s) sid then change s :: rest
      else s :: update_first sid change rest
  end.

Definition commit_student (sid : string) (change : student -> student) (db : database)
  : database :=
  Database (update_first sid change (students db)) (exam_sessions db)
           (verification_logs db).

Definition set_face_encoding (text : string) (s : student) : student :=
  Student (id s) (student_id s) (name s) (Some text) (fingerprint_template s).

Definition set_fingerprint_template (text : string) (s : student) : student :=
  Student (id s) (student_id s) (name s) (face_encoding s) (Some text).

(** [db.session.add(log); db.session.commit()]. *)
Definition add_log (log : verification_log) (db : database) : database :=
  Database (students db) (exam_sessions db) (verification_logs db ++ [log]).

(** A response: the HTTP status and the keys [success] and [error]. *)
Record response := Response {
  status_code : nat;
  success : bool;
  error : option string
}.

Definition ok : response := Response 200 true None.
Definition refused (code : nat) (msg : string) : response := Response code false (Some msg).

(** [not text] for an optional text. *)
Definition missing (text : option string) : bool :=
  match text with
  | None | Some "" => true
  | Some _ => false
  end.

End Store.

(** ** Routes of src/biometric_enhanced.py *)

Module EnhancedRoutes.

Import Store.
Local Open Scope string_scope.

Section Services.

(** The devices behind the two services, as in the enrollment loops, and
    the storage text of a value: base64 of its JSON text, [None] when
    [json.dumps] raises. *)
Variable capture_fingerprint_image : nat -> Enrollment.capture_result.
Variable extract_fingerprint_template : nat -> string -> option Fingerprint.template.
Variable capture_face_from_camera : nat -> Enrollment.capture_result.
Variable extract_face_encoding : nat -> string -> option (list float).
Variable dumps_template : Fingerprint.template -> option string.
Variable dumps_encoding : Enrollment.mean_value -> option string.

(** [data.get('num_samples', 3)]. *)
Definition requested_samples (num_samples : option Z) : Z := Py.get num_samples 3%Z.

(** The route [/enroll-fingerprint]. *)
Definition enroll_fingerprint (db : database) (now_combine now : string)
           (student_id : option string) (num_samples : option Z)
  : response * database :=
  match student_id with
  | None | Some "" => (refused 400 "Student ID is required", db)
  | Some sid =>
      match find_student sid db with
      | None => (refused 404 "Student not found", db)
      | Some student =>
          let enrollment_result :=
            Enrollment.enroll_fingerprint capture_fingerprint_image
                                          extract_fingerprint_template
                                          now_combine now sid
                                          (requested_samples num_samples) in
          if negb (Enrollment.fp_success enrollment_result) then
            (refused 400 (Py.get (Enrollment.fp_error enrollment_result)
                                 "Fingerprint enrollment failed"), db)
          else
            match Enrollment.fingerprint_template enrollment_result with
            | None => (refused 500 "Error enrolling fingerprint: 'fingerprint_template'", db)
            | Some fingerprint_template =>
                match dumps_template fingerprint_template with
                | None => (refused 500 "Error enrolling fingerprint: not serializable", db)
                | Some encoded_template =>
                    (ok, commit_student sid (set_fingerprint_template encoded_template) db)
                end
            end
      end
  end.

(** The route [/enroll-face]. *)
Definition enroll_face (db : database) (now : string)
           (student_id : option string) (num_samples : option Z)
  : response * database :=
  match student_id with
  | None | Some "" => (refused 400 "Student ID is required", db)
  | Some sid =>
      match find_student sid db with
      | None => (refused 404 "Student not found", db)
      | Some student =>
          let enrollment_result :=
            Enrollment.enroll_face capture_face_from_camera extract_face_encoding
                                   now sid (requested_samples num_samples) in
          if negb (Enrollment.fc_success enrollment_result) then
            (refused 400 (Py.get (Enrollment.fc_error enrollment_result)
                                 "Face enrollment failed"), db)
          else
            match Enrollment.face_encoding enrollment_result with
            | None => (refused 500 "Error enrolling face: 'face_encoding'", db)
            | Some face_encoding =>
                match dumps_encoding face_encoding with
                | None => (refused 500 "Error enrolling face: not serializable", db)
                | Some encoded_face =>
                    (ok, commit_student sid (set_face_encoding encoded_face) db)
                end
            end
      end
  end.

End Services.

(** The route [/verify-face].  [mock_text] is the storage text of the random
    encoding made "for demo purposes" when the student has none;
    [decode_encoding], [capture_result], [extract] and [now] are what the
    face service's [verify_face] meets at this call.  The answer is built
    by [jsonify], whose JSON encoder raises [TypeError] on a [numpy.bool_]:
    the [except] branch then answers 500 with the text of that exception
    (NumPy 1 names the type [bool_]). *)
Definition verify_face (db : database) (student_id : option string)
           (mock_text : string)
           (decode_encoding : string -> option (list float))
           (capture_result : Enrollment.capture_result)
           (extract : string -> option (list float)) (now : string)
  : response * database :=
  match student_id with
  | None | Some "" => (refused 400 "Student ID is required", db)
  | Some sid =>
      match find_student sid db with
      | None => (refused 404 "Student not found", db)
      | Some student =>
          let (stored, db) :=
            if missing (face_encoding student)
            then (mock_text, commit_student sid (set_face_encoding mock_text) db)
            else (Py.get (face_encoding student) "", db) in
          let verification_result :=
            Devices.verify_face decode_encoding capture_result extract now stored
                                Face.default_threshold in
          if negb (Devices.ver_success verification_result) then
            (refused 400 (Py.get (Devices.ver_error verification_result)
                                 "Face verification failed"), db)
          else if Devices.verify_face_returns_numpy_bool decode_encoding capture_result
                                                         extract stored
          then (refused 500 ("Error verifying face: "
                               ++ "Object of type bool_ is not JSON serializable"), db)
          else (ok, db)
      end
  end.

(** "Determine verification status" as the strings that are logged. *)
Definition logged_status (face_verified fingerprint_verified : bool)
  : string * option string :=
  let (status, error_message) := Decision.verify_student face_verified fingerprint_verified in
  (Decision.status_text status, error_message).

(** The route [/verify-student]: one row of [VerificationLog] for every
    request that names a known student while an exam session is active. *)
Definition verify_student (db : database) (student_id : option string)
           (face_verified fingerprint_verified : option bool)
  : response * database :=
  let face_verified := Py.get face_verified false in
  let fingerprint_verified := Py.get fingerprint_verified false in
  match student_id with
  | None | Some "" => (refused 400 "Student ID is required", db)
  | Some sid =>
      match find_student sid db with
      | None => (refused 404 "Student not found", db)
      | Some student =>
          match active_session db with
          | None => (refused 400 "No active exam session", db)
          | Some session =>
              let (verification_status, error_message) :=
                logged_status face_verified fingerprint_verified in
              let log :=
                VerificationLog (id student) (session_id session)
                                face_verified fingerprint_verified
                                verification_status error_message in
              (ok, add_log log db)
          end
      end
  end.

End EnhancedRoutes.

(** ** Concrete stores and requests *)

Module RouteSamples.

Import Store.
Local Open Scope string_scope.

(** Two students, the second one without biometric data, and one active
    exam session. *)
Definition alice : student := Student 1 "S001" "Alice" (Some "WzAuMV0=") (Some "e30=").
Definition bob : student := Student 2 "S002" "Bob" None None.

Definition campus : database :=
  Database [alice; bob] [ExamSession 7 false; ExamSession 8 true] [].

(** A storage text for fused templates that only records their size. *)
Definition dumps_template (t : Fingerprint.template) : option string :=
  Some ("points:" ++ Py.str_of_nat (length (Py.get (Fingerprint.minutiae_points t) []))).

Definition dumps_encoding (v : Enrollment.mean_value) : option string :=
  match v with
  | Enrollment.Scalar _ => Some "NaN"
  | Enrollment.Vector l => Some ("entries:" ++ Py.str_of_nat (length l))
  end.

(** The bytes that the mock scanner returns, and another template. *)
Definition dummy_template : Serialization.bytes :=
  list_byte_of_string "dummy_fingerprint_template_data".
Definition other_template : Serialization.bytes :=
  list_byte_of_string "another_template".

End RouteSamples.

(** * Properties *)

(** ** Facts about primitive floats *)

Module FloatFacts.

Local Open Scope float_scope.

(** A float is never strictly below itself. *)
Lemma SFcompare_refl_not_lt (f : spec_float) : SFcompare f f <> Some Lt.
Proof.
  destruct f as [[]|[]| |[] m e]; simpl; try discriminate.
  - rewrite Z.compare_refl, Pos.compare_cont_refl. discriminate.
  - rewrite Z.compare_refl, Pos.compare_cont_refl. discriminate.
Qed.

Lemma ltb_irrefl (f : float) : (f <? f) = false.
Proof.
  rewrite FloatAxioms.ltb_spec. unfold SFltb.
  destruct (SFcompare (Prim2SF f) (Prim2SF f)) as [[]|] eqn:E; try reflexivity.
  exfalso. exact (SFcompare_refl_not_lt _ E).
Qed.

Lemma SFcompare_eq_sym (f g : spec_float) :
  SFcompare f g = Some Eq -> SFcompare g f = Some Eq.
Proof.
  destruct f as [[]|[]| |[] m1 e1], g as [[]|[]| |[] m2 e2]; simpl;
    try discriminate; try reflexivity; intros H;
    destruct (Z.compare_spec e1 e2); try discriminate; subst e2;
    rewrite Z.compare_refl; injection H as H.
  - destruct (Pos.compare_cont Eq m1 m2) eqn:E; try discriminate.
    apply Pos.compare_eq in E. subst m2. now rewrite Pos.compare_cont_refl.
  - apply Pos.compare_eq in H. subst m2. now rewrite Pos.compare_cont_refl.
Qed.

(** Two floats that compare equal are not strictly ordered. *)
Lemma eqb_not_ltb (f g : float) : (f =? g) = true -> (g <? f) = false.
Proof.
  rewrite FloatAxioms.eqb_spec, FloatAxioms.ltb_spec. unfold SFeqb, SFltb. intros H.
  destruct (SFcompare (Prim2SF f) (Prim2SF g)) as [[]|] eqn:E; try discriminate.
  now rewrite (SFcompare_eq_sym _ _ E).
Qed.

End FloatFacts.

(** ** Fingerprint matching and fusion *)

Module FingerprintFacts.

Import Fingerprint.
Local Open Scope float_scope.

(** The inner loop is a search for a matching point. *)
Lemma inner_loop_existsb p1 points2 :
  inner_loop p1 points2 = existsb (points_match p1) points2.
Proof.
  induction points2 as [|p2 rest IH]; simpl; [reflexivity|].
  rewrite IH. now destruct (points_match p1 p2).
Qed.

Lemma count_matches_from points1 points2 (start : nat) :
  fold_left (fun matches p1 => if inner_loop p1 points2 then S matches else matches)
            points1 start
  = (start + length (filter (fun p1 => inner_loop p1 points2) points1))%nat.
Proof.
  revert start. induction points1 as [|p1 rest IH]; intros start; simpl.
  - lia.
  - rewrite IH. destruct (inner_loop p1 points2); simpl; lia.
Qed.

(** The counter ends as the number of points of [points1] that have some
    matching point in [points2]. *)
Lemma count_matches_filter points1 points2 :
  count_matches points1 points2
  = length (filter (fun p1 => existsb (points_match p1) points2) points1).
Proof.
  unfold count_matches. rewrite count_matches_from. simpl.
  f_equal. apply filter_ext. intros p1. apply inner_loop_existsb.
Qed.

Lemma count_matches_le points1 points2 :
  (count_matches points1 points2 <= length points1)%nat.
Proof. rewrite count_matches_filter. apply filter_length_le. Qed.

Lemma similarity_empty_left points2 : _calculate_minutiae_similarity [] points2 = 0.
Proof. reflexivity. Qed.

Lemma similarity_empty_right points1 : _calculate_minutiae_similarity points1 [] = 0.
Proof. now destruct points1. Qed.

(** On non-empty lists the result is the quotient of the counter by the
    smaller length. *)
Lemma similarity_nonempty p1 rest1 p2 rest2 :
  let points1 := p1 :: rest1 in
  let points2 := p2 :: rest2 in
  _calculate_minutiae_similarity points1 points2
  = Py.float_of_nat (count_matches points1 points2)
    / Py.float_of_nat (Nat.min (length points1) (length points2)).
Proof. reflexivity. Qed.

(** *** The specification's greedy count *)

Lemma take_first_match_length p1 unmatched remaining :
  FingerprintSpec.take_first_match p1 unmatched = Some remaining ->
  length unmatched = S (length remaining).
Proof.
  revert remaining. induction unmatched as [|p2 rest IH]; intros remaining; simpl.
  - discriminate.
  - destruct (points_match p1 p2).
    + now intros [= <-].
    + destruct (FingerprintSpec.take_first_match p1 rest) as [remaining'|];
        simpl; [|discriminate].
      intros [= <-]. simpl. f_equal. now apply IH.
Qed.

(** A consumed point is a point that the scan of the code reaches too. *)
Lemma take_first_match_found p1 unmatched remaining :
  FingerprintSpec.take_first_match p1 unmatched = Some remaining ->
  inner_loop p1 unmatched = true.
Proof.
  revert remaining. induction unmatched as [|p2 rest IH]; intros remaining; simpl.
  - discriminate.
  - destruct (points_match p1 p2); [reflexivity|].
    destruct (FingerprintSpec.take_first_match p1 rest) as [remaining'|];
      simpl; [|discriminate].
    intros _. now apply (IH remaining').
Qed.

Lemma take_first_match_incl p1 unmatched remaining :
  FingerprintSpec.take_first_match p1 unmatched = Some remaining ->
  incl remaining unmatched.
Proof.
  revert remaining. induction unmatched as [|p2 rest IH]; intros remaining; simpl.
  - discriminate.
  - destruct (points_match p1 p2).
    + intros [= <-]. apply incl_tl, incl_refl.
    + destruct (FingerprintSpec.take_first_match p1 rest) as [remaining'|];
        simpl; [|discriminate].
      intros [= <-]. apply incl_cons; [now left|].
      apply incl_tl. now apply IH.
Qed.

Lemma inner_loop_incl p1 points points' :
  incl points points' -> inner_loop p1 points = true -> inner_loop p1 points' = true.
Proof.
  rewrite !inner_loop_existsb, !existsb_exists.
  intros Hincl (p2 & Hin & Hmatch). exists p2. auto.
Qed.

(** With consumption the count never exceeds either length. *)
Lemma greedy_matches_bounded points1 : forall unmatched,
  (FingerprintSpec.greedy_matches points1 unmatched
   <= Nat.min (length points1) (length unmatched))%nat.
Proof.
  induction points1 as [|p1 rest IH]; intros unmatched;
    cbn [FingerprintSpec.greedy_matches length]; [lia|].
  destruct (FingerprintSpec.take_first_match p1 unmatched) as [remaining|] eqn:E.
  - apply take_first_match_length in E. specialize (IH remaining). lia.
  - specialize (IH unmatched). lia.
Qed.

(** The code counts at least the matches of the specification's procedure. *)
Lemma greedy_matches_le_count points2 points1 : forall unmatched,
  incl unmatched points2 ->
  (FingerprintSpec.greedy_matches points1 unmatched
   <= count_matches points1 points2)%nat.
Proof.
  unfold count_matches.
  induction points1 as [|p1 rest IH]; intros unmatched Hincl; simpl; [lia|].
  rewrite count_matches_from.
  destruct (FingerprintSpec.take_first_match p1 unmatched) as [remaining|] eqn:E.
  - rewrite (inner_loop_incl p1 unmatched points2 Hincl
               (take_first_match_found _ _ _ E)).
    assert (Hrem : incl remaining points2).
    { eapply incl_tran; [eapply take_first_match_incl; eassumption|assumption]. }
    specialize (IH remaining Hrem). rewrite count_matches_from in IH. simpl in IH.
    lia.
  - specialize (IH unmatched Hincl). rewrite count_matches_from in IH. simpl in IH.
    destruct (inner_loop p1 points2); lia.
Qed.

End FingerprintFacts.

Module FingerprintClaims.

Import Fingerprint FingerprintSpec FingerprintFacts.
Local Open Scope float_scope.

(** C2 (the code at a failing input).  A similarity is meant to lie in
    [0, 1], but the inner loop never marks a point of the second list as
    used: both enrolled minutiae match the single captured one, the counter
    reaches 2 while the denominator [max_possible_matches] is 1, and the
    similarity is 2.0.  The comparison reports it as such: similarity and
    confidence 2.0 and two matched points against a print that has one. *)
Theorem similarity_exceeds_one :
  count_matches Samples.enrolled_points Samples.captured_points = 2%nat
  /\ Nat.min (length Samples.enrolled_points) (length Samples.captured_points) = 1%nat
  /\ _calculate_minutiae_similarity Samples.enrolled_points Samples.captured_points = 2.0
  /\ (_calculate_minutiae_similarity Samples.enrolled_points Samples.captured_points
       <=? 1.0) = false
  /\ compare_fingerprint_templates (Some Samples.enrolled_template)
                                   (Some Samples.captured_template) default_threshold
     = Comparison true None 2.0 true (Some default_threshold) (Some 2.0) (Some 2%Z).
Proof. repeat split; vm_compute; reflexivity. Qed.

(** C3 (the code at a failing input).  The specification's greedy procedure
    consumes a point of P2 with every match; the code does not.  On the input
    above the specification counts one match (similarity 1.0), the code two
    (similarity 2.0): the single point of P2 is matched twice. *)
Theorem second_list_points_are_reused :
  points_match Samples.p_left Samples.p_mid = true
  /\ points_match Samples.p_right Samples.p_mid = true
  /\ greedy_matches Samples.enrolled_points Samples.captured_points = 1%nat
  /\ spec_similarity Samples.enrolled_points Samples.captured_points = 1.0
  /\ count_matches Samples.enrolled_points Samples.captured_points = 2%nat
  /\ _calculate_minutiae_similarity Samples.enrolled_points Samples.captured_points = 2.0.
Proof. repeat split; vm_compute; reflexivity. Qed.

(** The scan of the inner deduplication loop finds nothing when every kept
    point is farther than the tolerance. *)
Lemma scan_unique_apart point unique_points :
  apart_from unique_points point = true -> scan_unique point unique_points = None.
Proof.
  induction unique_points as [|u rest IH]; simpl; [reflexivity|].
  intros H. apply andb_true_iff in H as [Hu Hrest].
  apply negb_true_iff in Hu. rewrite Hu, (IH Hrest). reflexivity.
Qed.

Lemma dedup_step_apart point unique_points :
  apart_from unique_points point = true ->
  dedup_step unique_points point = unique_points ++ [point].
Proof. intros H. unfold dedup_step. now rewrite (scan_unique_apart _ _ H). Qed.

(** The outer loop only appends while the incoming points stay apart. *)
Lemma dedup_loop_apart points : forall earlier,
  apart_after earlier points = true ->
  fold_left dedup_step points earlier = earlier ++ points.
Proof.
  induction points as [|point rest IH]; intros earlier H; simpl.
  - now rewrite app_nil_r.
  - simpl in H. apply andb_true_iff in H as [Hpoint Hrest].
    rewrite (dedup_step_apart _ _ Hpoint), (IH _ Hrest), <- app_assoc.
    reflexivity.
Qed.

(** C5 (counterexample).  Deduplication is not idempotent.  From [a; b; c]
    the loop keeps [a] and [b] (8 units apart), then finds [c] close to [a],
    drops [a] and appends [c] without comparing [c] with [b]: the output
    [b; c] holds two points 4 units apart.  A second run finds [c] close to
    [b], drops [b], and returns [c] alone: the two outputs differ, also as
    sets. *)
Lemma dedup_twice_differs :
  let once := _remove_duplicate_minutiae [Samples.a; Samples.b; Samples.c] in
  let twice := _remove_duplicate_minutiae once in
  once = [Samples.b; Samples.c]
  /\ twice = [Samples.c]
  /\ ~ (forall point, In point twice <-> In point once).
Proof.
  cbv zeta. split; [vm_compute; reflexivity|]. split; [vm_compute; reflexivity|].
  intros H.
  assert (Hb : In Samples.b (_remove_duplicate_minutiae
                               (_remove_duplicate_minutiae
                                  [Samples.a; Samples.b; Samples.c]))).
  { apply H. vm_compute. left. reflexivity. }
  vm_compute in Hb. destruct Hb as [Hb|[]].
  apply (f_equal (fun m => (m_x m =? 4.0))) in Hb. vm_compute in Hb. discriminate.
Qed.

(** C5 (as amended).  A list in which no point is within the tolerance of
    an earlier one is returned unchanged; hence running the deduplication on
    its own output changes nothing whenever that output is such a list. *)
Theorem dedup_idempotent_on_separated_points :
  (forall points,
      pairwise_apart points = true -> _remove_duplicate_minutiae points = points)
  /\ (forall points,
        pairwise_apart (_remove_duplicate_minutiae points) = true ->
        _remove_duplicate_minutiae (_remove_duplicate_minutiae points)
        = _remove_duplicate_minutiae points).
Proof.
  assert (Hfix : forall points,
             pairwise_apart points = true -> _remove_duplicate_minutiae points = points).
  { intros points H. unfold _remove_duplicate_minutiae.
    now rewrite (dedup_loop_apart points [] H). }
  split; [exact Hfix|].
  intros points H. now apply Hfix.
Qed.

Lemma dedup_idempotent_on_separated_points_witness :
  let once := _remove_duplicate_minutiae [Samples.a; Samples.b; Samples.a] in
  once = [Samples.a; Samples.b] /\ _remove_duplicate_minutiae once = once.
Proof.
  cbv zeta. split; [vm_compute; reflexivity|].
  apply (proj2 dedup_idempotent_on_separated_points
               [Samples.a; Samples.b; Samples.a]).
  vm_compute; reflexivity.
Defined.

(** C6.  Fusing a single template returns that template itself, whatever it
    holds: neither the merge nor the deduplication runs.  A template with
    the same minutia twice keeps both copies (the deduplication would drop
    one) and gets no [combined_from] entry. *)
Theorem combine_single_template :
  (forall (now : string) (t : template), _combine_templates now [t] = t)
  /\ (let t := Samples.repeated_point_template in
      _combine_templates "2024-01-01T09:00:05" [t] = t
      /\ minutiae_points t = Some [Samples.a; Samples.a]
      /\ _remove_duplicate_minutiae [Samples.a; Samples.a] = [Samples.a]
      /\ combined_from (_combine_templates "2024-01-01T09:00:05" [t]) = None).
Proof.
  split.
  - intros now t. reflexivity.
  - cbv zeta. repeat split; vm_compute; reflexivity.
Qed.

End FingerprintClaims.

(** ** Face encodings and their comparison *)

Module FaceClaims.

Import Face.
Local Open Scope float_scope.

(** The sum of squares of a vector of zeros (of either sign) is zero. *)
Lemma sum_of_squares_zero (encoding : list float) :
  Forall (fun v => v = 0 \/ v = neg_zero) encoding ->
  fold_left (fun acc v => acc + v * v) encoding 0 = 0.
Proof.
  induction 1 as [|v rest [Hv|Hv] _ IH]; simpl; [reflexivity| |]; subst v; exact IH.
Qed.

(** A vector of zeros has norm zero, as the code computes it. *)
Lemma norm_of_zeros (encoding : list float) :
  Forall (fun v => v = 0 \/ v = neg_zero) encoding -> norm encoding = 0.
Proof. intros H. unfold norm. now rewrite (sum_of_squares_zero encoding H). Qed.

Lemma dot_same_length (a b : list float) :
  length a = length b -> exists d, dot a b = Some d.
Proof. intros H. unfold dot. rewrite H, Nat.eqb_refl. eauto. Qed.

(** C1 (counterexample).  With an all-zero encoding the guard sets the
    cosine term to 0.0, and the remapping [(similarity + 1) / 2] that follows
    the guard turns it into 0.5: the comparison succeeds with similarity 0.5,
    not 0.0. *)
Lemma zero_norm_similarity_is_not_zero :
  let r := compare_face_encodings Samples.zero_encoding Samples.plain_encoding
                                  default_threshold in
  norm Samples.zero_encoding = 0
  /\ success r = true
  /\ similarity r = 0.5
  /\ (similarity r =? 0) = false.
Proof. cbv zeta. repeat split; vm_compute; reflexivity. Qed.

(** C1 (as amended).  When one of the two norms is zero no division takes
    place: for non-empty encodings of the same length the comparison
    succeeds with the cosine term 0.0 remapped to similarity 0.5 (and the
    match flag [threshold < 0.5]); an empty encoding or a length mismatch
    gives a failure that carries similarity 0.0. *)
Theorem zero_norm_similarity (encoding1 encoding2 : list float) (thr : float) :
  (norm encoding1 =? 0) = true \/ (norm encoding2 =? 0) = true ->
  let r := compare_face_encodings encoding1 encoding2 thr in
  if (0 <? length encoding1)%nat && (0 <? length encoding2)%nat
     && (length encoding1 =? length encoding2)%nat
  then r = Comparison true None 0.5 (thr <? 0.5) (Some thr) (Some 0.5)
  else success r = false /\ similarity r = 0 /\ is_match r = false.
Proof.
  intros Hnorm r. subst r.
  destruct encoding1 as [|v1 rest1]; [simpl; auto|].
  destruct encoding2 as [|v2 rest2]; [simpl; auto|].
  unfold compare_face_encodings, dot.
  change ((0 <? length (v1 :: rest1))%nat && (0 <? length (v2 :: rest2))%nat) with true.
  rewrite andb_true_l.
  destruct (length (v1 :: rest1) =? length (v2 :: rest2))%nat; [|simpl; auto].
  assert (Hguard : (norm (v1 :: rest1) =? 0) || (norm (v2 :: rest2) =? 0) = true).
  { apply orb_true_iff. exact Hnorm. }
  rewrite Hguard. reflexivity.
Qed.

Lemma zero_norm_similarity_witness :
  let r := compare_face_encodings Samples.zero_encoding Samples.plain_encoding
                                  default_threshold in
  r = Comparison true None 0.5 false (Some default_threshold) (Some 0.5).
Proof.
  exact (zero_norm_similarity Samples.zero_encoding Samples.plain_encoding
           default_threshold (or_introl eq_refl)).
Defined.

(** Slicing to [n] entries or padding with zeros up to [n] entries is the
    same as padding first and slicing afterwards. *)
Lemma slice_or_pad (n : nat) (raw : list float) :
  (if (n <? length raw)%nat then firstn n raw
   else if (length raw <? n)%nat then raw ++ repeat 0 (n - length raw)
        else raw)
  = firstn n (raw ++ repeat 0 (n - length raw)).
Proof.
  destruct (Nat.ltb_spec n (length raw)) as [Hlong|Hshort].
  - replace (n - length raw)%nat with 0%nat by lia. simpl. now rewrite app_nil_r.
  - destruct (Nat.ltb_spec (length raw) n) as [Hlt|Hge].
    + symmetry. apply firstn_all2. rewrite length_app, repeat_length. lia.
    + replace (n - length raw)%nat with 0%nat by lia. simpl. rewrite app_nil_r.
      symmetry. apply firstn_all2. lia.
Qed.

Lemma fit_length_padded_slice (raw : list float) :
  fit_length raw = firstn target_length (raw ++ repeat 0 (target_length - length raw)).
Proof. unfold fit_length. apply slice_or_pad. Qed.

Lemma fit_length_length (raw : list float) : length (fit_length raw) = target_length.
Proof.
  rewrite fit_length_padded_slice, length_firstn, length_app, repeat_length. lia.
Qed.

(** C7.  Whatever the number of coordinates collected from the landmarks,
    the encoding is cut to its first 128 entries when longer and filled with
    zeros up to 128 entries when shorter, so every encoding that
    [extract_face_encoding] returns has exactly 128 entries; and it returns
    one whenever landmarks were found. *)
Theorem face_encoding_has_fixed_length :
  (forall raw : list float,
      length (fit_length raw) = 128%nat
      /\ fit_length raw = firstn 128 (raw ++ repeat 0 (128 - length raw)))
  /\ (forall landmarks others,
        extract_face_encoding (Some (landmarks :: others))
        = Some (fit_length (landmark_coordinates landmarks)))
  /\ (forall processed encoding,
        extract_face_encoding processed = Some encoding -> length encoding = 128%nat).
Proof.
  split; [|split].
  - intros raw. split.
    + apply fit_length_length.
    + apply fit_length_padded_slice.
  - reflexivity.
  - intros [[|landmarks others]|] encoding H; simpl in H; try discriminate.
    injection H as <-. apply fit_length_length.
Qed.

Lemma face_encoding_has_fixed_length_witness :
  length (fit_length (landmark_coordinates Samples.three_landmarks)) = 128%nat.
Proof.
  apply (proj2 (proj2 face_encoding_has_fixed_length)
               (Some [Samples.three_landmarks])).
  reflexivity.
Defined.

End FaceClaims.

(** ** The match flag of both scorers *)

Module ThresholdClaims.

Local Open Scope float_scope.

Lemma face_match_flag encoding1 encoding2 thr :
  let r := Face.compare_face_encodings encoding1 encoding2 thr in
  Face.success r = true -> Face.is_match r = (thr <? Face.similarity r).
Proof.
  cbv zeta. unfold Face.compare_face_encodings.
  destruct encoding1, encoding2; try discriminate.
  destruct (Face.dot _ _); [reflexivity|discriminate].
Qed.

Lemma fingerprint_match_flag template1 template2 thr :
  let r := Fingerprint.compare_fingerprint_templates template1 template2 thr in
  Fingerprint.success r = true ->
  Fingerprint.is_match r = (thr <? Fingerprint.similarity r).
Proof.
  cbv zeta. unfold Fingerprint.compare_fingerprint_templates.
  destruct template1 as [t1|], template2 as [t2|]; try discriminate.
  destruct (Fingerprint.falsy (Some t1) || Fingerprint.falsy (Some t2));
    try discriminate.
  destruct (Py.get (Fingerprint.minutiae_points t1) []),
           (Py.get (Fingerprint.minutiae_points t2) []); try discriminate.
  destruct (Py.int_of_float _); [discriminate|reflexivity].
Qed.

(** C10.  Whenever a scorer reports success, its match flag is the strict
    comparison [threshold < similarity]: a similarity equal to the threshold
    does not match. *)
Theorem match_is_strictly_above_threshold :
  (forall encoding1 encoding2 thr,
      let r := Face.compare_face_encodings encoding1 encoding2 thr in
      Face.success r = true ->
      (Face.is_match r = true <-> (thr <? Face.similarity r) = true)
      /\ ((Face.similarity r =? thr) = true -> Face.is_match r = false))
  /\ (forall template1 template2 thr,
        let r := Fingerprint.compare_fingerprint_templates template1 template2 thr in
        Fingerprint.success r = true ->
        (Fingerprint.is_match r = true <-> (thr <? Fingerprint.similarity r) = true)
        /\ ((Fingerprint.similarity r =? thr) = true -> Fingerprint.is_match r = false)).
Proof.
  split.
  - intros encoding1 encoding2 thr r Hsuccess.
    pose proof (face_match_flag encoding1 encoding2 thr Hsuccess) as Hflag.
    fold r in Hflag. rewrite Hflag. split; [reflexivity|].
    apply FloatFacts.eqb_not_ltb.
  - intros template1 template2 thr r Hsuccess.
    pose proof (fingerprint_match_flag template1 template2 thr Hsuccess) as Hflag.
    fold r in Hflag. rewrite Hflag. split; [reflexivity|].
    apply FloatFacts.eqb_not_ltb.
Qed.

Lemma match_is_strictly_above_threshold_witness :
  Face.is_match (Face.compare_face_encodings
                   Samples.zero_encoding Samples.plain_encoding 0.5) = false
  /\ Fingerprint.is_match (Fingerprint.compare_fingerprint_templates
                             (Some Samples.one_point_template)
                             (Some Samples.one_point_template) 1.0) = false.
Proof.
  split.
  - apply (proj1 match_is_strictly_above_threshold
                 Samples.zero_encoding Samples.plain_encoding 0.5);
      vm_compute; reflexivity.
  - apply (proj2 match_is_strictly_above_threshold
                 (Some Samples.one_point_template)
                 (Some Samples.one_point_template) 1.0);
      vm_compute; reflexivity.
Defined.

End ThresholdClaims.

(** ** Enrollment is all-or-nothing *)

Module EnrollmentClaims.

Import Enrollment.

Section Scanner.

Variable capture : nat -> capture_result.
Variable extract : nat -> string -> option Fingerprint.template.

(** An early return of the loop is always a failure without a template. *)
Lemma fingerprint_early_return student_id indices :
  forall templates early,
    fingerprint_samples capture extract student_id indices templates = inl early ->
    fp_success early = false /\ fingerprint_template early = None.
Proof.
  induction indices as [|i rest IH]; intros templates early; simpl; [discriminate|].
  destruct (capture i) as [image_data|error].
  - destruct (extract i image_data) as [template|].
    + apply IH.
    + intros H. injection H as <-. split; reflexivity.
  - intros H. injection H as <-. split; reflexivity.
Qed.

(** The loop does not run to its end when one of its iterations fails. *)
Lemma fingerprint_loop_stops student_id indices i :
  In i indices ->
  fingerprint_sample_fails capture extract i = true ->
  forall templates,
    exists early,
      fingerprint_samples capture extract student_id indices templates = inl early.
Proof.
  unfold fingerprint_sample_fails.
  induction indices as [|j rest IH]; intros Hin Hfail templates; [destruct Hin|].
  simpl. destruct (capture j) as [image_data|error] eqn:Hcapture; [|eauto].
  destruct (extract j image_data) as [template|] eqn:Hextract; [|eauto].
  destruct Hin as [->|Hin].
  - rewrite Hcapture, Hextract in Hfail. discriminate.
  - apply IH; assumption.
Qed.

(** When every iteration succeeds the loop returns the templates in order. *)
Lemma fingerprint_loop_completes student_id indices :
  (forall i, In i indices -> fingerprint_sample_fails capture extract i = false) ->
  forall templates,
    exists collected,
      fingerprint_samples capture extract student_id indices templates
      = inr (templates ++ collected)
      /\ length collected = length indices.
Proof.
  unfold fingerprint_sample_fails.
  induction indices as [|j rest IH]; intros Hok templates; simpl.
  - exists []. now rewrite app_nil_r.
  - pose proof (Hok j (or_introl eq_refl)) as Hj.
    destruct (capture j) as [image_data|error]; [|discriminate].
    destruct (extract j image_data) as [template|]; [|discriminate].
    destruct (IH (fun i Hi => Hok i (or_intror Hi)) (templates ++ [template]))
      as (collected & -> & Hlen).
    exists (template :: collected). rewrite <- app_assoc. simpl. auto.
Qed.

End Scanner.

Section Camera.

Variable capture : nat -> capture_result.
Variable extract : nat -> string -> option (list float).

Lemma face_early_return student_id indices :
  forall encodings early,
    face_samples capture extract student_id indices encodings = inl early ->
    fc_success early = false /\ face_encoding early = None.
Proof.
  induction indices as [|i rest IH]; intros encodings early; simpl; [discriminate|].
  destruct (capture i) as [image_data|error].
  - destruct (extract i image_data) as [encoding|].
    + apply IH.
    + intros H. injection H as <-. split; reflexivity.
  - intros H. injection H as <-. split; reflexivity.
Qed.

Lemma face_loop_stops student_id indices i :
  In i indices ->
  face_sample_fails capture extract i = true ->
  forall encodings,
    exists early, face_samples capture extract student_id indices encodings = inl early.
Proof.
  unfold face_sample_fails.
  induction indices as [|j rest IH]; intros Hin Hfail encodings; [destruct Hin|].
  simpl. destruct (capture j) as [image_data|error] eqn:Hcapture; [|eauto].
  destruct (extract j image_data) as [encoding|] eqn:Hextract; [|eauto].
  destruct Hin as [->|Hin].
  - rewrite Hcapture, Hextract in Hfail. discriminate.
  - apply IH; assumption.
Qed.

End Camera.

(** Without a failing iteration the fingerprint enrollment succeeds and
    stores the fusion of as many templates as samples were asked for. *)
Lemma enroll_fingerprint_succeeds capture extract now_combine now student_id num_samples :
  (forall i, (i < Z.to_nat num_samples)%nat ->
             fingerprint_sample_fails capture extract i = false) ->
  exists templates,
    length templates = Z.to_nat num_samples
    /\ enroll_fingerprint capture extract now_combine now student_id num_samples
       = FingerprintEnrollment
           true None student_id
           (Some (Fingerprint._combine_templates now_combine templates))
           (Some num_samples) (Some now).
Proof.
  intros Hok. unfold enroll_fingerprint.
  destruct (fingerprint_loop_completes capture extract student_id
              (seq 0 (Z.to_nat num_samples))) with (templates := @nil Fingerprint.template)
    as (collected & Hloop & Hlen).
  - intros i Hi. apply Hok. apply in_seq in Hi. lia.
  - rewrite Hloop. exists collected. rewrite Hlen, length_seq. auto.
Qed.

(** C8.  If the capture or the extraction of any of the [num_samples]
    iterations fails, the enrollment returns a failure that holds no
    template: what the earlier iterations collected is dropped.  This holds
    for the fingerprint and for the face enrollment, for every behaviour of
    the device and every number of samples. *)
Theorem enrollment_is_all_or_nothing :
  (forall capture extract now_combine now student_id num_samples i,
      (i < Z.to_nat num_samples)%nat ->
      fingerprint_sample_fails capture extract i = true ->
      let r := enroll_fingerprint capture extract now_combine now student_id num_samples in
      fp_success r = false /\ fingerprint_template r = None)
  /\ (forall capture extract now student_id num_samples i,
        (i < Z.to_nat num_samples)%nat ->
        face_sample_fails capture extract i = true ->
        let r := enroll_face capture extract now student_id num_samples in
        fc_success r = false /\ face_encoding r = None).
Proof.
  split.
  - intros capture extract now_combine now student_id num_samples i Hi Hfail r.
    subst r. unfold enroll_fingerprint.
    assert (Hin : In i (seq 0 (Z.to_nat num_samples))) by (apply in_seq; lia).
    destruct (fingerprint_loop_stops capture extract student_id _ i Hin Hfail [])
      as [early Hearly].
    rewrite Hearly. exact (fingerprint_early_return _ _ _ _ _ _ Hearly).
  - intros capture extract now student_id num_samples i Hi Hfail r.
    subst r. unfold enroll_face.
    assert (Hin : In i (seq 0 (Z.to_nat num_samples))) by (apply in_seq; lia).
    destruct (face_loop_stops capture extract student_id _ i Hin Hfail [])
      as [early Hearly].
    rewrite Hearly. exact (face_early_return _ _ _ _ _ _ Hearly).
Qed.

Lemma enrollment_is_all_or_nothing_witness :
  (let r := enroll_fingerprint Samples.flaky_scanner Samples.steady_extractor
                               "2024-01-01T09:00:05" "2024-01-01T09:00:05" "S001" 3 in
   fp_success r = false /\ fingerprint_template r = None)
  /\ (let r := enroll_face Samples.steady_camera Samples.flaky_face_extractor
                           "2024-01-01T09:00:05" "S001" 3 in
      fc_success r = false /\ face_encoding r = None).
Proof.
  split.
  - apply (proj1 enrollment_is_all_or_nothing
                 Samples.flaky_scanner Samples.steady_extractor
                 "2024-01-01T09:00:05"%string "2024-01-01T09:00:05"%string
                 "S001"%string 3%Z 1%nat).
    + vm_compute. lia.
    + reflexivity.
  - apply (proj2 enrollment_is_all_or_nothing
                 Samples.steady_camera Samples.flaky_face_extractor
                 "2024-01-01T09:00:05"%string "S001"%string 3%Z 1%nat).
    + vm_compute. lia.
    + reflexivity.
Defined.

End EnrollmentClaims.

(** ** The overall status *)

Module DecisionClaims.

Import Decision.

(** C4.  Both places that combine the two modalities implement the same
    table, total over the four combinations and unchanged when the two
    modalities are swapped. *)
Theorem overall_status_table :
  fst (verify_student true true) = approved
  /\ fst (verify_student true false) = partial
  /\ fst (verify_student false true) = partial
  /\ fst (verify_student false false) = rejected
  /\ overall_status true true = approved
  /\ overall_status true false = partial
  /\ overall_status false true = partial
  /\ overall_status false false = rejected
  /\ (forall face fingerprint,
        fst (verify_student face fingerprint) = fst (verify_student fingerprint face))
  /\ (forall face fingerprint,
        overall_status face fingerprint = overall_status fingerprint face)
  /\ (forall face fingerprint,
        fst (verify_student face fingerprint) = overall_status face fingerprint).
Proof.
  repeat split; try reflexivity; intros [] []; reflexivity.
Qed.

End DecisionClaims.

(** ** The base64 decoder *)

Module Base64Facts.

Import Base64.

Lemma below_cases (n : nat) (P : nat -> bool) :
  forallb P (seq 0 n) = true -> forall v, (v < n)%nat -> P v = true.
Proof.
  intros H v Hv. rewrite forallb_forall in H. apply H, in_seq. lia.
Qed.


(** Every value below 64 has its character, which is neither the padding
    character nor outside ASCII. *)
Lemma sextet_char_value (v : nat) :
  (v < 64)%nat ->
  ReferenceCodec.char_sextet (ReferenceCodec.sextet_char v) = Some v
  /\ Byte.eqb (ReferenceCodec.sextet_char v) pad_byte = false
  /\ ReferenceCodec.is_ascii (ReferenceCodec.sextet_char v) = true.
Proof.
  intros Hv.
  pose proof (below_cases 64
                (fun v => match ReferenceCodec.char_sextet (ReferenceCodec.sextet_char v) with
                          | Some w => (w =? v)%nat
                          | None => false
                          end
                          && negb (Byte.eqb (ReferenceCodec.sextet_char v) pad_byte)
                          && ReferenceCodec.is_ascii (ReferenceCodec.sextet_char v))
                eq_refl v Hv) as H.
  cbv beta in H. apply andb_true_iff in H as [H Hascii].
  apply andb_true_iff in H as [Hvalue Hpad].
  destruct (ReferenceCodec.char_sextet (ReferenceCodec.sextet_char v)) as [w|];
    [|discriminate].
  apply Nat.eqb_eq in Hvalue. subst w.
  apply negb_true_iff in Hpad. auto.
Qed.


(** The shifts and masks of the decoder on values below 64. *)
Lemma first_byte_bits (v1 v2 : nat) :
  (v1 < 64)%nat -> (v2 < 64)%nat ->
  Nat.lor (Nat.shiftl v1 2) (Nat.shiftr v2 4) = (v1 * 4 + v2 / 16)%nat.
Proof.
  intros H1 H2. apply Nat.eqb_eq.
  exact (below_cases 64 _
           (below_cases 64
              (fun v1 => forallb (fun v2 => Nat.lor (Nat.shiftl v1 2) (Nat.shiftr v2 4)
                                            =? v1 * 4 + v2 / 16)%nat (seq 0 64))
              eq_refl v1 H1) v2 H2).
Qed.

Lemma second_byte_bits (left v3 : nat) :
  (left < 16)%nat -> (v3 < 64)%nat ->
  Nat.lor (Nat.shiftl left 4) (Nat.shiftr v3 2) = (left * 16 + v3 / 4)%nat.
Proof.
  intros H1 H2. apply Nat.eqb_eq.
  exact (below_cases 64 _
           (below_cases 16
              (fun l => forallb (fun v3 => Nat.lor (Nat.shiftl l 4) (Nat.shiftr v3 2)
                                           =? l * 16 + v3 / 4)%nat (seq 0 64))
              eq_refl left H1) v3 H2).
Qed.

Lemma third_byte_bits (left v4 : nat) :
  (left < 4)%nat -> (v4 < 64)%nat ->
  Nat.lor (Nat.shiftl left 6) v4 = (left * 64 + v4)%nat.
Proof.
  intros H1 H2. apply Nat.eqb_eq.
  exact (below_cases 64 _
           (below_cases 4
              (fun l => forallb (fun v4 => Nat.lor (Nat.shiftl l 6) v4 =? l * 64 + v4)%nat
                                (seq 0 64))
              eq_refl left H1) v4 H2).
Qed.

Lemma mask_bits (v : nat) :
  (v < 64)%nat -> Nat.land v 15 = (v mod 16)%nat /\ Nat.land v 3 = (v mod 4)%nat.
Proof.
  intros Hv.
  pose proof (below_cases 64 (fun v => (Nat.land v 15 =? v mod 16)%nat
                                       && (Nat.land v 3 =? v mod 4)%nat) eq_refl v Hv) as H.
  cbv beta in H. apply andb_true_iff in H as [H1 H2].
  split; now apply Nat.eqb_eq.
Qed.

Lemma unsigned_char_to_nat (b : Byte.byte) : unsigned_char (Byte.to_nat b) = b.
Proof.
  unfold unsigned_char.
  pose proof (Byte.to_nat_bounded b) as Hb.
  rewrite Nat.mod_small by lia. now rewrite Byte.of_to_nat.
Qed.

(** Arithmetic with quotients and remainders by constants: every quotient
    comes with its Euclidean equation. *)
Ltac note_division a b :=
  lazymatch goal with
  | _ : a = (b * (a / b) + a mod b)%nat |- _ => fail
  | _ =>
      pose proof (Nat.div_mod_eq a b);
      pose proof (Nat.mod_upper_bound a b ltac:(discriminate))
  end.

Ltac arith :=
  repeat match goal with
         | b : Byte.byte |- _ =>
             lazymatch goal with
             | _ : (Byte.to_nat b <= 255)%nat |- _ => fail
             | _ => pose proof (Byte.to_nat_bounded b)
             end
         end;
  repeat match goal with
         | |- context [(?a / ?b)%nat] => note_division a b
         | |- context [(?a mod ?b)%nat] => note_division a b
         end;
  lia.

(** One character of the alphabet at each position of a group. *)
Lemma decode_data_character (v : nat) (rest : list Byte.byte)
      (quad_pos leftchar pads : nat) (bin_data : list Byte.byte) :
  (v < 64)%nat ->
  a2b_base64 (ReferenceCodec.sextet_char v :: rest) quad_pos leftchar pads bin_data
  = match quad_pos with
    | 0 => a2b_base64 rest 1 v 0 bin_data
    | 1 => a2b_base64 rest 2 (Nat.land v 15) 0
             (bin_data ++ [unsigned_char (Nat.lor (Nat.shiftl leftchar 2) (Nat.shiftr v 4))])
    | 2 => a2b_base64 rest 3 (Nat.land v 3) 0
             (bin_data ++ [unsigned_char (Nat.lor (Nat.shiftl leftchar 4) (Nat.shiftr v 2))])
    | _ => a2b_base64 rest 0 0 0
             (bin_data ++ [unsigned_char (Nat.lor (Nat.shiftl leftchar 6) v)])
    end.
Proof.
  intros Hv. destruct (sextet_char_value v Hv) as (Hvalue & Hpad & _).
  cbn [a2b_base64]. now rewrite Hpad, Hvalue.
Qed.

(** A full group of four characters gives its three bytes back. *)
Lemma decode_full_group (b1 b2 b3 : Byte.byte) (rest bin_data : list Byte.byte) :
  let n1 := Byte.to_nat b1 in
  let n2 := Byte.to_nat b2 in
  let n3 := Byte.to_nat b3 in
  a2b_base64 (ReferenceCodec.sextet_char (n1 / 4)
                :: ReferenceCodec.sextet_char (n1 mod 4 * 16 + n2 / 16)
                :: ReferenceCodec.sextet_char (n2 mod 16 * 4 + n3 / 64)
                :: ReferenceCodec.sextet_char (n3 mod 64) :: rest) 0 0 0 bin_data
  = a2b_base64 rest 0 0 0 (bin_data ++ [b1; b2; b3]).
Proof.
  intros n1 n2 n3.
  assert (H1 : (n1 / 4 < 64)%nat) by (subst n1; arith).
  assert (H2 : (n1 mod 4 * 16 + n2 / 16 < 64)%nat) by (subst n1 n2; arith).
  assert (H3 : (n2 mod 16 * 4 + n3 / 64 < 64)%nat) by (subst n2 n3; arith).
  assert (H4 : (n3 mod 64 < 64)%nat) by (subst n3; arith).
  rewrite (decode_data_character _ _ 0 _ _ _ H1).
  rewrite (decode_data_character _ _ 1 _ _ _ H2).
  rewrite (decode_data_character _ _ 2 _ _ _ H3).
  rewrite (decode_data_character _ _ 3 _ _ _ H4).
  rewrite (first_byte_bits _ _ H1 H2).
  rewrite (proj1 (mask_bits _ H2)).
  rewrite (second_byte_bits _ _ (Nat.mod_upper_bound _ 16 ltac:(discriminate)) H3).
  rewrite (proj2 (mask_bits _ H3)).
  rewrite (third_byte_bits _ _ (Nat.mod_upper_bound _ 4 ltac:(discriminate)) H4).
  replace (n1 / 4 * 4 + (n1 mod 4 * 16 + n2 / 16) / 16)%nat with n1 by (subst n1 n2; arith).
  replace ((n1 mod 4 * 16 + n2 / 16) mod 16 * 16 + (n2 mod 16 * 4 + n3 / 64) / 4)%nat
    with n2 by (subst n1 n2 n3; arith).
  replace ((n2 mod 16 * 4 + n3 / 64) mod 4 * 64 + n3 mod 64)%nat
    with n3 by (subst n2 n3; arith).
  subst n1 n2 n3. rewrite !unsigned_char_to_nat, <- !app_assoc. reflexivity.
Qed.


Lemma pad_is_pad : Byte.eqb pad_byte pad_byte = true.
Proof. reflexivity. Qed.

(** Padding after two or three characters of a group ends the decoding. *)
Lemma decode_padding (rest bin_data : list Byte.byte) (leftchar : nat) :
  a2b_base64 (pad_byte :: pad_byte :: rest) 2 leftchar 0 bin_data = Some bin_data
  /\ a2b_base64 (pad_byte :: rest) 3 leftchar 0 bin_data = Some bin_data.
Proof. cbn [a2b_base64]. rewrite pad_is_pad. split; reflexivity. Qed.

(** The decoder undoes the encoder, whatever was decoded before. *)
Lemma decode_encode_from (n : nat) :
  forall raw bin_data,
    (length raw <= n)%nat ->
    a2b_base64 (b64encode raw) 0 0 0 bin_data = Some (bin_data ++ raw).
Proof.
  unfold b64encode.
  induction n as [|n IH]; intros raw bin_data Hlen.
  - destruct raw; [|simpl in Hlen; lia]. cbn. now rewrite app_nil_r.
  - destruct raw as [|b1 [|b2 [|b3 rest]]].
    + cbn. now rewrite app_nil_r.
    + cbn [ReferenceCodec.b64encode].
      pose proof (Byte.to_nat_bounded b1).
      assert (H1 : (Byte.to_nat b1 / 4 < 64)%nat) by arith.
      assert (H2 : (Byte.to_nat b1 mod 4 * 16 < 64)%nat) by arith.
      rewrite (decode_data_character _ _ 0 _ _ _ H1).
      rewrite (decode_data_character _ _ 1 _ _ _ H2).
      rewrite (proj1 (decode_padding _ _ _)).
      rewrite (first_byte_bits _ _ H1 H2).
      replace (Byte.to_nat b1 / 4 * 4 + Byte.to_nat b1 mod 4 * 16 / 16)%nat
        with (Byte.to_nat b1) by arith.
      now rewrite unsigned_char_to_nat.
    + cbn [ReferenceCodec.b64encode].
      pose proof (Byte.to_nat_bounded b1). pose proof (Byte.to_nat_bounded b2).
      assert (H1 : (Byte.to_nat b1 / 4 < 64)%nat) by arith.
      assert (H2 : (Byte.to_nat b1 mod 4 * 16 + Byte.to_nat b2 / 16 < 64)%nat) by arith.
      assert (H3 : (Byte.to_nat b2 mod 16 * 4 < 64)%nat) by arith.
      rewrite (decode_data_character _ _ 0 _ _ _ H1).
      rewrite (decode_data_character _ _ 1 _ _ _ H2).
      rewrite (decode_data_character _ _ 2 _ _ _ H3).
      rewrite (proj2 (decode_padding _ _ _)).
      rewrite (first_byte_bits _ _ H1 H2), (proj1 (mask_bits _ H2)).
      rewrite (second_byte_bits _ _ (Nat.mod_upper_bound _ 16 ltac:(discriminate)) H3).
      replace (Byte.to_nat b1 / 4 * 4
               + (Byte.to_nat b1 mod 4 * 16 + Byte.to_nat b2 / 16) / 16)%nat
        with (Byte.to_nat b1) by arith.
      replace ((Byte.to_nat b1 mod 4 * 16 + Byte.to_nat b2 / 16) mod 16 * 16
               + Byte.to_nat b2 mod 16 * 4 / 4)%nat
        with (Byte.to_nat b2) by arith.
      rewrite !unsigned_char_to_nat, <- app_assoc. reflexivity.
    + cbn [ReferenceCodec.b64encode].
      rewrite decode_full_group, IH by (simpl in Hlen; lia).
      now rewrite <- app_assoc.
Qed.

(** [base64.b64decode(base64.b64encode(s)) == s]. *)
Lemma b64decode_b64encode (raw : list Byte.byte) : b64decode (b64encode raw) = Some raw.
Proof. exact (decode_encode_from (length raw) raw [] (Nat.le_refl _)). Qed.

(** The encoder writes ASCII characters, and at least one for a byte string
    that is not empty. *)
Lemma b64encode_ascii (n : nat) :
  forall raw, (length raw <= n)%nat ->
              forallb ReferenceCodec.is_ascii (b64encode raw) = true.
Proof.
  unfold b64encode.
  induction n as [|n IH]; intros raw Hlen.
  - destruct raw; [reflexivity|simpl in Hlen; lia].
  - destruct raw as [|b1 [|b2 [|b3 rest]]]; [reflexivity| | |];
      cbn [ReferenceCodec.b64encode forallb];
      repeat match goal with
             | |- context [ReferenceCodec.is_ascii (ReferenceCodec.sextet_char ?v)] =>
                 rewrite (proj2 (proj2 (sextet_char_value v ltac:(arith))))
             end;
      try reflexivity.
    cbn [andb]. apply IH. simpl in Hlen. lia.
Qed.

Lemma b64encode_not_empty (raw : list Byte.byte) : raw <> [] -> b64encode raw <> [].
Proof. destruct raw as [|b1 [|b2 [|b3 rest]]]; [congruence| | |]; discriminate. Qed.

(** Characters outside the alphabet change nothing in the decoding. *)
Lemma decoder_skips_noise (input : list Byte.byte) :
  forall quad_pos leftchar pads bin_data,
    a2b_base64 (filter (fun c => is_pad c || is_data c) input)
               quad_pos leftchar pads bin_data
    = a2b_base64 input quad_pos leftchar pads bin_data.
Proof.
  induction input as [|c rest IH]; intros quad_pos leftchar pads bin_data; [reflexivity|].
  cbn [filter]. unfold is_pad at 1, is_data at 1.
  destruct (Byte.eqb c pad_byte) eqn:Hpad.
  - cbn [orb a2b_base64]. rewrite Hpad.
    destruct (2 <=? quad_pos)%nat; [|apply IH].
    destruct (4 <=? quad_pos + (pads + 1))%nat; [reflexivity|apply IH].
  - destruct (ReferenceCodec.char_sextet c) as [value|] eqn:Hvalue; cbn [orb a2b_base64].
    + rewrite Hpad, Hvalue. destruct quad_pos as [|[|[|quad_pos]]]; apply IH.
    + rewrite Hpad, Hvalue. apply IH.
Qed.

(** Without padding, the decoder accepts a text exactly when its data
    characters come in groups of four. *)
Lemma incomplete_group_is_refused (input : list Byte.byte) :
  forall quad_pos leftchar pads bin_data,
    (quad_pos < 4)%nat ->
    existsb is_pad input = false ->
    ((quad_pos + length (filter is_data input)) mod 4 <> 0)%nat ->
    a2b_base64 input quad_pos leftchar pads bin_data = None.
Proof.
  induction input as [|c rest IH]; intros quad_pos leftchar pads bin_data Hq Hpad Hcount.
  - cbn [filter length] in Hcount. cbn [a2b_base64].
    rewrite Nat.add_0_r, Nat.mod_small in Hcount by lia.
    now destruct quad_pos.
  - cbn [existsb] in Hpad. apply orb_false_iff in Hpad as [Hc Hrest].
    unfold is_pad in Hc. cbn [filter] in Hcount. unfold is_data at 1 in Hcount.
    cbn [a2b_base64]. rewrite Hc.
    destruct (ReferenceCodec.char_sextet c) as [value|]; [|now apply IH].
    cbn [length] in Hcount.
    destruct quad_pos as [|[|[|[|quad_pos]]]]; try lia; apply IH; try lia; try assumption.
    intros H. apply Hcount.
    replace (3 + S (length (filter is_data rest)))%nat
      with (0 + length (filter is_data rest) + 1 * 4)%nat by lia.
    now rewrite Nat.Div0.mod_add.
Qed.

(** The characters that the decoder looks at are ASCII characters. *)
Lemma significant_is_ascii (c : Byte.byte) :
  is_pad c || is_data c = true -> ReferenceCodec.is_ascii c = true.
Proof. destruct c; vm_compute; intros H; try reflexivity; discriminate H. Qed.

Lemma without_noise_ascii (text : string) : ascii_text (without_noise text) = true.
Proof.
  unfold ascii_text, without_noise. rewrite list_byte_of_string_of_list_byte.
  apply forallb_forall. intros c Hc. apply filter_In in Hc as [_ Hc].
  now apply significant_is_ascii.
Qed.

End Base64Facts.

(** ** Serialization of stored templates *)

Module SerializationClaims.

Import Serialization Base64.
Local Open Scope string_scope.

Section Libraries.

(** NumPy and [json] enter as they come; of the UTF-8 codec only its
    behaviour on ASCII is used: the bytes of an ASCII text are its
    characters. *)
Variable ndarray : Type.
Variable py_value : Type.
Variable tolist : ndarray -> py_value.
Variable np_array : py_value -> option ndarray.
Variable json_dumps : py_value -> option string.
Variable json_loads : string -> option py_value.
Variable str_encode : string -> option bytes.
Variable bytes_decode : bytes -> option string.

Hypothesis decode_ascii :
  forall raw, forallb ReferenceCodec.is_ascii raw = true ->
              bytes_decode raw = Some (string_of_list_byte raw).
Hypothesis encode_ascii :
  forall text, ascii_text text = true -> str_encode text = Some (list_byte_of_string text).

Let encode := encode_face_data tolist json_dumps str_encode bytes_decode b64encode.
Let decode := decode_face_data np_array json_loads str_encode bytes_decode b64decode.

(** The decoder on an ASCII text that is not empty. *)
Lemma decode_ascii_text (text : string) :
  text <> "" ->
  ascii_text text = true ->
  decode (Some text)
  = (call decoded_bytes <- b64decode (list_byte_of_string text);
     call face_json <- bytes_decode decoded_bytes;
     call face_list <- json_loads face_json;
     np_array face_list).
Proof.
  intros Hnonempty Hascii. unfold decode, decode_face_data.
  destruct text as [|c rest]; [congruence|].
  now rewrite (encode_ascii _ Hascii).
Qed.

Lemma empty_bytes (text : string) : list_byte_of_string text = [] -> text = "".
Proof.
  intros H. rewrite <- (string_of_list_byte_of_string text), H. reflexivity.
Qed.


End Libraries.

Lemma reference_decode_ascii (raw : bytes) :
  forallb ReferenceCodec.is_ascii raw = true ->
  ReferenceCodec.bytes_decode raw = Some (string_of_list_byte raw).
Proof. intros H. unfold ReferenceCodec.bytes_decode. now rewrite H. Defined.

Lemma reference_encode_ascii (text : string) :
  ascii_text text = true ->
  ReferenceCodec.str_encode text = Some (list_byte_of_string text).
Proof.
  unfold ascii_text, ReferenceCodec.str_encode. intros H. now rewrite H.
Defined.



End SerializationClaims.

(** * Further properties of the matching core *)

(** ** Arithmetic of primitive floats *)

Module FloatArith.

Local Open Scope float_scope.

Lemma SFmul_comm (f g : spec_float) : SF64mul f g = SF64mul g f.
Proof.
  unfold SF64mul.
  destruct f as [sf|sf| |sf mf ef], g as [sg|sg| |sg mg eg]; simpl;
    try reflexivity; try (destruct sf, sg; reflexivity).
  rewrite (Pos.mul_comm mf mg), (Z.add_comm ef eg), (xorb_comm sf sg).
  reflexivity.
Qed.

(** Multiplication of floats is commutative. *)
Lemma mul_comm (x y : float) : x * y = y * x.
Proof. apply Prim2SF_inj. rewrite !mul_spec. apply SFmul_comm. Qed.

End FloatArith.

(** ** NumPy's summation *)

Module NumpyFacts.

Local Open Scope nat_scope.

(** The halving of [pairwise_sum] never runs out of fuel: any fuel that is
    at least the length of the array gives the same sum. *)
Lemma pairwise_sum_fuel (fuel1 : nat) :
  forall (fuel2 : nat) (a : list float),
    length a <= fuel1 -> length a <= fuel2 ->
    Py.pairwise_sum fuel1 a = Py.pairwise_sum fuel2 a.
Proof.
  induction fuel1 as [|fuel1 IH]; intros fuel2 a H1 H2.
  - destruct a; [|simpl in H1; lia]. now destruct fuel2.
  - destruct fuel2 as [|fuel2].
    + destruct a; [reflexivity|simpl in H2; lia].
    + cbn [Py.pairwise_sum].
      destruct (length a <? 8) eqn:Hsmall; [reflexivity|].
      destruct (length a <=? 128) eqn:Hblock; [reflexivity|].
      apply Nat.leb_gt in Hblock.
      pose proof (Nat.div_mod_eq (length a) 2).
      pose proof (Nat.mod_upper_bound (length a) 2 ltac:(discriminate)).
      pose proof (Nat.mod_upper_bound (length a / 2) 8 ltac:(discriminate)).
      rewrite (IH fuel2 (firstn _ a)), (IH fuel2 (skipn _ a));
        try reflexivity; rewrite ?length_firstn, ?length_skipn; lia.
Qed.

End NumpyFacts.

(** ** Facts about the decimal texts of f-strings and error messages *)

Module TextFacts.

Local Open Scope string_scope.

Lemma to_uint_nonnil (n : nat) : Nat.to_uint n <> Decimal.Nil.
Proof.
  rewrite <- (DecimalNat.Unsigned.of_to n), DecimalNat.Unsigned.to_of.
  apply DecimalFacts.unorm_nonnil.
Qed.

(** [str] of an integer determines the integer. *)
Lemma str_of_nat_inj (n m : nat) : Py.str_of_nat n = Py.str_of_nat m -> n = m.
Proof.
  unfold Py.str_of_nat. intros H.
  apply DecimalNat.Unsigned.to_uint_inj.
  apply (f_equal NilZero.uint_of_string) in H.
  rewrite !NilZero.usu in H by apply to_uint_nonnil. congruence.
Qed.

Lemma digits_without_comma (d : Decimal.uint) :
  ~ In ","%char (list_ascii_of_string (NilEmpty.string_of_uint d)).
Proof.
  induction d; cbn [NilEmpty.string_of_uint list_ascii_of_string In];
    intros H; try (destruct H as [H|H]; [discriminate H|now apply IHd]).
  exact H.
Qed.

Lemma str_of_nat_without_comma (n : nat) :
  ~ In ","%char (list_ascii_of_string (Py.str_of_nat n)).
Proof.
  unfold Py.str_of_nat, NilZero.string_of_uint.
  destruct (Nat.to_uint n) eqn:E; try (rewrite <- E; apply digits_without_comma).
  cbn. intros [H|H]; [discriminate H|exact H].
Qed.

(** Two texts that go on with a comma and have none before it are equal
    up to that comma. *)
Lemma same_text_before_comma (s1 : string) : forall (s2 r1 r2 : string),
  ~ In ","%char (list_ascii_of_string s1) ->
  ~ In ","%char (list_ascii_of_string s2) ->
  s1 ++ String "," r1 = s2 ++ String "," r2 -> s1 = s2.
Proof.
  induction s1 as [|c s1 IH]; intros [|c2 s2] r1 r2 H1 H2 Heq;
    cbn [append list_ascii_of_string In] in *.
  - reflexivity.
  - injection Heq as Hc _. exfalso. apply H2. now left.
  - injection Heq as Hc _. exfalso. apply H1. now left.
  - injection Heq as Hc Hrest. subst c2. f_equal.
    apply (IH s2 r1 r2); auto.
Qed.

(** The text of NumPy's shape error is symmetric only for equal shapes. *)
Lemma shapes_not_aligned_inj (n m : nat) :
  Face.shapes_not_aligned n m = Face.shapes_not_aligned m n -> n = m.
Proof.
  unfold Face.shapes_not_aligned. cbn [append]. intros H.
  repeat match type of H with
         | String _ _ = String _ _ => injection H as H
         end.
  apply str_of_nat_inj.
  exact (same_text_before_comma _ _ _ _ (str_of_nat_without_comma n)
                                (str_of_nat_without_comma m) H).
Qed.

End TextFacts.

(** ** Face comparison and extraction *)

Module FaceProperties.

Import Face FaceMesh.
Local Open Scope float_scope.

Lemma dot_sum_comm (a : list float) : forall (b : list float) (acc : float),
  fold_left (fun acc xy => acc + fst xy * snd xy) (combine a b) acc
  = fold_left (fun acc xy => acc + fst xy * snd xy) (combine b a) acc.
Proof.
  induction a as [|x a IH]; intros [|y b] acc; simpl; try reflexivity.
  rewrite (FloatArith.mul_comm x y). apply IH.
Qed.

Lemma dot_comm (a b : list float) : dot a b = dot b a.
Proof.
  unfold dot. rewrite (Nat.eqb_sym (length a) (length b)).
  destruct (length b =? length a)%nat; [|reflexivity].
  now rewrite dot_sum_comm.
Qed.

(** X1.  Exchanging the stored and the captured encoding changes neither
    the outcome nor the score: [success], [similarity], [match], [threshold]
    and [confidence] are the same, because every product of the dot product
    commutes.  The whole result is the same exactly when an encoding is
    empty or the two have the same length: for two non-empty encodings of
    different lengths the error text names the two shapes in the order of
    the arguments. *)
Theorem compare_face_encodings_symmetric (encoding1 encoding2 : list float) (thr : float) :
  let forth := compare_face_encodings encoding1 encoding2 thr in
  let back := compare_face_encodings encoding2 encoding1 thr in
  success forth = success back
  /\ similarity forth = similarity back
  /\ is_match forth = is_match back
  /\ threshold forth = threshold back
  /\ confidence forth = confidence back
  /\ (error forth = None <-> error back = None)
  /\ (forth = back
      <-> encoding1 = [] \/ encoding2 = [] \/ length encoding1 = length encoding2).
Proof.
  cbv zeta. unfold compare_face_encodings.
  destruct encoding1 as [|x1 rest1], encoding2 as [|x2 rest2];
    try (cbn; repeat split; auto; fail).
  rewrite (dot_comm (x2 :: rest2) (x1 :: rest1)).
  rewrite (orb_comm (norm (x2 :: rest2) =? 0) (norm (x1 :: rest1) =? 0)).
  rewrite (FloatArith.mul_comm (norm (x2 :: rest2)) (norm (x1 :: rest1))).
  unfold dot.
  destruct (length (x1 :: rest1) =? length (x2 :: rest2))%nat eqn:Hlen.
  - apply Nat.eqb_eq in Hlen. cbn [success similarity is_match threshold confidence error].
    repeat split; auto.
  - apply Nat.eqb_neq in Hlen.
    cbn [failed success similarity is_match threshold confidence error].
    repeat split; try discriminate.
    + intros Heq. right. right.
      apply TextFacts.shapes_not_aligned_inj. unfold failed in Heq. congruence.
    + intros [H|[H|H]]; [discriminate H|discriminate H|contradiction].
Qed.

Lemma coordinates_at_length landmarks indices :
  Forall (fun idx => nth_error landmarks idx <> None) indices ->
  length (coordinates_at landmarks indices) = (3 * length indices)%nat.
Proof.
  induction 1 as [|idx rest Hidx _ IH]; [reflexivity|].
  unfold coordinates_at in *. cbn [flat_map length]. rewrite length_app, IH.
  destruct (nth_error landmarks idx); [simpl; lia|congruence].
Qed.

Lemma coordinates_at_ext landmarks1 landmarks2 indices :
  Forall (fun idx => nth_error landmarks1 idx = nth_error landmarks2 idx) indices ->
  coordinates_at landmarks1 indices = coordinates_at landmarks2 indices.
Proof.
  induction 1 as [|idx rest Hidx _ IH]; [reflexivity|].
  unfold coordinates_at in *. cbn [flat_map]. now rewrite Hidx, IH.
Qed.

Lemma landmark_coordinates_split landmarks :
  landmark_coordinates landmarks
  = coordinates_at landmarks leading_landmarks
    ++ coordinates_at landmarks trailing_landmarks.
Proof.
  unfold landmark_coordinates, coordinates_at, leading_landmarks, trailing_landmarks.
  rewrite <- flat_map_app, firstn_skipn. reflexivity.
Qed.

(** With the first 43 key landmarks present the encoding is the first 128
    of their 129 coordinates. *)
Lemma encoding_of_leading_landmarks landmarks :
  Forall (fun idx => nth_error landmarks idx <> None) leading_landmarks ->
  fit_length (landmark_coordinates landmarks)
  = firstn 128 (coordinates_at landmarks leading_landmarks).
Proof.
  intros Hpresent.
  pose proof (coordinates_at_length landmarks leading_landmarks Hpresent) as Hlen.
  change (length leading_landmarks) with 43%nat in Hlen.
  rewrite FaceClaims.fit_length_padded_slice, landmark_coordinates_split.
  change target_length with 128%nat.
  rewrite <- app_assoc, firstn_app.
  replace (128 - length (coordinates_at landmarks leading_landmarks))%nat with 0%nat by lia.
  rewrite firstn_O. apply app_nil_r.
Qed.

(** X2.  With a complete face mesh the slice to 128 entries cuts the list of
    168 coordinates inside the 43rd key landmark: the encoding is made of
    the first 43 key landmarks only, and the 13 key landmarks after them
    (all of the mouth except its first three) never reach it.  Two meshes that
    agree on the first 43 key landmarks get the same encoding. *)
Theorem encoding_ignores_trailing_landmarks
        (landmarks1 landmarks2 : list landmark) (others1 others2 : list (list landmark)) :
  Forall (fun idx => nth_error landmarks1 idx <> None
                     /\ nth_error landmarks1 idx = nth_error landmarks2 idx)
         leading_landmarks ->
  extract_face_encoding (Some (landmarks1 :: others1))
  = extract_face_encoding (Some (landmarks2 :: others2))
  /\ extract_face_encoding (Some (landmarks1 :: others1))
     = Some (firstn 128 (coordinates_at landmarks1 leading_landmarks)).
Proof.
  intros H.
  assert (H1 : Forall (fun idx => nth_error landmarks1 idx <> None) leading_landmarks).
  { eapply Forall_impl; [|exact H]. now intros idx [Hp _]. }
  assert (Heq : Forall (fun idx => nth_error landmarks1 idx = nth_error landmarks2 idx)
                       leading_landmarks).
  { eapply Forall_impl; [|exact H]. now intros idx [_ He]. }
  assert (H2 : Forall (fun idx => nth_error landmarks2 idx <> None) leading_landmarks).
  { eapply Forall_impl; [|exact H]. intros idx [Hp He]. now rewrite <- He. }
  cbn [extract_face_encoding].
  rewrite (encoding_of_leading_landmarks landmarks1 H1),
                 (encoding_of_leading_landmarks landmarks2 H2),
                 (coordinates_at_ext landmarks1 landmarks2 leading_landmarks Heq).
  split; reflexivity.
Qed.

Lemma encoding_ignores_trailing_landmarks_witness :
  nth_error MoreSamples.full_mesh 272 <> nth_error MoreSamples.other_mouth 272
  /\ extract_face_encoding (Some [MoreSamples.full_mesh])
     = extract_face_encoding (Some [MoreSamples.other_mouth]).
Proof.
  split.
  { intros H.
    apply (f_equal (fun found => match found with
                                 | Some l => lm_x l =? 0.5
                                 | None => false
                                 end)) in H.
    vm_compute in H. discriminate. }
  apply (encoding_ignores_trailing_landmarks
           MoreSamples.full_mesh MoreSamples.other_mouth [] []).
  apply Forall_forall. intros idx Hin. vm_compute in Hin.
  repeat (destruct Hin as [<-|Hin];
          [split; [vm_compute; discriminate|vm_compute; reflexivity]|]).
  destruct Hin.
Defined.

End FaceProperties.

(** ** Fingerprint matching, deduplication and fusion *)

Module FingerprintProperties.

Import Fingerprint.
Local Open Scope float_scope.

Lemma scan_unique_some point unique_points updated :
  scan_unique point unique_points = Some updated ->
  length updated = length unique_points /\ incl updated (point :: unique_points).
Proof.
  revert updated. induction unique_points as [|u rest IH]; intros updated; simpl.
  - discriminate.
  - destruct (is_close point u).
    + intros [= <-]. destruct (m_quality u <? m_quality point).
      * split; [rewrite length_app; simpl; lia|].
        intros q Hq. apply in_app_or in Hq as [Hq|[<-|[]]]; simpl; auto.
      * split; [reflexivity|]. apply incl_tl, incl_refl.
    + destruct (scan_unique point rest) as [updated'|]; simpl; [|discriminate].
      intros [= <-]. destruct (IH updated' eq_refl) as [Hlen Hincl].
      split; [simpl; lia|].
      intros q [<-|Hq]; [simpl; auto|].
      destruct (Hincl q Hq) as [<-|Hin]; simpl; auto.
Qed.

Lemma dedup_step_length unique_points point :
  (length unique_points <= length (dedup_step unique_points point)
   <= S (length unique_points))%nat
  /\ (1 <= length (dedup_step unique_points point))%nat.
Proof.
  unfold dedup_step.
  destruct (scan_unique point unique_points) as [updated|] eqn:E.
  - destruct (scan_unique_some _ _ _ E) as [Hlen _]. rewrite Hlen.
    destruct unique_points; [discriminate|simpl; lia].
  - rewrite length_app. simpl. lia.
Qed.

Lemma dedup_step_incl unique_points point :
  incl (dedup_step unique_points point) (unique_points ++ [point]).
Proof.
  unfold dedup_step.
  destruct (scan_unique point unique_points) as [updated|] eqn:E; [|apply incl_refl].
  destruct (scan_unique_some _ _ _ E) as [_ Hincl].
  intros q Hq. apply in_or_app. destruct (Hincl q Hq) as [<-|Hin]; simpl; auto.
Qed.

Lemma dedup_loop_bounds points : forall unique_points,
  let result := fold_left dedup_step points unique_points in
  incl result (unique_points ++ points)
  /\ (length unique_points <= length result <= length unique_points + length points)%nat
  /\ (1 <= length points -> 1 <= length result)%nat.
Proof.
  induction points as [|point rest IH]; intros unique_points; cbv zeta; simpl.
  - rewrite app_nil_r. split; [apply incl_refl|lia].
  - destruct (IH (dedup_step unique_points point)) as (Hincl & Hlen & _).
    destruct (dedup_step_length unique_points point) as [Hstep Hone].
    split; [|lia].
    intros q Hq. apply Hincl in Hq. apply in_app_or in Hq as [Hq|Hq].
    + apply dedup_step_incl in Hq. apply in_app_or in Hq as [Hq|[<-|[]]].
      * apply in_or_app. auto.
      * apply in_or_app. simpl. auto.
    + apply in_or_app. simpl. auto.
Qed.

Lemma dedup_output_bounds (points : list minutia) :
  incl (_remove_duplicate_minutiae points) points
  /\ (length (_remove_duplicate_minutiae points) <= length points)%nat
  /\ (_remove_duplicate_minutiae points = [] <-> points = []).
Proof.
  unfold _remove_duplicate_minutiae.
  destruct (dedup_loop_bounds points []) as (Hincl & Hlen & Hone).
  simpl in *. split; [exact Hincl|]. split; [lia|]. split.
  - intros Hempty. rewrite Hempty in Hone. simpl in Hone.
    destruct points; [reflexivity|simpl in Hone; lia].
  - intros ->. reflexivity.
Qed.

(** X3.  Deduplication only selects: every point it returns is one of the
    given points, it never returns more points than it was given, and it
    returns no point at all only when it was given none. *)
Theorem dedup_selects_from_input (points : list minutia) :
  incl (_remove_duplicate_minutiae points) points
  /\ (length (_remove_duplicate_minutiae points) <= length points)%nat
  /\ (_remove_duplicate_minutiae points = [] <-> points = []).
Proof. exact (dedup_output_bounds points). Qed.

(** The points of all the templates, in order. *)
Lemma all_points_in templates p :
  In p (flat_map (fun t => Py.get (minutiae_points t) []) templates) ->
  exists t, In t templates /\ In p (Py.get (minutiae_points t) []).
Proof.
  intros H. apply in_flat_map in H as (t & Ht & Hp). eauto.
Qed.

Lemma flat_map_nil {A B} (f : A -> list B) (l : list A) :
  flat_map f l = [] <-> forall x, In x l -> f x = [].
Proof.
  induction l as [|a l IH]; cbn [flat_map In].
  - split; [intros _ x []|reflexivity].
  - split.
    + intros H. apply app_eq_nil in H as [Ha Hl].
      intros x [<-|Hx]; [exact Ha|]. now apply IH.
    + intros H. rewrite (H a (or_introl eq_refl)).
      apply IH. intros x Hx. apply H. now right.
Qed.

(** X4.  The fusion of two or more templates always has all five keys: it
    records the number of templates in [combined_from], carries the version
    "1.0" and the given clock reading, and its quality is NumPy's mean of
    the qualities, a missing one counting as 0.0.  Its points are taken
    from the points of the given templates, at most as many as they have
    together, and it has no point at all exactly when no given template has
    one. *)
Theorem combine_many_templates (now : string) (t1 t2 : template) (rest : list template) :
  let templates := t1 :: t2 :: rest in
  let fused := _combine_templates now templates in
  combined_from fused = Some (length templates)
  /\ template_version fused = Some "1.0"%string
  /\ extraction_timestamp fused = Some now
  /\ quality_score fused
     = Some (Py.mean (map (fun t => Py.get (quality_score t) 0) templates))
  /\ exists points,
      minutiae_points fused = Some points
      /\ (forall p, In p points ->
                    exists t, In t templates /\ In p (Py.get (minutiae_points t) []))
      /\ (length points
          <= length (flat_map (fun t => Py.get (minutiae_points t) []) templates))%nat
      /\ (points = []
          <-> forall t, In t templates -> Py.get (minutiae_points t) [] = []).
Proof.
  cbv zeta. unfold _combine_templates.
  repeat (split; [reflexivity|]).
  eexists. split; [reflexivity|].
  destruct (dedup_output_bounds
              (flat_map (fun t => Py.get (minutiae_points t) []) (t1 :: t2 :: rest)))
    as (Hincl & Hlen & Hempty).
  split; [|split; [exact Hlen|]].
  - intros p Hp. apply all_points_in. apply Hincl. exact Hp.
  - rewrite Hempty. apply flat_map_nil.
Qed.

End FingerprintProperties.

(** ** The match counter and the results of the two scorers *)

Module ScorerProperties.

Local Open Scope float_scope.

Lemma filter_length_mono {A} (f g : A -> bool) (l : list A) :
  (forall x, In x l -> f x = true -> g x = true) ->
  (length (filter f l) <= length (filter g l))%nat.
Proof.
  induction l as [|x rest IH]; intros H; simpl; [lia|].
  assert (Hrest : (length (filter f rest) <= length (filter g rest))%nat).
  { apply IH. intros y Hy. apply H. now right. }
  destruct (f x) eqn:Hf.
  - rewrite (H x (or_introl eq_refl) Hf). simpl. lia.
  - destruct (g x); simpl; lia.
Qed.

Lemma filter_length_zero {A} (f : A -> bool) (l : list A) :
  length (filter f l) = 0%nat <-> forall x, In x l -> f x = false.
Proof.
  induction l as [|x rest IH]; simpl.
  - split; [intros _ y []|reflexivity].
  - destruct (f x) eqn:Hf; simpl.
    + split; [discriminate|]. intros H. rewrite (H x (or_introl eq_refl)) in Hf.
      discriminate.
    + rewrite IH. split.
      * intros H y [<-|Hy]; auto.
      * intros H y Hy. apply H. now right.
Qed.

(** X5.  The match counter counts points of the first list: it never
    exceeds the length of that list, it is zero exactly when no point of the
    first list matches any point of the second, and giving the second list
    more points never lowers it. *)
Theorem match_counter_bounds :
  (forall points1 points2,
      (Fingerprint.count_matches points1 points2 <= length points1)%nat)
  /\ (forall points1 points2,
        Fingerprint.count_matches points1 points2 = 0%nat
        <-> forall p1 p2, In p1 points1 -> In p2 points2 ->
                          Fingerprint.points_match p1 p2 = false)
  /\ (forall points1 points2 points2',
        incl points2 points2' ->
        (Fingerprint.count_matches points1 points2
         <= Fingerprint.count_matches points1 points2')%nat).
Proof.
  split; [|split].
  - intros points1 points2. rewrite FingerprintFacts.count_matches_filter.
    apply filter_length_le.
  - intros points1 points2. rewrite FingerprintFacts.count_matches_filter.
    rewrite filter_length_zero. split.
    + intros H p1 p2 H1 H2. specialize (H p1 H1).
      destruct (Fingerprint.points_match p1 p2) eqn:Hm; [|reflexivity].
      assert (Hex : existsb (Fingerprint.points_match p1) points2 = true)
        by (apply existsb_exists; eauto).
      congruence.
    + intros H p1 H1.
      destruct (existsb (Fingerprint.points_match p1) points2) eqn:Hex; [|reflexivity].
      apply existsb_exists in Hex as (p2 & H2 & Hm). rewrite (H p1 p2 H1 H2) in Hm.
      discriminate.
  - intros points1 points2 points2' Hincl.
    rewrite !FingerprintFacts.count_matches_filter. apply filter_length_mono.
    intros p1 _ Hex. apply existsb_exists in Hex as (p2 & H2 & Hm).
    apply existsb_exists. eauto.
Qed.

Lemma match_counter_bounds_witness :
  (Fingerprint.count_matches Samples.enrolled_points Samples.captured_points
   <= Fingerprint.count_matches Samples.enrolled_points
                                (Samples.a :: Samples.captured_points))%nat.
Proof.
  apply (proj2 (proj2 match_counter_bounds)).
  intros p Hp. right. exact Hp.
Defined.

(** X6.  What the fingerprint comparison returns is of one of two shapes.  A
    failure has an error text, similarity 0.0, no match, and neither
    threshold nor confidence.  A success has no error, echoes the threshold,
    repeats the similarity as confidence, and is only returned for two
    templates that both hold points. *)
Theorem fingerprint_comparison_shapes
        (template1 template2 : option Fingerprint.template) (thr : float) :
  let r := Fingerprint.compare_fingerprint_templates template1 template2 thr in
  if Fingerprint.success r
  then Fingerprint.error r = None
       /\ Fingerprint.threshold r = Some thr
       /\ Fingerprint.confidence r = Some (Fingerprint.similarity r)
       /\ Fingerprint.matched_points r <> None
       /\ (exists t1 p1 rest1, template1 = Some t1
                               /\ Fingerprint.minutiae_points t1 = Some (p1 :: rest1))
       /\ (exists t2 p2 rest2, template2 = Some t2
                               /\ Fingerprint.minutiae_points t2 = Some (p2 :: rest2))
  else Fingerprint.error r <> None
       /\ Fingerprint.similarity r = 0
       /\ Fingerprint.is_match r = false
       /\ Fingerprint.threshold r = None
       /\ Fingerprint.confidence r = None
       /\ Fingerprint.matched_points r = None.
Proof.
  cbv zeta. unfold Fingerprint.compare_fingerprint_templates.
  assert (Hfailed : forall msg,
             Fingerprint.error (Fingerprint.failed msg) <> None
             /\ Fingerprint.similarity (Fingerprint.failed msg) = 0
             /\ Fingerprint.is_match (Fingerprint.failed msg) = false
             /\ Fingerprint.threshold (Fingerprint.failed msg) = None
             /\ Fingerprint.confidence (Fingerprint.failed msg) = None
             /\ Fingerprint.matched_points (Fingerprint.failed msg) = None).
  { intros msg. repeat split. discriminate. }
  destruct template1 as [t1|], template2 as [t2|]; try apply Hfailed.
  destruct (Fingerprint.falsy (Some t1) || Fingerprint.falsy (Some t2));
    [apply Hfailed|].
  destruct (Fingerprint.minutiae_points t1) as [[|p1 rest1]|] eqn:H1;
    try apply Hfailed;
    destruct (Fingerprint.minutiae_points t2) as [[|p2 rest2]|] eqn:H2;
    try apply Hfailed.
  cbn [Py.get].
  destruct (Py.int_of_float _); [apply Hfailed|].
  cbn. repeat split; try discriminate; eauto.
Qed.

(** X7.  The face comparison has the same two shapes, and succeeds exactly
    when both encodings are non-empty and of the same length. *)
Theorem face_comparison_shapes (encoding1 encoding2 : list float) (thr : float) :
  let r := Face.compare_face_encodings encoding1 encoding2 thr in
  Face.success r
  = negb (length encoding1 =? 0)%nat && negb (length encoding2 =? 0)%nat
    && (length encoding1 =? length encoding2)%nat
  /\ if Face.success r
     then Face.error r = None
          /\ Face.threshold r = Some thr
          /\ Face.confidence r = Some (Face.similarity r)
     else Face.error r <> None
          /\ Face.similarity r = 0
          /\ Face.is_match r = false
          /\ Face.threshold r = None
          /\ Face.confidence r = None.
Proof.
  cbv zeta. unfold Face.compare_face_encodings, Face.dot.
  destruct encoding1 as [|x1 rest1], encoding2 as [|x2 rest2];
    try (cbn; repeat split; discriminate).
  change (negb (length (x1 :: rest1) =? 0)%nat) with true.
  change (negb (length (x2 :: rest2) =? 0)%nat) with true.
  cbn [andb].
  destruct (length (x1 :: rest1) =? length (x2 :: rest2))%nat;
    cbn; repeat split; discriminate.
Qed.

End ScorerProperties.

(** ** Outcomes of the enrollment loops *)

Module EnrollmentProperties.

Import Enrollment.

Lemma forallb_false {A} (f : A -> bool) (l : list A) :
  forallb f l = false -> exists x, In x l /\ f x = false.
Proof.
  induction l as [|x rest IH]; simpl; [discriminate|].
  destruct (f x) eqn:Hf.
  - intros H. destruct (IH H) as (y & Hy & Hfy). exists y. auto.
  - intros _. exists x. auto.
Qed.

(** Either some iteration below [n] fails, or none does. *)
Lemma failing_iteration (fails : nat -> bool) (n : nat) :
  (exists i, (i < n)%nat /\ fails i = true)
  \/ (forall i, (i < n)%nat -> fails i = false).
Proof.
  destruct (forallb (fun i => negb (fails i)) (seq 0 n)) eqn:E.
  - right. intros i Hi. rewrite forallb_forall in E.
    apply negb_true_iff, E, in_seq. lia.
  - left. apply forallb_false in E as (i & Hi & Hf).
    exists i. apply in_seq in Hi. apply negb_false_iff in Hf. split; [lia|exact Hf].
Qed.

(** What the loop hands over when it runs to its end: the templates it
    started with, followed by the template extracted in each iteration, in
    the order of the iterations. *)
Lemma fingerprint_samples_collects
      (capture : nat -> capture_result)
      (extract : nat -> string -> option Fingerprint.template)
      (student_id : string) (indices : list nat) :
  forall templates result,
    fingerprint_samples capture extract student_id indices templates = inr result ->
    exists collected,
      result = templates ++ collected
      /\ Forall2 (fun i template =>
                    exists image_data,
                      capture i = Captured image_data
                      /\ extract i image_data = Some template)
                 indices collected.
Proof.
  induction indices as [|i rest IH]; intros templates result; cbn [fingerprint_samples].
  - intros H. injection H as <-. exists []. split; [now rewrite app_nil_r|constructor].
  - destruct (capture i) as [image_data|error] eqn:Hcapture; [|discriminate].
    destruct (extract i image_data) as [template|] eqn:Hextract; [|discriminate].
    intros H. destruct (IH _ _ H) as (collected & -> & Hall).
    exists (template :: collected). split; [now rewrite <- app_assoc|].
    constructor; [|exact Hall]. exists image_data. auto.
Qed.

Lemma Forall2_seq_nth_error {A} (R : nat -> A -> Prop) (n : nat) :
  forall (start : nat) (l : list A),
    Forall2 R (seq start n) l ->
    length l = n
    /\ forall k, (k < n)%nat -> exists x, nth_error l k = Some x /\ R (start + k)%nat x.
Proof.
  induction n as [|n IH]; intros start l H; cbn [seq] in H.
  - inversion H. split; [reflexivity|]. intros k Hk. lia.
  - inversion H as [|i x rest l' Hx Hrest]; subst.
    destruct (IH _ _ Hrest) as [Hlen Hnth]. split; [simpl; lia|].
    intros [|k] Hk.
    + exists x. rewrite Nat.add_0_r. auto.
    + destruct (Hnth k) as (y & Hy & HR); [lia|].
      exists y. split; [exact Hy|]. now replace (start + S k)%nat with (S start + k)%nat by lia.
Qed.

(** X8.  The fingerprint enrollment succeeds exactly when no iteration below
    [num_samples] fails.  The template of a successful enrollment is the
    fusion of the templates that the iterations extracted from their own
    captures, one for each iteration and in the order of the iterations;
    the result carries no error and echoes [num_samples]. *)
Theorem enroll_fingerprint_success
        (capture : nat -> capture_result)
        (extract : nat -> string -> option Fingerprint.template)
        (now_combine now student_id : string) (num_samples : Z) :
  let r := enroll_fingerprint capture extract now_combine now student_id num_samples in
  (fp_success r = true
   <-> forall i, (i < Z.to_nat num_samples)%nat ->
                 fingerprint_sample_fails capture extract i = false)
  /\ (fp_success r = true ->
      exists templates,
        length templates = Z.to_nat num_samples
        /\ (forall i, (i < Z.to_nat num_samples)%nat ->
                      exists image_data template,
                        capture i = Captured image_data
                        /\ extract i image_data = Some template
                        /\ nth_error templates i = Some template)
        /\ r = FingerprintEnrollment
                 true None student_id
                 (Some (Fingerprint._combine_templates now_combine templates))
                 (Some num_samples) (Some now)).
Proof.
  cbv zeta.
  destruct (failing_iteration (fingerprint_sample_fails capture extract)
                              (Z.to_nat num_samples)) as [(i & Hi & Hfail)|Hok].
  - assert (Hfalse : fp_success (enroll_fingerprint capture extract now_combine now
                                                    student_id num_samples) = false).
    { unfold enroll_fingerprint.
      assert (Hin : In i (seq 0 (Z.to_nat num_samples))) by (apply in_seq; lia).
      destruct (EnrollmentClaims.fingerprint_loop_stops
                  capture extract student_id _ i Hin Hfail []) as [early Hearly].
      rewrite Hearly.
      exact (proj1 (EnrollmentClaims.fingerprint_early_return _ _ _ _ _ _ Hearly)). }
    rewrite Hfalse. split; [|discriminate].
    split; [discriminate|]. intros H. rewrite (H i Hi) in Hfail. discriminate.
  - split; [split; [intros _; exact Hok|]|].
    + intros _.
      destruct (EnrollmentClaims.enroll_fingerprint_succeeds
                  capture extract now_combine now student_id num_samples Hok)
        as (templates & _ & Hr).
      now rewrite Hr.
    + unfold enroll_fingerprint.
      destruct (fingerprint_samples capture extract student_id
                                    (seq 0 (Z.to_nat num_samples)) [])
        as [early|templates] eqn:Hloop.
      * intros Hsuccess. exfalso.
        pose proof (EnrollmentClaims.fingerprint_early_return _ _ _ _ _ _ Hloop) as [Hf _].
        congruence.
      * intros _.
        destruct (fingerprint_samples_collects _ _ _ _ _ _ Hloop)
          as (collected & -> & Hall).
        destruct (Forall2_seq_nth_error _ _ _ _ Hall) as [Hlen Hnth].
        exists collected. cbn [app]. split; [exact Hlen|]. split; [|reflexivity].
        intros i Hi. destruct (Hnth i Hi) as (template & Ht & image_data & Hc & He).
        exists image_data, template. auto.
Qed.

Lemma enroll_fingerprint_success_witness :
  exists templates,
    length templates = 3%nat
    /\ (forall i, (i < 3)%nat ->
                  exists image_data template,
                    MoreSamples.steady_scanner i = Captured image_data
                    /\ Samples.steady_extractor i image_data = Some template
                    /\ nth_error templates i = Some template)
    /\ enroll_fingerprint MoreSamples.steady_scanner Samples.steady_extractor
                          "2024-01-01T09:00:05" "2024-01-01T09:00:06" "S001" 3
       = FingerprintEnrollment
           true None "S001"
           (Some (Fingerprint._combine_templates "2024-01-01T09:00:05" templates))
           (Some 3%Z) (Some "2024-01-01T09:00:06"%string).
Proof.
  apply (proj2 (enroll_fingerprint_success
                  MoreSamples.steady_scanner Samples.steady_extractor
                  "2024-01-01T09:00:05" "2024-01-01T09:00:06" "S001" 3)).
  reflexivity.
Defined.

(** X9.  Asking for no sample at all is not refused: both enrollments then
    report success.  The fingerprint template is the empty dictionary, which
    every later comparison rejects as invalid, and the face "encoding" is
    the NaN that the mean of nothing gives. *)
Theorem enrollment_without_samples
        (capture : nat -> capture_result)
        (extract_template : nat -> string -> option Fingerprint.template)
        (extract_encoding : nat -> string -> option (list float))
        (now_combine now student_id : string) (num_samples : Z) :
  (num_samples <= 0)%Z ->
  enroll_fingerprint capture extract_template now_combine now student_id num_samples
  = FingerprintEnrollment true None student_id (Some Fingerprint.empty_dict)
                          (Some num_samples) (Some now)
  /\ enroll_face capture extract_encoding now student_id num_samples
     = FaceEnrollment true None student_id (Some (Scalar nan))
                      (Some num_samples) (Some now)
  /\ (forall other thr,
         Fingerprint.compare_fingerprint_templates (Some Fingerprint.empty_dict) other thr
         = Fingerprint.failed "Invalid templates provided"
         /\ Fingerprint.compare_fingerprint_templates other (Some Fingerprint.empty_dict) thr
            = Fingerprint.failed "Invalid templates provided").
Proof.
  intros Hn.
  assert (Hzero : Z.to_nat num_samples = 0%nat) by lia.
  unfold enroll_fingerprint, enroll_face. rewrite Hzero. simpl.
  repeat split.
  - now destruct other.
  - destruct other as [t|]; [|reflexivity].
    unfold Fingerprint.compare_fingerprint_templates.
    now rewrite orb_true_r.
Qed.

Lemma enrollment_without_samples_witness :
  fp_success (enroll_fingerprint Samples.flaky_scanner Samples.steady_extractor
                                 "2024-01-01T09:00:05" "2024-01-01T09:00:05" "S001" 0)
  = true.
Proof.
  rewrite (proj1 (enrollment_without_samples
                    Samples.flaky_scanner Samples.steady_extractor
                    Samples.flaky_face_extractor
                    "2024-01-01T09:00:05" "2024-01-01T09:00:05" "S001" 0
                    (Z.le_refl 0))).
  reflexivity.
Defined.

Lemma add_rows_length (a b : list float) :
  length a = length b -> length (add_rows a b) = length a.
Proof.
  revert b. induction a as [|x a IH]; intros [|y b]; simpl; try congruence.
  intros H. f_equal. apply IH. congruence.
Qed.

Lemma sum_rows_length (size : nat) (rows : list (list float)) : forall first,
  length first = size ->
  Forall (fun e => length e = size) rows ->
  length (fold_left add_rows rows first) = size.
Proof.
  induction rows as [|row rest IH]; intros first Hfirst Hrows; simpl; [exact Hfirst|].
  apply Forall_cons_iff in Hrows as [Hrow Hrest].
  apply IH; [|exact Hrest]. rewrite add_rows_length; congruence.
Qed.

(** The mean of one or more encodings of the same size is a vector of that
    size. *)
Lemma mean_of_sized_encodings (size : nat) first others :
  Forall (fun e => length e = size) (first :: others) ->
  exists average,
    mean_axis0 (first :: others) = inr (Vector average) /\ length average = size.
Proof.
  intros H. apply Forall_cons_iff in H as [Hfirst Hothers].
  unfold mean_axis0.
  assert (Hall : forallb (fun e => (length e =? length first)%nat) others = true).
  { apply forallb_forall. intros e He. rewrite Forall_forall in Hothers.
    rewrite (Hothers e He), Hfirst. apply Nat.eqb_refl. }
  rewrite Hall. eexists. split; [reflexivity|].
  rewrite length_map. now apply (sum_rows_length size).
Qed.

Section Camera.

Variable capture : nat -> capture_result.
Variable extract : nat -> string -> option (list float).

(** Every encoding that the extractor returns has [size] entries. *)
Variable size : nat.
Hypothesis extract_size :
  forall i image_data encoding,
    extract i image_data = Some encoding -> length encoding = size.

Lemma face_loop_completes student_id indices :
  (forall i, In i indices -> face_sample_fails capture extract i = false) ->
  forall encodings,
    exists collected,
      face_samples capture extract student_id indices encodings
      = inr (encodings ++ collected)
      /\ length collected = length indices
      /\ Forall (fun e => length e = size) collected.
Proof.
  unfold face_sample_fails.
  induction indices as [|j rest IH]; intros Hok encodings; simpl.
  - exists []. now rewrite app_nil_r.
  - pose proof (Hok j (or_introl eq_refl)) as Hj.
    destruct (capture j) as [image_data|error]; [|discriminate].
    destruct (extract j image_data) as [encoding|] eqn:Hextract; [|discriminate].
    destruct (IH (fun i Hi => Hok i (or_intror Hi)) (encodings ++ [encoding]))
      as (collected & -> & Hlen & Hsizes).
    exists (encoding :: collected). rewrite <- app_assoc. simpl.
    repeat split; auto. constructor; [exact (extract_size _ _ _ Hextract)|exact Hsizes].
Qed.

End Camera.



End EnrollmentProperties.

(** ** Capture devices and single verifications *)

Module DeviceProperties.

Import Devices.
Local Open Scope string_scope.
Local Open Scope float_scope.

(** Closes the cases of an early return. *)
Ltac early_return :=
  cbn; repeat split; intros;
  repeat match goal with
         | H : exists _, _ |- _ => destruct H
         | H : _ /\ _ |- _ => destruct H
         end;
  congruence.

(** X11.  A capture always leaves the scanner initialised: on the device it
    had when it was initialised, on the default device otherwise, so a
    device path chosen at initialisation is forgotten once the scanner has
    been released.  The capture is accepted unless the quality is below 0.6
    (0.6 itself is accepted); an accepted capture carries the image and the
    device, a rejected one the score and the four recommendations. *)
Theorem scanner_capture_cycle (s : scanner) (image : string) (quality : float) :
  let after := fst (capture_fingerprint_image s image quality) in
  let capture := snd (capture_fingerprint_image s image quality) in
  scanner_initialized after = true
  /\ scanner_device after
     = (if scanner_initialized s then scanner_device s else Some default_device_path)
  /\ cap_success capture = negb (quality <? 0.6)
  /\ cap_quality_score capture = Some quality
  /\ (if cap_success capture
      then read_capture capture = Enrollment.Captured image
           /\ cap_device capture = Some (scanner_device after)
           /\ cap_recommendations capture = None
      else read_capture capture = Enrollment.CaptureFailed (Some "Poor fingerprint quality")
           /\ cap_recommendations capture = Some quality_recommendations
           /\ cap_image_data capture = None)
  /\ (forall device_path,
         scanner_device
           (fst (capture_fingerprint_image
                   (release_scanner (fst (initialize_scanner s device_path)))
                   image quality))
         = Some default_device_path)
  /\ release_scanner (release_scanner s) = release_scanner s
  /\ scanner_initialized (release_scanner after) = false.
Proof.
  cbv zeta. unfold capture_fingerprint_image, release_scanner, initialize_scanner.
  destruct s as [[|] device]; cbn; destruct (quality <? 0.6); cbn; repeat split.
Qed.

(** X12.  A camera that could not be opened is not opened again: the handle
    stays in place, so the captures that follow do not initialise anything
    and fail for want of a frame, whatever the device would do by then;
    after [release_camera] the next capture starts afresh. *)
Theorem failed_camera_is_not_reopened (first later : world) :
  creation_raises first = false ->
  device_opens first = false ->
  let after_first := fst (capture_face_from_camera None first) in
  let after_later := fst (capture_face_from_camera after_first later) in
  fcap_error (snd (capture_face_from_camera None first)) = Some "Camera not available"
  /\ after_first = Some (CameraHandle false)
  /\ snd (capture_face_from_camera after_first later)
     = FaceCapture false (Some "Failed to capture frame from camera") None None
  /\ after_later = after_first
  /\ capture_face_from_camera (release_camera after_first) later
     = capture_face_from_camera None later.
Proof.
  intros Hcreate Hopen. cbv zeta.
  unfold capture_face_from_camera, initialize_camera, release_camera.
  rewrite Hcreate, Hopen. cbn. repeat split.
Qed.

Lemma failed_camera_is_not_reopened_witness :
  let unplugged := World false false false NoFrame false in
  let plugged := World false true false (Frame "/9j/4AAQ") true in
  let after_first := fst (capture_face_from_camera None unplugged) in
  snd (capture_face_from_camera after_first plugged)
  = FaceCapture false (Some "Failed to capture frame from camera") None None
  /\ snd (capture_face_from_camera (release_camera after_first) plugged)
     = FaceCapture true None (Some "/9j/4AAQ") None.
Proof.
  cbv zeta. split.
  - apply (failed_camera_is_not_reopened
             (World false false false NoFrame false)
             (World false true false (Frame "/9j/4AAQ") true)); reflexivity.
  - reflexivity.
Defined.

(** X13.  A face capture succeeds only on an open handle, with a frame in
    which a face was detected, and then hands out that frame; every failure
    carries an error text and no image. *)
Theorem face_capture_outcomes (c : camera) (w : world) :
  let after := fst (capture_face_from_camera c w) in
  let capture := snd (capture_face_from_camera c w) in
  if fcap_success capture
  then fcap_error capture = None
       /\ face_detected w = true
       /\ after = Some (CameraHandle true)
       /\ fcap_image_data capture
          = match read_result w with Frame image => Some image | _ => None end
       /\ fcap_image_data capture <> None
  else fcap_error capture <> None /\ fcap_image_data capture = None.
Proof.
  cbv zeta. unfold capture_face_from_camera, initialize_camera.
  destruct c as [[[|]]|]; destruct w as [[|] [|] [|] [image| |message] [|]];
    cbn; repeat split; discriminate.
Qed.

Lemma fingerprint_match_needs_success template1 template2 thr :
  let r := Fingerprint.compare_fingerprint_templates template1 template2 thr in
  Fingerprint.is_match r = true -> Fingerprint.success r = true.
Proof.
  cbv zeta. unfold Fingerprint.compare_fingerprint_templates.
  destruct template1 as [t1|], template2 as [t2|]; try discriminate.
  destruct (Fingerprint.falsy (Some t1) || Fingerprint.falsy (Some t2));
    try discriminate.
  destruct (Py.get (Fingerprint.minutiae_points t1) []),
           (Py.get (Fingerprint.minutiae_points t2) []); try discriminate.
  destruct (Py.int_of_float _); [discriminate|reflexivity].
Qed.

Lemma face_match_needs_success encoding1 encoding2 thr :
  let r := Face.compare_face_encodings encoding1 encoding2 thr in
  Face.is_match r = true -> Face.success r = true.
Proof.
  cbv zeta. unfold Face.compare_face_encodings.
  destruct encoding1, encoding2; try discriminate.
  destruct (Face.dot _ _); [reflexivity|discriminate].
Qed.

(** X14.  A fingerprint verification reports a match only when the capture,
    the extraction and the decoding of the stored template all went through
    and the similarity is strictly above the threshold.  Its own [success]
    says less: it is true as soon as those three steps went through, also
    when the comparison inside failed, as it does for a stored template
    without points. *)
Theorem verify_fingerprint_outcomes
        (decode : string -> option Fingerprint.template)
        (capture : Enrollment.capture_result)
        (extract : string -> option Fingerprint.template)
        (now stored : string) (thr : float) :
  let v := verify_fingerprint decode capture extract now stored thr in
  (ver_success v = true
   <-> exists image current stored_data,
        capture = Enrollment.Captured image
        /\ extract image = Some current
        /\ decode stored = Some stored_data)
  /\ (if ver_success v
      then ver_error v = None /\ capture_info v = Some capture
      else ver_error v <> None /\ verification_result v = NotCompared)
  /\ (fingerprint_matched v = true ->
      ver_success v = true /\ fingerprint_compared v = true
      /\ exists r, verification_result v = Compared r
                   /\ (thr <? Fingerprint.similarity r) = true)
  /\ (forall image current stored_data,
         capture = Enrollment.Captured image ->
         extract image = Some current ->
         decode stored = Some stored_data ->
         Py.get (Fingerprint.minutiae_points stored_data) [] = [] ->
         ver_success v = true /\ fingerprint_compared v = false).
Proof.
  cbv zeta. unfold verify_fingerprint, fingerprint_matched, fingerprint_compared.
  destruct capture as [image|error].
  2:{ early_return. }
  destruct (extract image) as [current|] eqn:Hextract.
  2:{ early_return. }
  destruct (decode stored) as [stored_data|] eqn:Hdecode.
  2:{ early_return. }
  cbn [ver_success ver_error verification_result capture_info]. split.
  { split; [intros _|reflexivity].
    exists image, current, stored_data. repeat split; assumption. }
  split; [split; reflexivity|]. split.
  - intros Hmatch.
    pose proof (fingerprint_match_needs_success _ _ _ Hmatch) as Hsuccess.
    repeat split; [exact Hsuccess|]. eexists. split; [reflexivity|].
    rewrite <- (ThresholdClaims.fingerprint_match_flag _ _ _ Hsuccess). exact Hmatch.
  - intros i c d Hi Hc Hd Hpoints. injection Hi as <-.
    assert (Hcurrent : c = current) by congruence.
    assert (Hstored : d = stored_data) by congruence.
    subst c d. split; [reflexivity|].
    unfold Fingerprint.compare_fingerprint_templates.
    destruct (Fingerprint.falsy (Some stored_data) || Fingerprint.falsy (Some current));
      [reflexivity|].
    rewrite Hpoints. reflexivity.
Qed.

Lemma verify_fingerprint_outcomes_witness :
  let v := verify_fingerprint (fun stored => Some Fingerprint.empty_dict)
                              (Enrollment.Captured "aW1hZ2U=")
                              (fun image => Some Samples.captured_template)
                              "2024-01-01T09:00:05" "e30=" Fingerprint.default_threshold in
  ver_success v = true /\ fingerprint_compared v = false.
Proof.
  apply (proj2 (proj2 (proj2 (verify_fingerprint_outcomes
                                (fun stored => Some Fingerprint.empty_dict)
                                (Enrollment.Captured "aW1hZ2U=")
                                (fun image => Some Samples.captured_template)
                                "2024-01-01T09:00:05" "e30="
                                Fingerprint.default_threshold)))
               "aW1hZ2U=" Samples.captured_template Fingerprint.empty_dict);
    reflexivity.
Defined.

(** X15.  A face verification reports a match only when the capture, the
    extraction and the decoding of the stored encoding all went through, the
    two encodings are non-empty and of the same length, and the similarity is
    strictly above the threshold. *)
Theorem verify_face_outcomes
        (decode : string -> option (list float))
        (capture : Enrollment.capture_result)
        (extract : string -> option (list float))
        (now stored : string) (thr : float) :
  let v := verify_face decode capture extract now stored thr in
  (ver_success v = true
   <-> exists image current stored_data,
        capture = Enrollment.Captured image
        /\ extract image = Some current
        /\ decode stored = Some stored_data)
  /\ (if ver_success v
      then ver_error v = None /\ capture_info v = Some capture
      else ver_error v <> None /\ verification_result v = NotCompared)
  /\ (face_matched v = true ->
      ver_success v = true /\ face_compared v = true
      /\ exists r, verification_result v = Compared r
                   /\ (thr <? Face.similarity r) = true)
  /\ (forall image current,
         capture = Enrollment.Captured image ->
         extract image = Some current ->
         decode stored = Some [] ->
         ver_success v = true /\ face_compared v = false).
Proof.
  cbv zeta. unfold verify_face, face_matched, face_compared.
  destruct capture as [image|error].
  2:{ early_return. }
  destruct (extract image) as [current|] eqn:Hextract.
  2:{ early_return. }
  destruct (decode stored) as [stored_data|] eqn:Hdecode.
  2:{ early_return. }
  cbn [ver_success ver_error verification_result capture_info]. split.
  { split; [intros _|reflexivity].
    exists image, current, stored_data. repeat split; assumption. }
  split; [split; reflexivity|]. split.
  - intros Hmatch.
    pose proof (face_match_needs_success _ _ _ Hmatch) as Hsuccess.
    repeat split; [exact Hsuccess|]. eexists. split; [reflexivity|].
    rewrite <- (ThresholdClaims.face_match_flag _ _ _ Hsuccess). exact Hmatch.
  - intros i c Hi Hc Hd. assert (Hstored : stored_data = []) by congruence.
    subst stored_data. split; reflexivity.
Qed.

Lemma verify_face_outcomes_witness :
  let v := verify_face (fun stored => Some []) (Enrollment.Captured "aW1hZ2U=")
                       (fun image => Some Samples.plain_encoding)
                       "2024-01-01T09:00:05" "W10=" Face.default_threshold in
  ver_success v = true /\ face_compared v = false.
Proof.
  apply (proj2 (proj2 (proj2 (verify_face_outcomes
                                (fun stored => Some []) (Enrollment.Captured "aW1hZ2U=")
                                (fun image => Some Samples.plain_encoding)
                                "2024-01-01T09:00:05" "W10=" Face.default_threshold)))
               "aW1hZ2U=" Samples.plain_encoding);
    reflexivity.
Defined.

End DeviceProperties.

(** ** The mock service *)

Module MockProperties.

Import Serialization MockService.
Local Open Scope string_scope.
Local Open Scope float_scope.

Lemma bytes_eqb_eq (a b : bytes) : bytes_eqb a b = true <-> a = b.
Proof.
  revert b. induction a as [|x a IH]; intros [|y b]; simpl;
    try (split; [discriminate|congruence]); [split; reflexivity|].
  rewrite andb_true_iff, IH. split.
  - intros [Hxy ->]. apply Byte.byte_dec_bl in Hxy. now subst.
  - intros [= -> ->]. split; [now apply Byte.byte_dec_lb|reflexivity].
Qed.

Lemma bytes_eqb_neq (a b : bytes) : a <> b -> bytes_eqb a b = false.
Proof.
  intros H. destruct (bytes_eqb a b) eqn:E; [|reflexivity].
  apply bytes_eqb_eq in E. contradiction.
Qed.

Section Libraries.

Variable ndarray : Type.
Variable py_value : Type.
Variable np_array : py_value -> option ndarray.
Variable json_loads : string -> option py_value.
Variable str_encode : string -> option bytes.
Variable bytes_decode : bytes -> option string.
Variable b64encode : bytes -> bytes.
Variable b64decode : bytes -> option bytes.
Variable distance : ndarray -> ndarray -> option float.

Abbreviation encode := (encode_fingerprint_template bytes_decode b64encode).
Abbreviation decode := (decode_fingerprint_template str_encode b64decode).
Abbreviation verify := (verify_fingerprint str_encode b64decode).
Abbreviation face_computed :=
  (face_distance_computed np_array json_loads str_encode bytes_decode b64decode distance).
Abbreviation fingerprint_ok := (fingerprint_passes str_encode b64decode).

(** X16.  A byte template survives its storage text: wherever base64 and
    the text codec undo their own conversions, decoding the text of a
    template gives the template back, the mock verification of the same
    bytes against that text matches with confidence 0.98, and any other
    bytes do not match (confidence 0.1).  A missing or empty text is a
    failure, not a mismatch. *)
Theorem fingerprint_template_round_trip :
  (forall data encoded,
      bytes_decode (b64encode data) = Some encoded ->
      encoded <> "" ->
      str_encode encoded = Some (b64encode data) ->
      b64decode (b64encode data) = Some data ->
      encode (Some data) = Returned (Some encoded)
      /\ decode (Some encoded) = Some data
      /\ verify (Some encoded) data = MockResult true None (Some true) (Some 0.98)
      /\ (forall other, other <> data ->
                        verify (Some encoded) other
                        = MockResult true None (Some false) (Some 0.1)))
  /\ (forall captured,
         verify None captured = mock_failure "No fingerprint template stored for student"
         /\ verify (Some "") captured
            = mock_failure "No fingerprint template stored for student")
  /\ decode None = None
  /\ decode (Some "") = None.
Proof.
  split; [|repeat split].
  intros data encoded Htext Hnonempty Hback Hb64.
  assert (Hdecode : decode (Some encoded) = Some data).
  { unfold decode_fingerprint_template, and_then.
    destruct encoded; [congruence|]. now rewrite Hback. }
  split; [unfold encode_fingerprint_template; now rewrite Htext|].
  split; [exact Hdecode|].
  unfold verify_fingerprint. rewrite Hdecode.
  destruct encoded as [|c rest]; [congruence|].
  split.
  - cbn [compare_fingerprint_templates].
    now rewrite (proj2 (bytes_eqb_eq data data) eq_refl).
  - intros other Hother. cbn [compare_fingerprint_templates].
    rewrite (bytes_eqb_neq data other); [reflexivity|congruence].
Qed.

Ltac reduce :=
  cbn [Decision.verified option_map as_verification m_success m_match Py.get andb
       mock_failure Decision.v_success Decision.v_match compare_fingerprint_templates].

(** The fingerprint entry of the dictionary counts as verified exactly when
    the stored text decodes to the captured bytes. *)
Lemma fingerprint_verified_iff fingerprint_template captured_fingerprint :
  Decision.verified
    (option_map as_verification
       match fingerprint_template with
       | None | Some "" => Some (mock_failure "No fingerprint template stored for student")
       | Some _ =>
           match captured_fingerprint with
           | Some captured => Some (verify fingerprint_template captured)
           | None => None
           end
       end)
  = true
  <-> fingerprint_ok fingerprint_template captured_fingerprint.
Proof.
  unfold fingerprint_passes, verify_fingerprint.
  destruct fingerprint_template as [[|c rest]|].
  - reduce. split; [discriminate|]. intros (s & ? & [= <-] & H & _). congruence.
  - destruct captured_fingerprint as [captured|].
    + destruct (decode_fingerprint_template str_encode b64decode (Some (String c rest)))
        as [stored|] eqn:Hd.
      * reduce. rewrite bytes_eqb_eq. split.
        -- intros ->. exists (String c rest), captured. repeat split; congruence.
        -- intros (s & cap & [= <-] & _ & [= <-] & Hd'). congruence.
      * reduce. split; [discriminate|].
        intros (s & cap & [= <-] & _ & _ & Hd'). congruence.
    + reduce. split; [discriminate|]. intros (? & ? & _ & _ & H & _). discriminate.
  - reduce. split; [discriminate|]. intros (? & ? & H & _). discriminate.
Qed.

(** The face entry of the dictionary: it holds a [numpy.bool_] exactly when
    the distance was computed, and counts as verified only then. *)
Lemma face_entry face_encoding captured_face :
  let entry :=
    match face_encoding with
    | None | Some "" => Some (face_failure "No face encoding stored for student")
    | Some _ =>
        match captured_face with
        | Some captured =>
            Some (verify_face np_array json_loads str_encode bytes_decode b64decode
                              distance face_encoding captured)
        | None => None
        end
    end in
  ((exists r b, entry = Some r /\ f_match r = Some (NumpyBool b))
   <-> face_computed face_encoding captured_face)
  /\ ((forall r b, entry = Some r -> f_match r <> Some (NumpyBool b)) ->
      Decision.verified (option_map as_face_verification entry) = false).
Proof.
  cbv zeta. unfold face_distance_computed, verify_face, compare_face_encodings.
  destruct face_encoding as [[|c rest]|].
  - split; [split|reflexivity].
    + intros (r & b & [= <-] & H). discriminate H.
    + intros (s & ? & ? & ? & [= <-] & H & _). congruence.
  - destruct captured_face as [captured|].
    + destruct (decode_face_data np_array json_loads str_encode bytes_decode b64decode
                                 (Some (String c rest))) as [decoded|] eqn:Hd.
      * destruct (distance decoded captured) as [d|] eqn:Hdist.
        -- split; [split|].
           ++ intros _. exists (String c rest), captured, decoded, d.
              repeat split; congruence.
           ++ intros _. eexists. eexists. split; reflexivity.
           ++ intros H. exfalso. eapply H; reflexivity.
        -- split; [split|reflexivity].
           ++ intros (r & b & [= <-] & H). discriminate H.
           ++ intros (s & cap & dec & d & [= <-] & _ & [= <-] & Hd' & Hdist').
              assert (dec = decoded) by congruence. subst dec. congruence.
      * split; [split|reflexivity].
        -- intros (r & b & [= <-] & H). discriminate H.
        -- intros (s & cap & dec & d & [= <-] & _ & _ & Hd' & _). congruence.
    + split; [split|reflexivity].
      * intros (r & b & H & _). discriminate H.
      * intros (? & ? & ? & ? & _ & _ & H & _). discriminate H.
  - split; [split|reflexivity].
    + intros (r & b & [= <-] & H). discriminate H.
    + intros (? & ? & ? & ? & H & _). discriminate H.
Qed.

(** X17.  The route [/verify-student-biometrics] never answers "approved",
    and never "pending".  Whenever the face distance is computed (a stored
    text that decodes and a capture of a fitting shape) the match flag is a
    [numpy.bool_], [jsonify] raises and the answer is the status 500,
    whatever the distance and whatever the fingerprint.  In every answered
    dictionary the face is therefore not verified, and the status is
    "partial" when the stored fingerprint text decodes to the captured bytes
    and "rejected" otherwise. *)
Theorem verify_student_biometrics_status
        (face_encoding fingerprint_template : option string)
        (captured_face : option ndarray) (captured_fingerprint : option bytes) :
  let answer :=
    verify_student_biometrics np_array json_loads str_encode bytes_decode b64decode
                              distance face_encoding fingerprint_template
                              captured_face captured_fingerprint in
  (answer = ServerError <-> face_computed face_encoding captured_face)
  /\ (forall results,
         answer = Answered results ->
         Decision.verified (option_map as_face_verification (face_verification results))
         = false
         /\ overall_status results <> Decision.approved
         /\ overall_status results <> Decision.pending
         /\ (overall_status results = Decision.partial
             <-> fingerprint_ok fingerprint_template captured_fingerprint)
         /\ (overall_status results = Decision.rejected
             <-> ~ fingerprint_ok fingerprint_template captured_fingerprint)).
Proof.
  cbv zeta.
  pose proof (face_entry face_encoding captured_face) as [Hnumpy Hface].
  pose proof (fingerprint_verified_iff fingerprint_template captured_fingerprint) as Hfinger.
  cbv zeta in Hnumpy, Hface.
  unfold verify_student_biometrics, jsonify_raises. cbn [face_verification].
  match goal with
  | |- context [Decision.overall_status (Decision.verified (option_map _ ?e)) ?g] =>
      set (entry := e) in *; set (fingerprint_verified := g) in *
  end.
  assert (Hanswered :
            Decision.verified (option_map as_face_verification entry) = false ->
            forall results,
              Answered
                (VerificationResults
                   entry
                   match fingerprint_template with
                   | None | Some "" =>
                       Some (mock_failure "No fingerprint template stored for student")
                   | Some _ =>
                       match captured_fingerprint with
                       | Some captured => Some (verify fingerprint_template captured)
                       | None => None
                       end
                   end
                   (Decision.overall_status
                      (Decision.verified (option_map as_face_verification entry))
                      fingerprint_verified))
              = Answered results ->
              Decision.verified
                (option_map as_face_verification (face_verification results)) = false
              /\ overall_status results <> Decision.approved
              /\ overall_status results <> Decision.pending
              /\ (overall_status results = Decision.partial
                  <-> fingerprint_ok fingerprint_template captured_fingerprint)
              /\ (overall_status results = Decision.rejected
                  <-> ~ fingerprint_ok fingerprint_template captured_fingerprint)).
  { intros Hv results [= <-]. cbn [face_verification overall_status].
    rewrite Hv, <- Hfinger.
    destruct fingerprint_verified; cbn; repeat split;
      try discriminate; try congruence; intros H; congruence. }
  destruct entry as [r|] eqn:Hentry.
  - destruct (f_match r) as [[b|b]|] eqn:Hmatch.
    + split; [split; [discriminate|]|].
      * intros H. apply Hnumpy in H as (r' & b' & [= <-] & H). congruence.
      * apply Hanswered, Hface. intros r' b' [= <-]. congruence.
    + split; [split; [|reflexivity]|discriminate].
      intros _. apply Hnumpy. exists r, b. auto.
    + split; [split; [discriminate|]|].
      * intros H. apply Hnumpy in H as (r' & b' & [= <-] & H). congruence.
      * apply Hanswered, Hface. intros r' b' [= <-]. congruence.
  - split; [split; [discriminate|]|].
    + intros H. apply Hnumpy in H as (r' & b' & H & _). discriminate H.
    + apply Hanswered, Hface. intros r' b' H. discriminate H.
Qed.

End Libraries.

Lemma fingerprint_template_round_trip_witness :
  let encoded := "ZHVtbXlfZmluZ2VycHJpbnRfdGVtcGxhdGVfZGF0YQ==" in
  decode_fingerprint_template ReferenceCodec.str_encode ReferenceCodec.b64decode
                              (Some encoded)
  = Some RouteSamples.dummy_template
  /\ verify_fingerprint ReferenceCodec.str_encode ReferenceCodec.b64decode
                        (Some encoded) RouteSamples.dummy_template
     = MockResult true None (Some true) (Some 0.98)
  /\ verify_fingerprint ReferenceCodec.str_encode ReferenceCodec.b64decode
                        (Some encoded) RouteSamples.other_template
     = MockResult true None (Some false) (Some 0.1).
Proof.
  cbv zeta.
  destruct (proj1 (fingerprint_template_round_trip
                     ReferenceCodec.str_encode ReferenceCodec.bytes_decode
                     ReferenceCodec.b64encode ReferenceCodec.b64decode)
                  RouteSamples.dummy_template
                  "ZHVtbXlfZmluZ2VycHJpbnRfdGVtcGxhdGVfZGF0YQ==")
    as (_ & Hdecode & Hsame & Hother);
    try (vm_compute; reflexivity); [discriminate|].
  split; [exact Hdecode|]. split; [exact Hsame|].
  apply Hother. vm_compute. discriminate.
Defined.

Lemma verify_student_biometrics_status_witness :
  verify_student_biometrics
    ReferenceCodec.np_array ReferenceCodec.json_loads ReferenceCodec.str_encode
    ReferenceCodec.bytes_decode ReferenceCodec.b64decode
    (fun known unknown : list nat => Some 0%float)
    (Some "WzEsIDIsIDNd") (Some "ZHVtbXlfZmluZ2VycHJpbnRfdGVtcGxhdGVfZGF0YQ==")
    (Some [1; 2; 3]%nat) (Some RouteSamples.dummy_template)
  = ServerError.
Proof.
  apply (proj1 (verify_student_biometrics_status
                  (list nat) (list nat)
                  ReferenceCodec.np_array ReferenceCodec.json_loads
                  ReferenceCodec.str_encode ReferenceCodec.bytes_decode
                  ReferenceCodec.b64decode
                  (fun known unknown : list nat => Some 0%float)
                  (Some "WzEsIDIsIDNd")
                  (Some "ZHVtbXlfZmluZ2VycHJpbnRfdGVtcGxhdGVfZGF0YQ==")
                  (Some [1; 2; 3]%nat)
                  (Some RouteSamples.dummy_template))).
  exists "WzEsIDIsIDNd", [1; 2; 3]%nat, [1; 2; 3]%nat, 0%float.
  repeat split; try discriminate; vm_compute; reflexivity.
Defined.

End MockProperties.

(** ** The routes and the store *)

Module RouteProperties.

Import Store EnhancedRoutes.
Local Open Scope string_scope.

Lemma find_update_first_same sid change rows :
  (forall s, student_id (change s) = student_id s) ->
  find (fun s => String.eqb (student_id s) sid) (update_first sid change rows)
  = option_map change (find (fun s => String.eqb (student_id s) sid) rows).
Proof.
  intros Hid. induction rows as [|s rest IH]; simpl; [reflexivity|].
  destruct (String.eqb (student_id s) sid) eqn:E; simpl.
  - now rewrite Hid, E.
  - now rewrite E, IH.
Qed.

Lemma find_update_first_other sid other change rows :
  (forall s, student_id (change s) = student_id s) ->
  other <> sid ->
  find (fun s => String.eqb (student_id s) other) (update_first sid change rows)
  = find (fun s => String.eqb (student_id s) other) rows.
Proof.
  intros Hid Hother. induction rows as [|s rest IH]; simpl; [reflexivity|].
  destruct (String.eqb (student_id s) sid) eqn:E; simpl.
  - rewrite Hid. apply String.eqb_eq in E.
    destruct (String.eqb (student_id s) other) eqn:E'; [|reflexivity].
    apply String.eqb_eq in E'. congruence.
  - now rewrite IH.
Qed.

Lemma update_first_length sid change rows :
  length (update_first sid change rows) = length rows.
Proof.
  induction rows as [|s rest IH]; simpl; [reflexivity|].
  destruct (String.eqb (student_id s) sid); simpl; congruence.
Qed.

(** What a committed change of one student's row does to the store. *)
Lemma commit_student_effect sid change db student :
  (forall s, student_id (change s) = student_id s) ->
  find_student sid db = Some student ->
  let db' := commit_student sid change db in
  find_student sid db' = Some (change student)
  /\ (forall other, other <> sid -> find_student other db' = find_student other db)
  /\ length (students db') = length (students db)
  /\ exam_sessions db' = exam_sessions db
  /\ verification_logs db' = verification_logs db.
Proof.
  intros Hid Hfound. cbv zeta. unfold find_student, commit_student in *. cbn.
  rewrite (find_update_first_same sid change (students db) Hid), Hfound.
  repeat split.
  - intros other Hother. now apply find_update_first_other.
  - apply update_first_length.
Qed.

Section Services.

Variable capture_fingerprint_image : nat -> Enrollment.capture_result.
Variable extract_fingerprint_template : nat -> string -> option Fingerprint.template.
Variable capture_face_from_camera : nat -> Enrollment.capture_result.
Variable extract_face_encoding : nat -> string -> option (list float).
Variable dumps_template : Fingerprint.template -> option string.
Variable dumps_encoding : Enrollment.mean_value -> option string.

(** X18.  The fingerprint enrollment route writes to the store only when it
    answers 200: every refusal (no student id, unknown student, failed
    enrollment, template that cannot be serialized) leaves the store as it
    was, and in particular a failing sample never reaches it.  On 200 the
    student's stored template is the storage text of the fusion of the
    requested number of templates (3 by default); the student's face
    encoding, the other students, the sessions and the logs are untouched. *)
Theorem enroll_fingerprint_route_writes_on_success
        (db : database) (now_combine now : string)
        (student_id : option string) (num_samples : option Z) :
  let answer := enroll_fingerprint capture_fingerprint_image extract_fingerprint_template
                                   dumps_template db now_combine now student_id num_samples in
  (success (fst answer) = false -> snd answer = db)
  /\ (success (fst answer) = true ->
      exists sid student templates text,
        student_id = Some sid
        /\ find_student sid db = Some student
        /\ length templates = Z.to_nat (requested_samples num_samples)
        /\ dumps_template (Fingerprint._combine_templates now_combine templates) = Some text
        /\ find_student sid (snd answer) = Some (set_fingerprint_template text student)
        /\ (forall other, other <> sid ->
                          find_student other (snd answer) = find_student other db)
        /\ exam_sessions (snd answer) = exam_sessions db
        /\ verification_logs (snd answer) = verification_logs db)
  /\ (forall i,
         (i < Z.to_nat (requested_samples num_samples))%nat ->
         Enrollment.fingerprint_sample_fails capture_fingerprint_image
                                             extract_fingerprint_template i = true ->
         success (fst answer) = false /\ snd answer = db).
Proof.
  cbv zeta. unfold enroll_fingerprint.
  destruct student_id as [[|c rest]|]; try (cbn; repeat split; intros; congruence).
  set (sid := String c rest).
  destruct (find_student sid db) as [student|] eqn:Hfound;
    [|cbn; repeat split; intros; congruence].
  destruct (EnrollmentProperties.failing_iteration
              (Enrollment.fingerprint_sample_fails capture_fingerprint_image
                                                   extract_fingerprint_template)
              (Z.to_nat (requested_samples num_samples))) as [(i & Hi & Hfail)|Hok].
  - assert (Hin : In i (seq 0 (Z.to_nat (requested_samples num_samples))))
      by (apply in_seq; lia).
    unfold Enrollment.enroll_fingerprint.
    destruct (EnrollmentClaims.fingerprint_loop_stops
                capture_fingerprint_image extract_fingerprint_template sid _ i Hin Hfail [])
      as [early Hearly].
    rewrite Hearly.
    rewrite (proj1 (EnrollmentClaims.fingerprint_early_return _ _ _ _ _ _ Hearly)).
    cbn. repeat split; intros; congruence.
  - destruct (EnrollmentClaims.enroll_fingerprint_succeeds
                capture_fingerprint_image extract_fingerprint_template
                now_combine now sid (requested_samples num_samples) Hok)
      as (templates & Hlen & Hr).
    rewrite Hr. cbn [Enrollment.fp_success Enrollment.fingerprint_template negb].
    destruct (dumps_template (Fingerprint._combine_templates now_combine templates))
      as [text|] eqn:Hdumps.
    + cbn [fst snd success ok].
      destruct (commit_student_effect sid (set_fingerprint_template text) db student
                  (fun s => eq_refl) Hfound) as (Hsame & Hother & _ & Hsessions & Hlogs).
      split; [discriminate|]. split.
      * intros _. exists sid, student, templates, text. repeat split; assumption.
      * intros i Hi Hfail. rewrite (Hok i Hi) in Hfail. discriminate.
    + cbn. repeat split; intros; congruence.
Qed.

(** X19.  The face enrollment route behaves the same way: it writes the
    storage text of the averaged encoding on 200 and nothing otherwise, and
    a failing sample never reaches the store. *)
Theorem enroll_face_route_writes_on_success
        (db : database) (now : string)
        (student_id : option string) (num_samples : option Z) :
  let answer := enroll_face capture_face_from_camera extract_face_encoding
                            dumps_encoding db now student_id num_samples in
  (success (fst answer) = false -> snd answer = db)
  /\ (success (fst answer) = true ->
      exists sid student encoding text,
        student_id = Some sid
        /\ find_student sid db = Some student
        /\ Enrollment.face_encoding
             (Enrollment.enroll_face capture_face_from_camera extract_face_encoding
                                     now sid (requested_samples num_samples))
           = Some encoding
        /\ dumps_encoding encoding = Some text
        /\ find_student sid (snd answer) = Some (set_face_encoding text student)
        /\ (forall other, other <> sid ->
                          find_student other (snd answer) = find_student other db)
        /\ exam_sessions (snd answer) = exam_sessions db
        /\ verification_logs (snd answer) = verification_logs db)
  /\ (forall i,
         (i < Z.to_nat (requested_samples num_samples))%nat ->
         Enrollment.face_sample_fails capture_face_from_camera
                                      extract_face_encoding i = true ->
         success (fst answer) = false /\ snd answer = db).
Proof.
  cbv zeta. unfold enroll_face.
  destruct student_id as [[|c rest]|]; try (cbn; repeat split; intros; congruence).
  set (sid := String c rest).
  destruct (find_student sid db) as [student|] eqn:Hfound;
    [|cbn; repeat split; intros; congruence].
  assert (Hstops : forall i,
             (i < Z.to_nat (requested_samples num_samples))%nat ->
             Enrollment.face_sample_fails capture_face_from_camera
                                          extract_face_encoding i = true ->
             Enrollment.fc_success
               (Enrollment.enroll_face capture_face_from_camera extract_face_encoding
                                       now sid (requested_samples num_samples)) = false).
  { intros i Hi Hfail. unfold Enrollment.enroll_face.
    assert (Hin : In i (seq 0 (Z.to_nat (requested_samples num_samples))))
      by (apply in_seq; lia).
    destruct (EnrollmentClaims.face_loop_stops
                capture_face_from_camera extract_face_encoding sid _ i Hin Hfail [])
      as [early Hearly].
    rewrite Hearly.
    exact (proj1 (EnrollmentClaims.face_early_return _ _ _ _ _ _ Hearly)). }
  destruct (Enrollment.fc_success
              (Enrollment.enroll_face capture_face_from_camera extract_face_encoding
                                      now sid (requested_samples num_samples)))
    eqn:Hsuccess.
  2:{ cbn. repeat split; intros; congruence. }
  cbn [negb].
  destruct (Enrollment.face_encoding
              (Enrollment.enroll_face capture_face_from_camera extract_face_encoding
                                      now sid (requested_samples num_samples)))
    as [encoding|] eqn:Hencoding.
  2:{ cbn. repeat split; intros; congruence. }
  destruct (dumps_encoding encoding) as [text|] eqn:Hdumps.
  - cbn [fst snd success ok].
    destruct (commit_student_effect sid (set_face_encoding text) db student
                (fun s => eq_refl) Hfound) as (Hsame & Hother & _ & Hsessions & Hlogs).
    split; [discriminate|]. split.
    + intros _. exists sid, student, encoding, text. repeat split; assumption.
    + intros i Hi Hfail. discriminate (Hstops i Hi Hfail).
  - cbn. repeat split; intros; congruence.
Qed.

End Services.

(** A comparison whose match flag is Python's [bool] never reports a match
    at the default threshold: it failed, or the zero-norm guard made the
    similarity 0.5. *)
Lemma python_flag_is_no_match (encoding1 encoding2 : list float) :
  Face.match_is_numpy_bool encoding1 encoding2 = false ->
  Face.is_match (Face.compare_face_encodings encoding1 encoding2 Face.default_threshold)
  = false.
Proof.
  unfold Face.match_is_numpy_bool, Face.compare_face_encodings.
  destruct encoding1 as [|x1 rest1], encoding2 as [|x2 rest2]; try reflexivity.
  destruct (Face.dot (x1 :: rest1) (x2 :: rest2)); [|reflexivity].
  intros H. apply negb_false_iff in H. rewrite H. reflexivity.
Qed.

(** The match flag is a [numpy.bool_] exactly for two non-empty encodings of
    the same length whose norms are not zero. *)
Lemma numpy_flag_iff (encoding1 encoding2 : list float) :
  Face.match_is_numpy_bool encoding1 encoding2 = true
  <-> encoding1 <> [] /\ encoding2 <> []
      /\ length encoding1 = length encoding2
      /\ PrimFloat.eqb (Face.norm encoding1) 0 = false
      /\ PrimFloat.eqb (Face.norm encoding2) 0 = false.
Proof.
  unfold Face.match_is_numpy_bool, Face.dot.
  destruct encoding1 as [|x1 rest1], encoding2 as [|x2 rest2];
    try (split; [discriminate|intros (H1 & H2 & _); congruence]).
  destruct (length (x1 :: rest1) =? length (x2 :: rest2))%nat eqn:Hlen.
  - apply Nat.eqb_eq in Hlen. rewrite negb_true_iff, orb_false_iff.
    split.
    + intros [H1 H2]. repeat split; try discriminate; assumption.
    + intros (_ & _ & _ & H1 & H2). auto.
  - apply Nat.eqb_neq in Hlen. split; [discriminate|].
    intros (_ & _ & H & _). contradiction.
Qed.

(** X20.  The face verification route enrolls on the side: when the student
    has no stored encoding, it stores the mock one before verifying and
    keeps it whatever the verification answers; nothing else in the store
    changes.  And the route never reports a matching face.  When the
    verification does not go through it answers 400.  When the comparison
    divides by two non-zero norms the match flag is a [numpy.bool_],
    [jsonify] raises and the answer is 500.  So a 200 answer comes only from
    a comparison that failed or met a zero norm, and carries [match] false. *)
Theorem verify_face_route_stores_mock_encoding
        (db : database) (sid mock_text : string) (student : student)
        (decode : string -> option (list float))
        (capture : Enrollment.capture_result)
        (extract : string -> option (list float)) (now : string) :
  sid <> "" ->
  find_student sid db = Some student ->
  let answer :=
    EnhancedRoutes.verify_face db (Some sid) mock_text decode capture extract now in
  let stored := if missing (face_encoding student) then mock_text
                else Py.get (face_encoding student) "" in
  let v := Devices.verify_face decode capture extract now stored Face.default_threshold in
  find_student sid (snd answer)
  = Some (if missing (face_encoding student) then set_face_encoding mock_text student
          else student)
  /\ (exists student', find_student sid (snd answer) = Some student'
                       /\ face_encoding student' = Some stored
                       /\ fingerprint_template student' = fingerprint_template student)
  /\ (forall other, other <> sid ->
                    find_student other (snd answer) = find_student other db)
  /\ verification_logs (snd answer) = verification_logs db
  /\ (Devices.ver_success v = false -> status_code (fst answer) = 400%nat)
  /\ (status_code (fst answer) = 500%nat
      <-> exists image_data current stored_data,
            capture = Enrollment.Captured image_data
            /\ extract image_data = Some current
            /\ decode stored = Some stored_data
            /\ stored_data <> [] /\ current <> []
            /\ length stored_data = length current
            /\ PrimFloat.eqb (Face.norm stored_data) 0 = false
            /\ PrimFloat.eqb (Face.norm current) 0 = false)
  /\ (success (fst answer) = true ->
      status_code (fst answer) = 200%nat
      /\ Devices.ver_success v = true /\ Devices.face_matched v = false).
Proof.
  intros Hsid Hfound. cbv zeta. unfold EnhancedRoutes.verify_face.
  destruct sid as [|c rest]; [congruence|]. rewrite Hfound.
  destruct (commit_student_effect (String c rest) (set_face_encoding mock_text) db student
              (fun s => eq_refl) Hfound) as (Hsame & Hother & _ & _ & Hlogs).
  set (stored := if missing (face_encoding student) then mock_text
                 else Py.get (face_encoding student) "").
  assert (Hstore :
            forall (r : response),
              let answer :=
                (let (stored', db') :=
                   if missing (face_encoding student)
                   then (mock_text,
                         commit_student (String c rest) (set_face_encoding mock_text) db)
                   else (Py.get (face_encoding student) "", db) in
                 (r, db')) in
              find_student (String c rest) (snd answer)
              = Some (if missing (face_encoding student)
                      then set_face_encoding mock_text student else student)
              /\ (exists student',
                     find_student (String c rest) (snd answer) = Some student'
                     /\ face_encoding student' = Some stored
                     /\ fingerprint_template student' = fingerprint_template student)
              /\ (forall other, other <> String c rest ->
                                find_student other (snd answer) = find_student other db)
              /\ verification_logs (snd answer) = verification_logs db).
  { intros r. cbv zeta. unfold stored.
    destruct (missing (face_encoding student)) eqn:Hmissing; cbn [snd].
    - split; [exact Hsame|].
      split; [eexists; split; [exact Hsame|split; reflexivity]|].
      split; assumption.
    - assert (Hstored : face_encoding student
                        = Some (Py.get (face_encoding student) "")).
      { destruct (face_encoding student) as [[|]|]; cbn in *; congruence. }
      split; [exact Hfound|].
      split; [exists student; repeat split; assumption|].
      split; reflexivity. }
  assert (Hshape :
            forall (r : response),
              fst (let (stored', db') :=
                     if missing (face_encoding student)
                     then (mock_text,
                           commit_student (String c rest) (set_face_encoding mock_text) db)
                     else (Py.get (face_encoding student) "", db) in
                   (r, db')) = r).
  { intros r. now destruct (missing (face_encoding student)). }
  assert (Hroute :
            (let (stored', db') :=
               if missing (face_encoding student)
               then (mock_text,
                     commit_student (String c rest) (set_face_encoding mock_text) db)
               else (Py.get (face_encoding student) "", db) in
             if negb (Devices.ver_success
                        (Devices.verify_face decode capture extract now stored'
                                             Face.default_threshold))
             then (refused 400
                           (Py.get (Devices.ver_error
                                      (Devices.verify_face decode capture extract now
                                                           stored' Face.default_threshold))
                                   "Face verification failed"), db')
             else if Devices.verify_face_returns_numpy_bool decode capture extract stored'
                  then (refused 500 ("Error verifying face: "
                                       ++ "Object of type bool_ is not JSON serializable"),
                        db')
                  else (ok, db'))
            = (let (stored', db') :=
                 if missing (face_encoding student)
                 then (mock_text,
                       commit_student (String c rest) (set_face_encoding mock_text) db)
                 else (Py.get (face_encoding student) "", db) in
               (if negb (Devices.ver_success
                           (Devices.verify_face decode capture extract now stored
                                                Face.default_threshold))
                then refused 400
                             (Py.get (Devices.ver_error
                                        (Devices.verify_face decode capture extract now
                                                             stored Face.default_threshold))
                                     "Face verification failed")
                else if Devices.verify_face_returns_numpy_bool decode capture extract stored
                     then refused 500 ("Error verifying face: "
                                         ++ "Object of type bool_ is not JSON serializable")
                     else ok, db'))).
  { unfold stored. destruct (missing (face_encoding student));
      repeat match goal with |- context [if ?b then _ else _] => destruct b end;
      reflexivity. }
  rewrite Hroute. clear Hroute.
  match goal with
  | |- context [let (_, _) := _ in (?r, _)] => set (reply := r) in *
  end.
  destruct (Hstore reply) as (H1 & H2 & H3 & H4).
  split; [exact H1|]. split; [exact H2|]. split; [exact H3|]. split; [exact H4|].
  rewrite (Hshape reply). clear Hstore Hshape H1 H2 H3 H4.
  unfold reply, Devices.verify_face, Devices.verify_face_returns_numpy_bool,
    Devices.face_matched.
  destruct capture as [image_data|error].
  - destruct (extract image_data) as [current|] eqn:Hextract.
    + destruct (decode stored) as [stored_data|] eqn:Hdecode.
      * cbn [Devices.ver_success Devices.verification_result negb].
        destruct (Face.match_is_numpy_bool stored_data current) eqn:Hflag.
        -- cbn [status_code success refused].
           split; [discriminate|]. split; [|discriminate].
           split; [intros _|reflexivity].
           exists image_data, current, stored_data.
           apply numpy_flag_iff in Hflag. rewrite Hextract. tauto.
        -- cbn [status_code success ok].
           split; [discriminate|]. split.
           ++ split; [discriminate|].
              intros (im & cur & sd & [= <-] & Hcur & [= <-] & Hrest).
              rewrite Hextract in Hcur. injection Hcur as <-.
              apply numpy_flag_iff in Hrest. congruence.
           ++ intros _. split; [reflexivity|]. split; [reflexivity|].
              now apply python_flag_is_no_match.
      * cbn [Devices.ver_success Devices.not_verified negb status_code success refused].
        split; [reflexivity|]. split; [|discriminate].
        split; [discriminate|].
        intros (im & cur & sd & [= <-] & Hcur & Hsd & _).
        rewrite Hextract in Hcur. congruence.
    + cbn [Devices.ver_success Devices.not_verified negb status_code success refused].
      split; [reflexivity|]. split; [|discriminate].
      split; [discriminate|].
      intros (im & cur & sd & [= <-] & Hcur & _). congruence.
  - cbn [Devices.ver_success Devices.not_verified negb status_code success refused].
    split; [reflexivity|]. split; [|discriminate].
    split; [discriminate|].
    intros (im & cur & sd & Hc & _). discriminate Hc.
Qed.

Lemma verify_face_route_stores_mock_encoding_witness :
  let answer :=
    EnhancedRoutes.verify_face
      RouteSamples.campus (Some "S002") "WzAuNV0="
      (fun stored => Some Samples.plain_encoding)
      (Enrollment.Captured "aW1hZ2U=") (fun image_data => Some Samples.plain_encoding)
      "2024-01-01T09:00:05" in
  status_code (fst answer) = 500%nat
  /\ find_student "S002" (snd answer)
     = Some (set_face_encoding "WzAuNV0=" RouteSamples.bob).
Proof.
  cbv zeta. split; [vm_compute; reflexivity|].
  apply (verify_face_route_stores_mock_encoding
           RouteSamples.campus "S002" "WzAuNV0=" RouteSamples.bob
           (fun stored => Some Samples.plain_encoding)
           (Enrollment.Captured "aW1hZ2U=") (fun image_data => Some Samples.plain_encoding)
           "2024-01-01T09:00:05").
  - discriminate.
  - reflexivity.
Defined.

(** X21.  The route [/verify-student] adds exactly one log row for a request
    that names a known student while an exam session is active, and changes
    nothing otherwise.  The row holds the two flags as given (false when
    absent), the status of the aggregation table as text, never "pending",
    and an error message unless the status is "approved". *)
Theorem verify_student_route_logs
        (db : database) (student_id : option string)
        (face_verified fingerprint_verified : option bool) :
  let answer := verify_student db student_id face_verified fingerprint_verified in
  let face := Py.get face_verified false in
  let finger := Py.get fingerprint_verified false in
  (success (fst answer) = true
   <-> exists sid student session,
        student_id = Some sid /\ sid <> ""
        /\ find_student sid db = Some student /\ active_session db = Some session)
  /\ (success (fst answer) = false -> snd answer = db)
  /\ (success (fst answer) = true ->
      exists sid student session log,
        student_id = Some sid
        /\ find_student sid db = Some student /\ active_session db = Some session
        /\ snd answer = add_log log db
        /\ log_student log = id student
        /\ log_exam_session log = session_id session
        /\ log_face_verified log = face
        /\ log_fingerprint_verified log = finger
        /\ log_verification_status log
           = Decision.status_text (Decision.overall_status face finger)
        /\ log_verification_status log <> "pending"
        /\ (log_error_message log = None <-> log_verification_status log = "approved")
        /\ (log_verification_status log = "approved" <-> face = true /\ finger = true)).
Proof.
  cbv zeta. unfold verify_student.
  destruct student_id as [[|c rest]|].
  1,3: cbn; repeat split; intros;
    repeat match goal with
           | H : exists _, _ |- _ => destruct H
           | H : _ /\ _ |- _ => destruct H
           end; congruence.
  destruct (find_student (String c rest) db) as [student|] eqn:Hfound.
  2:{ cbn; repeat split; intros;
      repeat match goal with
             | H : exists _, _ |- _ => destruct H
             | H : _ /\ _ |- _ => destruct H
             end; congruence. }
  destruct (active_session db) as [session|] eqn:Hsession.
  2:{ cbn; repeat split; intros;
      repeat match goal with
             | H : exists _, _ |- _ => destruct H
             | H : _ /\ _ |- _ => destruct H
             end; congruence. }
  unfold logged_status.
  destruct (Py.get face_verified false), (Py.get fingerprint_verified false); cbn;
    (split;
     [split; [intros _; exists (String c rest), student, session;
              repeat split; congruence|reflexivity]|]);
    (split; [discriminate|]);
    intros _; exists (String c rest), student, session; eexists;
    repeat split; try reflexivity; try discriminate; try congruence;
    intuition congruence.
Qed.

Lemma enroll_fingerprint_route_writes_on_success_witness :
  let answer :=
    enroll_fingerprint MoreSamples.steady_scanner Samples.steady_extractor
                       RouteSamples.dumps_template RouteSamples.campus
                       "2024-01-01T09:00:05" "2024-01-01T09:00:06" (Some "S001") None in
  exists sid student templates text,
    Some "S001" = Some sid
    /\ find_student sid RouteSamples.campus = Some student
    /\ length templates = 3%nat
    /\ RouteSamples.dumps_template
         (Fingerprint._combine_templates "2024-01-01T09:00:05" templates) = Some text
    /\ find_student sid (snd answer) = Some (set_fingerprint_template text student)
    /\ (forall other, other <> sid ->
                      find_student other (snd answer)
                      = find_student other RouteSamples.campus)
    /\ exam_sessions (snd answer) = exam_sessions RouteSamples.campus
    /\ verification_logs (snd answer) = verification_logs RouteSamples.campus.
Proof.
  apply (proj1 (proj2 (enroll_fingerprint_route_writes_on_success
                         MoreSamples.steady_scanner Samples.steady_extractor
                         RouteSamples.dumps_template RouteSamples.campus
                         "2024-01-01T09:00:05" "2024-01-01T09:00:06"
                         (Some "S001") None))).
  reflexivity.
Defined.

Lemma enroll_face_route_writes_on_success_witness :
  let answer :=
    enroll_face Samples.steady_camera Samples.flaky_face_extractor
                RouteSamples.dumps_encoding RouteSamples.campus
                "2024-01-01T09:00:05" (Some "S001") (Some 3%Z) in
  success (fst answer) = false /\ snd answer = RouteSamples.campus.
Proof.
  apply (proj2 (proj2 (enroll_face_route_writes_on_success
                         Samples.steady_camera Samples.flaky_face_extractor
                         RouteSamples.dumps_encoding RouteSamples.campus
                         "2024-01-01T09:00:05" (Some "S001") (Some 3%Z)))
               1%nat).
  - vm_compute. lia.
  - reflexivity.
Defined.

Lemma verify_student_route_logs_witness :
  let answer := verify_student RouteSamples.campus (Some "S002") (Some true) None in
  exists log,
    snd answer = add_log log RouteSamples.campus
    /\ log_verification_status log = "partial".
Proof.
  cbv zeta.
  destruct (proj2 (proj2 (verify_student_route_logs
                            RouteSamples.campus (Some "S002") (Some true) None))
                  eq_refl)
    as (sid & student & session & log & _ & _ & _ & Hlog & _ & _ & _ & _ & Hstatus & _).
  exists log. split; [exact Hlog|exact Hstatus].
Defined.

End RouteProperties.
